(** * Triage core of the support bot: lexicon scoring, retrieval, contact
    links and the rate-limited responder.

    Shallow embedding of
      - apps/social-monitor/processors/complaint_detector.py
      - apps/social-monitor/processors/link_generator.py
      - apps/social-monitor/responders/auto_responder.py
      - apps/social-monitor/collectors/mastodon_collector.py
      - apps/ai-engine/models/sentiment_analyzer.py
      - apps/ai_engine/models/intent_detector.py
      - apps/ai_engine/api_simple.py (the intent endpoint)
      - apps/ai-engine/rag/vector_store.py

    Conventions.
      - A Python [str] is a list of Unicode code points ([pystr]); literals
        are written as UTF-8 text and decoded by [py].
      - A Python [float] is an exact rational ([Q]).  Every comparison the
        theorems evaluate on a concrete input is far from its threshold, and
        the universal theorems only use monotonicity of [+] and [*].  Where
        a later theorem states that computed shares add up to 1, this is
        the exact sum; floating-point rounding can miss it by a few units
        in the last place.
      - [datetime.now()] is an input: a naive local time in microseconds
        ([Z]); each call site of the source gets its own reading.
      - A [try/except Exception] that returns a default is an [option] or
        the default value itself. *)

From stdpp Require Import gmap.
From Stdlib Require Import ZArith NArith QArith Qminmax Qabs String Ascii List Bool Lia Lqa Sorted.
Import ListNotations.

(* ===================================================================== *)
(** ** Python strings                                                     *)
(* ===================================================================== *)

Module PyStr.

Definition codepoint := N.
Definition pystr := list N.

(** UTF-8 decoder, used only to write the literals of the lexicons. *)
Fixpoint utf8_decode (bs : list N) (pending acc : N) : pystr :=
  match bs with
  | [] => []
  | b :: r =>
      if (b <? 128)%N then b :: utf8_decode r 0 0
      else if (b <? 192)%N then
        let acc' := (acc * 64 + (b - 128))%N in
        if (pending <=? 1)%N then acc' :: utf8_decode r 0 0
        else utf8_decode r (pending - 1) acc'
      else if (b <? 224)%N then utf8_decode r 1 (b - 192)
      else if (b <? 240)%N then utf8_decode r 2 (b - 224)
      else utf8_decode r 3 (b - 240)
  end.

Definition py (s : string) : pystr :=
  utf8_decode (List.map N_of_ascii (list_ascii_of_string s)) 0 0.

Definition in_range (lo hi c : N) : bool := ((lo <=? c) && (c <=? hi))%N.

(** *** Character tables of the interpreter

    [str.lower], [str.isupper], [str.isspace] and the classes [\w], [\s] of
    [re] come from the Unicode tables of the interpreter, not from the
    repository.  They are reproduced exactly for U+0000..U+017F (Basic
    Latin, Latin-1 Supplement, Latin Extended-A), which covers French text.
    [isspace_cp] is the complete white-space class.  Beyond U+017F the tables
    record one more fact: the mathematical bold capitals
    U+1D400..U+1D419 are upper-case letters (category Lu) that have no
    lower-case mapping, so [lower] leaves them alone and [isupper] stays
    true on them.  Every other code point is taken as a caseless symbol. *)

(** Pairs (upper, upper+1) of Latin Extended-A. *)
Definition latin_ext_a_upper (c : N) : bool :=
  (in_range 256 302 c && N.even c)          (* U+0100..U+012E, even *)
  || (in_range 306 310 c && N.even c)       (* U+0132..U+0136, even *)
  || (in_range 313 327 c && N.odd c)        (* U+0139..U+0147, odd  *)
  || (in_range 330 374 c && N.even c)       (* U+014A..U+0176, even *)
  || (in_range 377 381 c && N.odd c).       (* U+0179..U+017D, odd  *)

Definition latin1_upper (c : N) : bool :=
  in_range 65 90 c || in_range 192 214 c || in_range 216 222 c.

Definition math_bold_capital (c : N) : bool := in_range 119808 119833 c.

(** [c.isupper()] for a one-character string. *)
Definition isupper_cp (c : N) : bool :=
  latin1_upper c || latin_ext_a_upper c
  || (c =? 304)%N || (c =? 376)%N           (* U+0130, U+0178 *)
  || math_bold_capital c.

(** [c.lower()] for a one-character string (U+0130 lowers to two code
    points). *)
Definition lower_cp (c : N) : pystr :=
  if latin1_upper c then [(c + 32)%N]
  else if latin_ext_a_upper c then [(c + 1)%N]
  else if (c =? 304)%N then [105; 775]%N
  else if (c =? 376)%N then [255%N]
  else [c].

(** [s.lower()]. *)
Definition lower (s : pystr) : pystr := flat_map lower_cp s.

(** [c.isspace()], also the class [\s]. *)
Definition isspace_cp (c : N) : bool :=
  in_range 9 13 c || in_range 28 32 c || (c =? 133)%N || (c =? 160)%N
  || (c =? 5760)%N || in_range 8192 8202 c || in_range 8232 8233 c
  || (c =? 8239)%N || (c =? 8287)%N || (c =? 12288)%N.

(** The class [\w]: [c.isalnum() or c == '_']. *)
Definition isword_cp (c : N) : bool :=
  in_range 48 57 c || in_range 65 90 c || (c =? 95)%N || in_range 97 122 c
  || (c =? 170)%N || in_range 178 179 c || (c =? 181)%N
  || in_range 185 186 c || in_range 188 190 c
  || in_range 192 214 c || in_range 216 246 c || in_range 248 383 c
  || math_bold_capital c.

(** *** Substring operations *)

(** [s.startswith(sub)]. *)
Fixpoint startswith (sub s : pystr) : bool :=
  match sub, s with
  | [], _ => true
  | _ :: _, [] => false
  | a :: sub', b :: s' => (a =? b)%N && startswith sub' s'
  end.

(** [sub in s]. *)
Fixpoint contains (sub s : pystr) : bool :=
  startswith sub s
  || match s with
     | [] => false
     | _ :: t => contains sub t
     end.

(** [s.count(sub)]: occurrences that do not overlap, scanned from the left.
    [skip] is the number of code points still covered by the last
    occurrence. *)
Fixpoint count_from (sub s : pystr) (skip : nat) : Z :=
  match s with
  | [] => match skip, sub with O, [] => 1 | _, _ => 0 end
  | _ :: t =>
      match skip with
      | S k => count_from sub t k
      | O => if startswith sub s
             then 1 + count_from sub t (Nat.pred (length sub))
             else count_from sub t 0
      end
  end%Z.

Definition count (sub s : pystr) : Z := count_from sub s 0.

(** [len(s.split())]: the number of maximal runs that hold no white space. *)
Fixpoint split_len_from (s : pystr) (in_word : bool) : Z :=
  match s with
  | [] => 0
  | c :: t =>
      if isspace_cp c then split_len_from t false
      else ((if in_word then 0 else 1) + split_len_from t true)
  end%Z.

Definition split_len (s : pystr) : Z := split_len_from s false.

(** [sum(1 for c in s if c.isupper())]. *)
Definition upper_count (s : pystr) : Z :=
  Z.of_nat (length (List.filter isupper_cp s)).

Definition len (s : pystr) : Z := Z.of_nat (length s).

Fixpoint lstrip (s : pystr) : pystr :=
  match s with
  | [] => []
  | c :: t => if isspace_cp c then lstrip t else s
  end.

(** [s.strip()] *)
Definition strip (s : pystr) : pystr := rev (lstrip (rev (lstrip s))).

(** [s.replace(old, new)]: every occurrence that does not overlap an
    earlier one, scanned from the left; an empty [old] matches before each
    code point and at the end. *)
Fixpoint replace_from (old new s : pystr) (skip : nat) : pystr :=
  match s with
  | [] => match skip, old with O, [] => new | _, _ => [] end
  | c :: t =>
      match skip with
      | S k => replace_from old new t k
      | O => if startswith old s
             then new ++ match old with [] => [c] | _ :: _ => [] end
                      ++ replace_from old new t (Nat.pred (length old))
             else c :: replace_from old new t 0
      end
  end.

Definition replace (old new s : pystr) : pystr := replace_from old new s 0.

End PyStr.
Export PyStr.

(* ===================================================================== *)
(** ** The fragment of [re] the lexicons use                              *)
(* ===================================================================== *)

Module Re.

(** Every pattern of the lexicons is a sequence of literals joined by [.*]
    ([r"je.*suis.*déçu"]); no other metacharacter occurs.  A pattern is kept
    as its source text and compiled by cutting it at each [.*].  [.] matches
    any code point but the line feed (no DOTALL flag is passed). *)

Fixpoint literals_from (p : pystr) (cur : pystr) : list pystr :=
  match p with
  | [] => [rev cur]
  | c :: r =>
      match c, r with
      | 46%N, 42%N :: r' => rev cur :: literals_from r' []
      | _, _ => literals_from r (c :: cur)
      end
  end.

Definition literals (p : pystr) : list pystr := literals_from p [].

(** Under [re.IGNORECASE] a literal matches a code point when both have the
    same simple lower-case form, or when they are one of the pairs the
    engine treats as equivalent; up to U+017F these are i / dotless i
    (U+0131) and s / long s (U+017F). *)
Definition simple_lower_cp (c : N) : N :=
  if latin1_upper c then (c + 32)%N
  else if latin_ext_a_upper c then (c + 1)%N
  else if (c =? 304)%N then 105%N
  else if (c =? 376)%N then 255%N
  else c.

Definition fold_cp (c : N) : N :=
  let c := simple_lower_cp c in
  if (c =? 305)%N then 105%N else if (c =? 383)%N then 115%N else c.

(** How a literal code point is compared with one of the text. *)
Definition same_cp (ignorecase : bool) (p t : N) : bool :=
  if ignorecase then (fold_cp p =? fold_cp t)%N else (p =? t)%N.

Section Matching.

Variable ignorecase : bool.

(** The literal [lit] matches at the start of [s]. *)
Fixpoint literal_at (lit s : pystr) : bool :=
  match lit, s with
  | [], _ => true
  | _ :: _, [] => false
  | a :: lit', b :: s' => same_cp ignorecase a b && literal_at lit' s'
  end.

(** [.*lit1.*lit2...] matched at the start of [s]. *)
Fixpoint match_tail (lits : list pystr) (s : pystr) : bool :=
  match lits with
  | [] => true
  | lit :: rest =>
      (fix scan (s : pystr) : bool :=
         (literal_at lit s && match_tail rest (skipn (length lit) s))
         || match s with
            | [] => false
            | c :: t => if (c =? 10)%N then false else scan t
            end) s
  end.

Fixpoint search_lits (lit : pystr) (rest : list pystr) (s : pystr) : bool :=
  (literal_at lit s && match_tail rest (skipn (length lit) s))
  || match s with
     | [] => false
     | _ :: t => search_lits lit rest t
     end.

Definition search_with (p s : pystr) : bool :=
  match literals p with
  | [] => true
  | lit :: rest => search_lits lit rest s
  end.

End Matching.

(** [re.search(p, s)] as a truth value. *)
Definition search (p s : pystr) : bool := search_with false p s.

(** [re.search(p, s, re.IGNORECASE)] as a truth value. *)
Definition search_ignorecase (p s : pystr) : bool := search_with true p s.

(** *** [len(re.findall(r"(\w+)\s+\1", s))]

    At a start position the match is unique: [\w+] has to run to the end
    of the run of word characters (what follows must be white space), [\s+]
    has to take the whole run of white space (the back-reference starts with
    a word character), and the text that follows must repeat the group.
    [findall] scans from the left and resumes after each match. *)

Fixpoint span (f : N -> bool) (s : pystr) : pystr * pystr :=
  match s with
  | [] => ([], [])
  | c :: t => if f c then let (a, b) := span f t in (c :: a, b) else ([], s)
  end.

Definition repetition_at (s : pystr) : option nat :=
  let (w, r1) := span isword_cp s in
  match w with
  | [] => None
  | _ :: _ =>
      let (ws, r2) := span isspace_cp r1 in
      match ws with
      | [] => None
      | _ :: _ =>
          if startswith w r2
          then Some (length w + length ws + length w)%nat
          else None
      end
  end.

Fixpoint repetitions_from (s : pystr) (skip : nat) : Z :=
  match s with
  | [] => 0
  | _ :: t =>
      match skip with
      | S k => repetitions_from t k
      | O => match repetition_at s with
             | Some n => 1 + repetitions_from t (Nat.pred n)
             | None => repetitions_from t 0
             end
      end
  end%Z.

Definition repetitions (s : pystr) : Z := repetitions_from s 0.

End Re.

(* ===================================================================== *)
(** ** Floats as rationals                                                *)
(* ===================================================================== *)

Definition Qleb (x y : Q) : bool := Qle_bool x y.
Definition Qltb (x y : Q) : bool := negb (Qle_bool y x).
Definition Qgeb (x y : Q) : bool := Qleb y x.
Definition Qgtb (x y : Q) : bool := Qltb y x.
Definition ofZ (z : Z) : Q := inject_Z z.

(** [len(l)] for a list. *)
Definition len_list {A} (l : list A) : Z := Z.of_nat (length l).

Fixpoint str_eqb (a b : pystr) : bool :=
  match a, b with
  | [], [] => true
  | x :: a', y :: b' => (x =? y)%N && str_eqb a' b'
  | _, _ => false
  end.

(** [x in l] for a list of strings. *)
Definition str_mem (x : pystr) (l : list pystr) : bool := existsb (str_eqb x) l.

(** [any(k in content for k in l)]. *)
Definition any_in (l : list pystr) (content : pystr) : bool :=
  existsb (fun k => contains k content) l.

(* ===================================================================== *)
(** ** ComplaintDetector (complaint_detector.py)                          *)
(* ===================================================================== *)

Module ComplaintDetector.

Local Open Scope Q_scope.

Inductive urgency := Low | Medium | High | Urgent.
Inductive complaint_type :=
  Billing | Technical | CustomerService | Cancellation | General | Unknown.
Inductive sentiment := VeryNegative | Negative | SlightlyNegative | Neutral.

Definition complaint_keywords : list pystr := List.map py [
  "nul"; "nulle"; "horrible"; "terrible"; "catastrophe"; "désastre";
  "mauvais"; "mal"; "malheureux"; "déçu"; "décevant"; "frustrant";
  "énervant"; "agacé"; "fâché"; "en colère"; "furieux"; "exaspéré";
  "dégoûté"; "révolté"; "scandalisé"; "indigné"; "outré";
  "problème"; "bug"; "erreur"; "dysfonctionnement"; "panne";
  "plainte"; "réclamation"; "rémunération"; "dédommagement" ]%string.

(** The list of the source, repeated entries included: an emoji listed
    three times counts three times. *)
Definition negative_emojis : list pystr := List.map py [
  "😠"; "😡"; "🤬"; "😤"; "😞"; "😢"; "😭"; "👎"; "❌"; "💔"; "😒";
  "🤮"; "🤢"; "😤"; "😠"; "😡"; "🤬"; "😤"; "😞"; "😢"; "😭" ]%string.

Definition complaint_patterns : list pystr := List.map py [
  "je.*suis.*déçu";
  "c'est.*nul";
  "ça.*marche.*pas";
  "service.*client.*nul";
  "free.*mobile.*nul";
  "jamais.*plus.*free";
  "je.*vais.*changer";
  "résilier.*contrat";
  "plainte.*contre";
  "réclamation.*free" ]%string.

Definition intensifiers : list pystr := List.map py [
  "très"; "vraiment"; "extrêmement"; "totalement"; "complètement";
  "absolument"; "carrément"; "franchement"; "sérieusement" ]%string.

Definition negations : list pystr := List.map py [
  "pas"; "ne"; "n'"; "jamais"; "rien"; "aucun"; "nul"; "nulle" ]%string.

Definition strong_keywords : list pystr :=
  List.map py [ "nul"; "horrible"; "terrible"; "catastrophe" ]%string.

(** [_count_negative_emojis] *)
Definition _count_negative_emojis (content : pystr) : Z :=
  fold_left (fun n emoji => (n + PyStr.count emoji content)%Z) negative_emojis 0%Z.

(** [caps_ratio]: upper-case code points over the length, 0 on the empty
    string. *)
Definition caps_ratio (content : pystr) : Q :=
  match content with
  | [] => 0
  | _ :: _ => ofZ (upper_count content) / ofZ (len content)
  end.

(** [_calculate_complaint_score], one definition per loop of the source. *)
Definition keyword_score (content : pystr) (score : Q) : Q :=
  fold_left (fun score keyword =>
    if contains keyword content then
      let score := score + 1 in
      if str_mem keyword strong_keywords then score + (1#2) else score
    else score) complaint_keywords score.

Definition pattern_score (content : pystr) (score : Q) : Q :=
  fold_left (fun score pattern =>
    if Re.search pattern content then score + 2 else score)
    complaint_patterns score.

Definition repetition_score (content : pystr) (score : Q) : Q :=
  fold_left (fun score keyword =>
    let n := PyStr.count keyword content in
    if (n >? 1)%Z then score + ofZ (n - 1) * (3#10) else score)
    complaint_keywords score.

Definition caps_score (content : pystr) (score : Q) : Q :=
  if Qgtb (caps_ratio content) (3#10) then score + 1 else score.

Definition _calculate_complaint_score (content : pystr) : Q :=
  let score := 0 in
  let score := keyword_score content score in
  let score := pattern_score content score in
  let emoji_count := _count_negative_emojis content in
  let score := score + ofZ emoji_count * (1#2) in
  let score := repetition_score content score in
  let score := caps_score content score in
  let exclamation_count := PyStr.count (py "!") content in
  score + ofZ exclamation_count * (2#10).

Definition _find_complaint_keywords (content : pystr) : list pystr :=
  List.filter (fun keyword => contains keyword content) complaint_keywords.

Definition _find_complaint_patterns (content : pystr) : list pystr :=
  List.filter (fun pattern => Re.search pattern content) complaint_patterns.

Definition _has_negation (content : pystr) : bool := any_in negations content.

Definition urgency_score (complaint_score : Q)
    (emoji_count keyword_count pattern_count : Z) : Q :=
  complaint_score + ofZ emoji_count * (1#2) + ofZ keyword_count * (3#10)
  + ofZ pattern_count * (1#2).

Definition _calculate_urgency (complaint_score : Q)
    (emoji_count keyword_count pattern_count : Z) : urgency :=
  let urgency_score :=
    urgency_score complaint_score emoji_count keyword_count pattern_count in
  if Qgeb urgency_score 8 then Urgent
  else if Qgeb urgency_score 5 then High
  else if Qgeb urgency_score 3 then Medium
  else Low.

Definition billing_keywords : list pystr := List.map py [
  "facture"; "facturation"; "paiement"; "prélèvement"; "coût"; "prix" ]%string.
Definition tech_keywords : list pystr := List.map py [
  "problème"; "bug"; "erreur"; "connexion"; "réseau"; "signal"; "wifi" ]%string.
Definition service_keywords : list pystr := List.map py [
  "service"; "client"; "support"; "aide"; "réponse"; "attente" ]%string.
Definition cancellation_keywords : list pystr := List.map py [
  "résilier"; "annuler"; "arrêter"; "changer"; "opérateur" ]%string.

(** [_classify_complaint_type]; the argument [keywords] is unused by the
    source as well. *)
Definition _classify_complaint_type (content : pystr) (keywords : list pystr)
    : complaint_type :=
  if any_in billing_keywords content then Billing
  else if any_in tech_keywords content then Technical
  else if any_in service_keywords content then CustomerService
  else if any_in cancellation_keywords content then Cancellation
  else General.

Definition _analyze_sentiment (content : pystr) (complaint_score : Q) : sentiment :=
  if Qgeb complaint_score 5 then VeryNegative
  else if Qgeb complaint_score 3 then Negative
  else if Qgeb complaint_score 1 then SlightlyNegative
  else Neutral.

Record verdict := {
  is_complaint : bool;
  complaint_score : Q;
  confidence : Q;
  v_urgency : urgency;
  v_type : complaint_type;
  keywords_found : list pystr;
  patterns_found : list pystr;
  negative_emoji_count : Z;
  has_negation : bool;
  v_sentiment : sentiment
}.

(** [detect_complaint].  With a [str] argument nothing in the body raises,
    so the [except] branch is not reached.  The emoji count of the verdict
    is taken on [content], the one inside the score on [content_lower]. *)
Definition detect_complaint (content : pystr) : verdict :=
  let content_lower := lower content in
  let complaint_score := _calculate_complaint_score content_lower in
  let found_keywords := _find_complaint_keywords content_lower in
  let found_patterns := _find_complaint_patterns content_lower in
  let negative_emoji_count := _count_negative_emojis content in
  let has_negation := _has_negation content_lower in
  let urgency :=
    _calculate_urgency complaint_score negative_emoji_count
      (Z.of_nat (length found_keywords)) (Z.of_nat (length found_patterns)) in
  let complaint_type := _classify_complaint_type content_lower found_keywords in
  let confidence := Qmin (complaint_score / 10) 1 in
  {| is_complaint := Qgeb complaint_score 3;
     complaint_score := complaint_score;
     confidence := confidence;
     v_urgency := urgency;
     v_type := complaint_type;
     keywords_found := found_keywords;
     patterns_found := found_patterns;
     negative_emoji_count := negative_emoji_count;
     has_negation := has_negation;
     v_sentiment := _analyze_sentiment content_lower complaint_score |}.

(** [get_complaint_examples]: the texts the source documents, with the type
    and the urgency it gives for each. *)
Definition get_complaint_examples : list (pystr * complaint_type * urgency) := [
  (py "Free Mobile c'est nul, ça marche jamais !", Technical, High);
  (py "Je suis déçu de Free Mobile, service client inexistant",
   CustomerService, Medium);
  (py "Ma facture Free Mobile est trop chère, je vais résilier", Billing, High);
  (py "Problème de connexion Free Mobile depuis 3 jours", Technical, Medium) ].

Definition example_content : pystr :=
  py "Free Mobile c'est nul, ça marche jamais !".

(** *** [get_detection_stats] *)

(** The dict [urgency_counts], created with its four keys. *)
Record urgency_counts := {
  uc_low : Z;
  uc_medium : Z;
  uc_high : Z;
  uc_urgent : Z
}.

(** [urgency_counts[u] += 1] *)
Definition incr_urgency (c : urgency_counts) (u : urgency) : urgency_counts :=
  match u with
  | Low => {| uc_low := uc_low c + 1; uc_medium := uc_medium c;
              uc_high := uc_high c; uc_urgent := uc_urgent c |}
  | Medium => {| uc_low := uc_low c; uc_medium := uc_medium c + 1;
                 uc_high := uc_high c; uc_urgent := uc_urgent c |}
  | High => {| uc_low := uc_low c; uc_medium := uc_medium c;
               uc_high := uc_high c + 1; uc_urgent := uc_urgent c |}
  | Urgent => {| uc_low := uc_low c; uc_medium := uc_medium c;
                 uc_high := uc_high c; uc_urgent := uc_urgent c + 1 |}
  end%Z.

Definition complaint_type_eqb (a b : complaint_type) : bool :=
  match a, b with
  | Billing, Billing | Technical, Technical
  | CustomerService, CustomerService | Cancellation, Cancellation
  | General, General | Unknown, Unknown => true
  | _, _ => false
  end.

(** The dict [type_counts], in insertion order. *)
Definition type_counts := list (complaint_type * Z).

(** [d.get(k, 0)] *)
Fixpoint type_get (d : type_counts) (k : complaint_type) : Z :=
  match d with
  | [] => 0
  | (k', v) :: rest => if complaint_type_eqb k' k then v else type_get rest k
  end.

(** [d[k] = v]: the value is replaced in place, a new key goes last. *)
Fixpoint type_set (d : type_counts) (k : complaint_type) (v : Z) : type_counts :=
  match d with
  | [] => [(k, v)]
  | (k', v') :: rest =>
      if complaint_type_eqb k' k then (k', v) :: rest
      else (k', v') :: type_set rest k v
  end.

Record detection_stats := {
  ds_total : Z;
  ds_complaints : Z;
  ds_complaint_rate : Q;
  ds_urgency_distribution : option urgency_counts;
  ds_type_distribution : option type_counts
}.

(** One turn of the loop of [get_detection_stats]; a post is given by its
    ["content"], [None] when the key is missing. *)
Definition detection_step (acc : Z * urgency_counts * type_counts)
    (post_content : option pystr) : Z * urgency_counts * type_counts :=
  let '(complaint_count, urgency_counts, type_counts) := acc in
  let result :=
    detect_complaint (match post_content with Some c => c | None => [] end) in
  if is_complaint result then
    ((complaint_count + 1)%Z,
     incr_urgency urgency_counts (v_urgency result),
     type_set type_counts (v_type result)
       (type_get type_counts (v_type result) + 1)%Z)
  else acc.

(** [get_detection_stats]; the early return on an empty list has no
    distribution keys. *)
Definition get_detection_stats (posts : list (option pystr)) : detection_stats :=
  match posts with
  | [] => {| ds_total := 0; ds_complaints := 0; ds_complaint_rate := 0;
             ds_urgency_distribution := None; ds_type_distribution := None |}
  | _ :: _ =>
      let total_posts := len_list posts in
      let '(complaint_count, urgency_counts, type_counts) :=
        fold_left detection_step posts
          (0%Z, {| uc_low := 0; uc_medium := 0; uc_high := 0; uc_urgent := 0 |}, []) in
      {| ds_total := total_posts;
         ds_complaints := complaint_count;
         ds_complaint_rate :=
           if (total_posts >? 0)%Z
           then (ofZ complaint_count / ofZ total_posts) * 100 else 0;
         ds_urgency_distribution := Some urgency_counts;
         ds_type_distribution := Some type_counts |}
  end.

End ComplaintDetector.

(* ===================================================================== *)
(** ** SentimentAnalyzer (sentiment_analyzer.py)                          *)
(* ===================================================================== *)

Module SentimentAnalyzer.

Local Open Scope Q_scope.

Record lexicon := {
  keywords : list pystr;
  emojis : list pystr;
  patterns : list pystr
}.

Inductive label := Positive | Negative | Neutral.
Inductive urgency := Low | Medium | High.
Inductive emotion :=
  Frustration | Colere | Tristesse | Joie | Surprise | Peur | Confusion.

Definition positive_patterns : lexicon := {|
  keywords := List.map py [
    "merci"; "parfait"; "excellent"; "super"; "génial"; "fantastique";
    "bien"; "bon"; "satisfait"; "content"; "heureux"; "ravi";
    "apprécier"; "aimer"; "adorer"; "recommandé"; "conseiller";
    "bravo"; "félicitations"; "chapeau"; "top"; "cool"; "sympa" ]%string;
  emojis := List.map py [
    "😊"; "😄"; "😃"; "😁"; "😍"; "🥰"; "😘"; "👍"; "👏"; "🎉"; "✅" ]%string;
  patterns := List.map py [
    "très.*bien";
    "parfait.*service";
    "excellent.*travail";
    "je.*suis.*satisfait";
    "merci.*beaucoup" ]%string |}.

Definition negative_patterns : lexicon := {|
  keywords := List.map py [
    "nul"; "nulle"; "horrible"; "terrible"; "catastrophe"; "désastre";
    "mauvais"; "mal"; "malheureux"; "déçu"; "décevant"; "frustrant";
    "énervant"; "agacé"; "fâché"; "en colère"; "furieux"; "exaspéré";
    "dégoûté"; "révolté"; "scandalisé"; "indigné"; "outré";
    "problème"; "bug"; "erreur"; "dysfonctionnement"; "panne" ]%string;
  emojis := List.map py [
    "😠"; "😡"; "🤬"; "😤"; "😞"; "😢"; "😭"; "👎"; "❌"; "💔"; "😒" ]%string;
  patterns := List.map py [
    "je.*suis.*déçu";
    "c'est.*nul";
    "ça.*marche.*pas";
    "problème.*grave";
    "service.*client.*nul" ]%string |}.

Definition neutral_patterns : lexicon := {|
  keywords := List.map py [
    "question"; "demande"; "information"; "renseignement";
    "comment"; "pourquoi"; "quand"; "où"; "combien";
    "besoin"; "vouloir"; "souhaiter"; "désirer" ]%string;
  emojis := [];
  patterns := List.map py [
    "j'ai.*une.*question";
    "je.*voudrais.*savoir";
    "pouvez.*vous.*m'aider";
    "j'aimerais.*connaître" ]%string |}.

Definition positive_intensifiers : list pystr := List.map py [
  "très"; "vraiment"; "extrêmement"; "totalement"; "complètement" ]%string.
Definition negative_intensifiers : list pystr := List.map py [
  "très"; "vraiment"; "extrêmement"; "totalement"; "complètement";
  "absolument" ]%string.

(** [self.intensifiers.get(sentiment_type, [])]; the analyzer only asks for
    the two polarities. *)
Definition intensifiers (sentiment_type : label) : list pystr :=
  match sentiment_type with
  | Positive => positive_intensifiers
  | Negative => negative_intensifiers
  | Neutral => []
  end.

Definition negations : list pystr := List.map py [
  "pas"; "ne"; "n'"; "jamais"; "rien"; "aucun"; "nul" ]%string.

(** [_calculate_sentiment_score] *)
Definition _calculate_sentiment_score (message : pystr) (lex : lexicon) : Q :=
  let score := 0 in
  let score := fold_left (fun score keyword =>
    if contains keyword message then score + 1 / ofZ (split_len keyword)
    else score) (keywords lex) score in
  let score := fold_left (fun score emoji =>
    if contains emoji message then score + 2 else score) (emojis lex) score in
  fold_left (fun score pattern =>
    if Re.search_ignorecase pattern message then score + 3 else score)
    (patterns lex) score.

(** The loop over the intensifiers of [_apply_modifiers]: one
    multiplication for each listed word that occurs in the message. *)
Definition intensify (message : pystr) (score : Q) (sentiment_type : label) : Q :=
  fold_left (fun score intensifier =>
    if contains intensifier message then score * (3#2) else score)
    (intensifiers sentiment_type) score.

(** [_apply_modifiers] *)
Definition _apply_modifiers (message : pystr) (score : Q) (sentiment_type : label) : Q :=
  let score := intensify message score sentiment_type in
  let repetitions := Re.repetitions message in
  if (repetitions >? 0)%Z then score * (1 + ofZ repetitions * (3#10)) else score.

Definition _has_negation (message : pystr) : bool := any_in negations message.

Definition urgency_keywords : list pystr := List.map py [
  "urgent"; "urgence"; "immédiat"; "tout de suite"; "rapidement";
  "vite"; "dépêche"; "pressé"; "critique"; "grave"; "important" ]%string.

Definition caps_ratio (message : pystr) : Q :=
  match message with
  | [] => 0
  | _ :: _ => ofZ (upper_count message) / ofZ (len message)
  end.

(** [_detect_urgency] *)
Definition _detect_urgency (message : pystr) (lbl : label) (score : Q) : urgency :=
  let urgency_count :=
    Z.of_nat (length (List.filter (fun k => contains k message) urgency_keywords)) in
  let caps_ratio := caps_ratio message in
  let exclamation_count := PyStr.count (py "!") message in
  let urgency_score :=
    ofZ urgency_count * 2 + caps_ratio * 10 + ofZ exclamation_count * (1#2) in
  let urgency_score :=
    match lbl with
    | Negative => if Qgtb (Qabs score) (7#10) then urgency_score + 3 else urgency_score
    | _ => urgency_score
    end in
  if Qgeb urgency_score 5 then High
  else if Qgeb urgency_score 2 then Medium
  else Low.

Definition emotion_patterns : list (emotion * list pystr) := [
  (Frustration,
   List.map py ["frustré"; "énervé"; "agacé"; "exaspéré"; "irrité"]%string);
  (Colere,
   List.map py ["fâché"; "en colère"; "furieux"; "rage"; "indigné"]%string);
  (Tristesse,
   List.map py ["triste"; "déprimé"; "déçu"; "désolé"; "malheureux"]%string);
  (Joie,
   List.map py ["heureux"; "content"; "joyeux"; "gai"; "enthousiaste"]%string);
  (Surprise,
   List.map py ["surpris"; "étonné"; "choqué"; "stupéfait"; "incroyable"]%string);
  (Peur,
   List.map py ["inquiet"; "anxieux"; "stressé"; "paniqué"; "terrifié"]%string);
  (Confusion,
   List.map py ["confus"; "perdu"; "perplexe"; "désorienté"; "embrouillé"]%string) ].

Definition _detect_emotions (message : pystr) : list emotion :=
  List.map fst (List.filter (fun e => any_in (snd e) message) emotion_patterns).

Definition _extract_sentiment_keywords (message : pystr) : list pystr :=
  List.filter (fun keyword => contains keyword message)
    (keywords positive_patterns ++ keywords negative_patterns
     ++ keywords neutral_patterns).

Record result := {
  r_label : label;
  r_score : Q;
  r_confidence : Q;
  r_urgency : urgency;
  r_emotions : list emotion;
  r_keywords_found : list pystr
}.

(** The body of [analyze_sentiment] after [message_lower = message.lower()]. *)
Definition analyze_lowered (message_lower : pystr) : result :=
  let positive_score := _calculate_sentiment_score message_lower positive_patterns in
  let negative_score := _calculate_sentiment_score message_lower negative_patterns in
  let neutral_score := _calculate_sentiment_score message_lower neutral_patterns in
  let positive_score := _apply_modifiers message_lower positive_score Positive in
  let negative_score := _apply_modifiers message_lower negative_score Negative in
  let '(positive_score, negative_score) :=
    if _has_negation message_lower then (negative_score, positive_score)
    else (positive_score, negative_score) in
  let total_score := positive_score + negative_score + neutral_score in
  let '(positive_score, negative_score, neutral_score) :=
    if Qgtb total_score 0
    then (positive_score / total_score, negative_score / total_score,
          neutral_score / total_score)
    else (positive_score, negative_score, neutral_score) in
  let '(lbl, score) :=
    if Qgtb positive_score negative_score && Qgtb positive_score neutral_score
    then (Positive, positive_score)
    else if Qgtb negative_score positive_score && Qgtb negative_score neutral_score
    then (Negative, - negative_score)
    else (Neutral, 0) in
  let urgency := _detect_urgency message_lower lbl score in
  {| r_label := lbl;
     r_score := score;
     r_confidence := Qmax (Qmax positive_score negative_score) neutral_score;
     r_urgency := urgency;
     r_emotions := _detect_emotions message_lower;
     r_keywords_found := _extract_sentiment_keywords message_lower |}.

(** [analyze_sentiment] *)
Definition analyze_sentiment (message : pystr) : result :=
  analyze_lowered (lower message).

(** *** [get_sentiment_stats] *)

Definition label_eqb (a b : label) : bool :=
  match a, b with
  | Positive, Positive | Negative, Negative | Neutral, Neutral => true
  | _, _ => false
  end.

(** [sum(1 for s in sentiments if s["label"] == l)] *)
Definition count_label (l : label) (sentiments : list result) : Z :=
  len_list (List.filter (fun s => label_eqb (r_label s) l) sentiments).

(** [sum(1 for s in sentiments if s["urgency"] == "high")] *)
Definition count_high (sentiments : list result) : Z :=
  len_list (List.filter (fun s => match r_urgency s with High => true | _ => false end)
              sentiments).

(** [sum(s["score"] for s in sentiments)] *)
Definition sum_scores (sentiments : list result) : Q :=
  fold_left (fun acc s => acc + r_score s) sentiments 0.

(** The keys that only the non-empty case returns. *)
Record sentiment_rates := {
  positive_rate : Q;
  negative_rate : Q;
  neutral_rate : Q;
  average_score : Q;
  high_urgency_rate : Q
}.

Record sentiment_stats := {
  st_total : Z;
  st_positive : Z;
  st_negative : Z;
  st_neutral : Z;
  st_rates : option sentiment_rates
}.

(** [get_sentiment_stats] *)
Definition get_sentiment_stats (messages : list pystr) : sentiment_stats :=
  let sentiments := List.map analyze_sentiment messages in
  let total := len_list sentiments in
  if (total =? 0)%Z then
    {| st_total := 0; st_positive := 0; st_negative := 0; st_neutral := 0;
       st_rates := None |}
  else
    let positive_count := count_label Positive sentiments in
    let negative_count := count_label Negative sentiments in
    let neutral_count := count_label Neutral sentiments in
    let avg_score := sum_scores sentiments / ofZ total in
    let high_urgency := count_high sentiments in
    {| st_total := total;
       st_positive := positive_count;
       st_negative := negative_count;
       st_neutral := neutral_count;
       st_rates := Some {|
         positive_rate := ofZ positive_count / ofZ total;
         negative_rate := ofZ negative_count / ofZ total;
         neutral_rate := ofZ neutral_count / ofZ total;
         average_score := avg_score;
         high_urgency_rate := ofZ high_urgency / ofZ total |} |}.

End SentimentAnalyzer.

(* ===================================================================== *)
(** ** IntentDetector (intent_detector.py)                                *)
(* ===================================================================== *)

Module IntentDetector.

Local Open Scope Q_scope.

Inductive intent :=
  Facturation | Technique | Forfait | Resiliation | Livraison | Commande
  | General.

Record config := { keywords : list pystr; patterns : list pystr }.

Definition facturation : config := {|
  keywords := List.map py [
    "facture"; "facturation"; "paiement"; "prélèvement"; "débit";
    "coût"; "prix"; "tarif"; "montant"; "euros"; "€"; "billing";
    "consommation"; "dépassement"; "forfait"; "data"; "go"; "mo";
    "sms"; "appel"; "minute"; "internet"; "4g"; "5g" ]%string;
  patterns := List.map py [
    "combien.*coût";
    "prix.*forfait";
    "facture.*montant";
    "dépassement.*data";
    "consommation.*internet" ]%string |}.

Definition technique : config := {|
  keywords := List.map py [
    "problème"; "bug"; "erreur"; "ne marche pas"; "fonctionne pas";
    "connexion"; "réseau"; "signal"; "4g"; "5g"; "wifi"; "bluetooth";
    "appareil"; "téléphone"; "smartphone"; "sim"; "carte sim";
    "dépannage"; "redémarrage"; "reset"; "paramètres"; "configuration" ]%string;
  patterns := List.map py [
    "ne.*fonctionne.*pas";
    "problème.*connexion";
    "erreur.*réseau";
    "signal.*faible";
    "wifi.*marche.*pas" ]%string |}.

Definition forfait : config := {|
  keywords := List.map py [
    "forfait"; "offre"; "tarif"; "abonnement"; "souscription";
    "changer"; "modifier"; "upgrade"; "downgrade"; "migration";
    "nouveau"; "nouvelle"; "offre"; "promo"; "réduction";
    "illimité"; "data"; "sms"; "appels"; "internet" ]%string;
  patterns := List.map py [
    "changer.*forfait";
    "nouveau.*forfait";
    "offre.*disponible";
    "migration.*forfait";
    "tarif.*forfait" ]%string |}.

Definition resiliation : config := {|
  keywords := List.map py [
    "résilier"; "résiliation"; "annuler"; "arrêter"; "stopper";
    "quitter"; "partir"; "changer"; "opérateur"; "concurrent";
    "départ"; "fin"; "terminer"; "clôturer"; "fermer" ]%string;
  patterns := List.map py [
    "résilier.*contrat";
    "arrêter.*forfait";
    "changer.*opérateur";
    "partir.*free";
    "annuler.*abonnement" ]%string |}.

Definition livraison : config := {|
  keywords := List.map py [
    "livraison"; "livrer"; "expédition"; "colis"; "commande";
    "suivi"; "tracking"; "réception"; "reçu"; "arrivé";
    "retard"; "en retard"; "perdu"; "volé"; "vol" ]%string;
  patterns := List.map py [
    "livraison.*commande";
    "suivi.*colis";
    "retard.*livraison";
    "colis.*perdu" ]%string |}.

Definition commande : config := {|
  keywords := List.map py [
    "commander"; "commande"; "achat"; "acheter"; "souscrire";
    "souscription"; "nouveau"; "nouvelle"; "sim"; "carte";
    "téléphone"; "smartphone"; "appareil"; "équipement" ]%string;
  patterns := List.map py [
    "commander.*forfait";
    "nouveau.*abonnement";
    "souscrire.*offre";
    "acheter.*sim" ]%string |}.

(** [self.intent_patterns], in the insertion order of the dict. *)
Definition intent_patterns : list (intent * config) := [
  (Facturation, facturation); (Technique, technique); (Forfait, forfait);
  (Resiliation, resiliation); (Livraison, livraison); (Commande, commande) ].

Definition default_intent : intent := General.

Definition count_if {A} (f : A -> bool) (l : list A) : Z :=
  Z.of_nat (length (List.filter f l)).

(** [_calculate_intent_score].  The accumulator [score] of the source is
    written but never read, so it is left out. *)
Definition _calculate_intent_score (message : pystr) (cfg : config) : Q :=
  let keyword_matches :=
    count_if (fun k => contains k message) (keywords cfg) in
  let keyword_score :=
    match keywords cfg with
    | [] => 0
    | _ :: _ =>
        (ofZ keyword_matches / ofZ (Z.of_nat (length (keywords cfg)))) * (7#10)
    end in
  let pattern_matches :=
    count_if (fun p => Re.search_ignorecase p message) (patterns cfg) in
  let pattern_score :=
    match patterns cfg with
    | [] => 0
    | _ :: _ =>
        (ofZ pattern_matches / ofZ (Z.of_nat (length (patterns cfg)))) * (3#10)
    end in
  let final_score := keyword_score + pattern_score in
  let final_score :=
    if (split_len message <? 10)%Z && (keyword_matches >? 0)%Z
    then final_score * (12#10) else final_score in
  Qmin final_score 1.

(** [max(intent_scores, key=intent_scores.get)]: the first key, in
    insertion order, whose score is maximal ([None] on an empty dict, where
    [max] raises). *)
Fixpoint max_by_score (best : intent * Q) (rest : list (intent * Q)) : intent * Q :=
  match rest with
  | [] => best
  | x :: rest' => max_by_score (if Qgtb (snd x) (snd best) then x else best) rest'
  end.

Definition max_score (scores : list (intent * Q)) : option (intent * Q) :=
  match scores with
  | [] => None
  | first :: rest => Some (max_by_score first rest)
  end.

Definition subcategories (i : intent) : option (list (pystr * list pystr)) :=
  match i with
  | Facturation => Some [
      (py "data",
       List.map py ["data"; "internet"; "4g"; "5g"; "go"; "mo"; "dépassement"]%string);
      (py "appels",
       List.map py ["appel"; "minute"; "sms"; "mms"; "communication"]%string);
      (py "facture",
       List.map py ["facture"; "prélèvement"; "paiement"; "montant"]%string) ]
  | Technique => Some [
      (py "connexion",
       List.map py ["connexion"; "réseau"; "signal"; "4g"; "5g"]%string);
      (py "appareil",
       List.map py ["téléphone"; "smartphone"; "appareil"; "sim"]%string);
      (py "wifi", List.map py ["wifi"; "wifi"; "bluetooth"; "paramètres"]%string) ]
  | Forfait => Some [
      (py "data", List.map py ["data"; "internet"; "illimité"; "limité"]%string);
      (py "communication", List.map py ["appels"; "sms"; "illimité"; "limité"]%string);
      (py "prix", List.map py ["prix"; "tarif"; "coût"; "euros"; "€"]%string) ]
  | _ => None
  end.

(** [_detect_subcategory] *)
Definition _detect_subcategory (message : pystr) (i : intent) : option pystr :=
  match subcategories i with
  | None => None
  | Some intent_subcats =>
      fst (fold_left (fun (acc : option pystr * Z) sub =>
             let score := count_if (fun k => contains k message) (snd sub) in
             if (score >? snd acc)%Z then (Some (fst sub), score) else acc)
           intent_subcats (None, 0%Z))
  end.

(** [_extract_found_keywords] *)
Definition _extract_found_keywords (message : pystr) (i : intent) : list pystr :=
  match List.find (fun e => match fst e, i with
                            | Facturation, Facturation | Technique, Technique
                            | Forfait, Forfait | Resiliation, Resiliation
                            | Livraison, Livraison | Commande, Commande => true
                            | _, _ => false
                            end) intent_patterns with
  | None => []
  | Some (_, cfg) => List.filter (fun k => contains k message) (keywords cfg)
  end.

Record result := {
  category : intent;
  subcategory : option pystr;
  confidence : Q;
  keywords_found : list pystr
}.

Definition intent_scores (message_lower : pystr) : list (intent * Q) :=
  List.map (fun e => (fst e, _calculate_intent_score message_lower (snd e)))
    intent_patterns.

Definition confidence_threshold : Q := 3#10.

(** [detect_intent] *)
Definition detect_intent (message : pystr) : result :=
  let message_lower := lower message in
  match max_score (intent_scores message_lower) with
  | None => {| category := default_intent; subcategory := None;
               confidence := 0; keywords_found := [] |}
  | Some (best_intent, best_score) =>
      let '(best_intent, best_score) :=
        if Qltb best_score confidence_threshold
        then (default_intent, 1#2) else (best_intent, best_score) in
      {| category := best_intent;
         subcategory := _detect_subcategory message_lower best_intent;
         confidence := Qmin best_score 1;
         keywords_found := _extract_found_keywords message_lower best_intent |}
  end.

(** [get_intent_examples]: the messages the source documents for an
    intent. *)
Definition get_intent_examples (i : intent) : list pystr :=
  match i with
  | Facturation => List.map py [
      "Combien coûte mon forfait ?";
      "Je ne comprends pas ma facture";
      "J'ai dépassé mon forfait data";
      "Quel est le prix des appels internationaux ?" ]%string
  | Technique => List.map py [
      "Mon téléphone ne se connecte pas à internet";
      "Je n'ai pas de signal 4G";
      "Le WiFi ne fonctionne pas";
      "Mon appareil ne démarre plus" ]%string
  | Forfait => List.map py [
      "Je veux changer de forfait";
      "Quelles sont vos offres ?";
      "Pouvez-vous me proposer un forfait moins cher ?";
      "Je veux plus de data" ]%string
  | Resiliation => List.map py [
      "Je veux résilier mon contrat";
      "Comment arrêter mon abonnement ?";
      "Je change d'opérateur";
      "Je veux quitter Free Mobile" ]%string
  | _ => []
  end.

Definition example_message : pystr := py "Je veux résilier mon contrat".

End IntentDetector.

(* ===================================================================== *)
(** ** The intent endpoint of api_simple.py                               *)
(* ===================================================================== *)

Module ApiSimple.

Inductive intent :=
  TechnicalIssue | Billing | PlanChange | Cancellation | GeneralInquiry.

(** [detect_intent]: the keyword cascade of the simplified service, on the
    text of the request. *)
Definition detect_intent (request_text : pystr) : intent * Q :=
  let text := lower request_text in
  if any_in (List.map py ["problème"; "erreur"; "bug"; "ne marche pas"]%string) text
  then (TechnicalIssue, 8#10)
  else if any_in (List.map py ["facture"; "paiement"; "prix"; "coût"]%string) text
  then (Billing, 8#10)
  else if any_in (List.map py ["forfait"; "changer"; "modifier"; "upgrade"]%string) text
  then (PlanChange, 8#10)
  else if any_in (List.map py ["résilier"; "annuler"; "arrêter"]%string) text
  then (Cancellation, 8#10)
  else (GeneralInquiry, 6#10).

End ApiSimple.

(* ===================================================================== *)
(** ** Settings (mastodon_config.py, ai-engine/config/settings.py)        *)
(* ===================================================================== *)

(** The values are read from the environment when the process starts; the
    defaults of the source are in [default_settings]. *)
Record settings := {
  FRONTEND_URL : pystr;
  MONITOR_HASHTAGS : list pystr;
  MONITOR_KEYWORDS : list pystr;
  AUTO_RESPOND : bool;
  RESPONSE_DELAY : Z;               (* seconds *)
  MAX_RESPONSES_PER_HOUR : Z;
  RAG_TOP_K : Z;
  RAG_SIMILARITY_THRESHOLD : Q
}.

Definition default_settings : settings := {|
  FRONTEND_URL := py "http://localhost:8501";
  MONITOR_HASHTAGS := List.map py ["Free"; "FreeMobile"; "SAVFree"]%string;
  MONITOR_KEYWORDS := List.map py [
    "free mobile"; "freemobile"; "free mobile"; "free-mobile";
    "sav free"; "support free"; "aide free"; "problème free";
    "facture free"; "forfait free"; "résiliation free" ]%string;
  AUTO_RESPOND := true;
  RESPONSE_DELAY := 30;
  MAX_RESPONSES_PER_HOUR := 10;
  RAG_TOP_K := 5;
  RAG_SIMILARITY_THRESHOLD := 7#10
|}.

(** Clock readings are microseconds of naive local time. *)
Definition usec_per_sec : Z := 1000000.
Definition usec_per_hour : Z := 3600 * usec_per_sec.

(** [t.hour] *)
Definition hour (t : Z) : Z := ((t / usec_per_hour) mod 24)%Z.

(* ===================================================================== *)
(** ** LinkGenerator (link_generator.py)                                  *)
(* ===================================================================== *)

Module LinkGenerator.

Import ComplaintDetector.

(** *** [int(token, 16)]

    White space around the number, one sign, the prefix [0x] or [0X], and
    single underscores between digits (one is also allowed right after the
    prefix) are accepted; anything else raises [ValueError] ([None]). *)

Definition hex_value (c : N) : option Z :=
  if in_range 48 57 c then Some (Z.of_N c - 48)%Z
  else if in_range 97 102 c then Some (Z.of_N c - 87)%Z
  else if in_range 65 70 c then Some (Z.of_N c - 55)%Z
  else None.

Fixpoint hex_digits (s : pystr) (acc : Z) (after_digit : bool) : option Z :=
  match s with
  | [] => if after_digit then Some acc else None
  | c :: t =>
      if (c =? 95)%N then
        if after_digit then hex_digits t acc false else None
      else match hex_value c with
           | Some d => hex_digits t (acc * 16 + d)%Z true
           | None => None
           end
  end.

Definition int_base16 (s : pystr) : option Z :=
  let s := strip s in
  let '(negative, s) :=
    match s with
    | c :: t =>
        if (c =? 43)%N then (false, t)          (* + *)
        else if (c =? 45)%N then (true, t)      (* - *)
        else (false, s)
    | [] => (false, s)
    end in
  let s :=
    match s with
    | z :: x :: t =>
        if (z =? 48)%N && ((x =? 120)%N || (x =? 88)%N)     (* 0x, 0X *)
        then match t with
             | u :: t' => if (u =? 95)%N then t' else t
             | [] => t
             end
        else s
    | _ => s
    end in
  match hex_digits s 0 false with
  | Some v => Some (if negative then - v else v)%Z
  | None => None
  end.

(** *** Tokens *)

(** [hashlib.sha256(data.encode()).hexdigest()] prints the digest bytes
    in lower-case hexadecimal.  The data hold [datetime.now()] and a fresh
    [uuid.uuid4()], so the 32 digest bytes are an input of the model. *)
Definition hex_char (d : N) : N := if (d <? 10)%N then (48 + d)%N else (87 + d)%N.

Definition hexdigest (digest : list N) : pystr :=
  flat_map (fun b => [hex_char ((b / 16) mod 16); hex_char (b mod 16)]%N) digest.

(** [_generate_unique_token]: the first 16 characters of the hex digest. *)
Definition _generate_unique_token (digest : list N) : pystr :=
  firstn 16 (hexdigest digest).

(** What [process_post] hands over as [context]. *)
Record post_context := {
  pc_content : pystr;
  pc_complaint_type : complaint_type;
  pc_urgency : urgency;
  pc_sentiment : sentiment
}.

Record context_data := {
  mastodon_user : pystr;
  post_id : pystr;
  original_content : pystr;
  cd_complaint_type : complaint_type;
  cd_urgency : urgency;
  created_at : Z;
  expires_at : Z;
  used : bool;
  response_sent : bool
}.

Record link_data := {
  token : option pystr;
  url : option pystr;
  context : option context_data;
  expires_in_hours : Z
}.

(** The attributes set by [__init__]. *)
Record generator := {
  base_url : pystr;
  link_expiry_hours : Z
}.

Definition init (cfg : settings) : generator :=
  {| base_url := FRONTEND_URL cfg; link_expiry_hours := 24 |}.

(** [generate_contact_link].  [t_created] and [t_expires] are the two
    readings of the clock.  The link goes back to the caller; the method
    assigns no attribute, so the generator keeps no record of it. *)
Definition generate_contact_link (self : generator) (digest : list N)
    (t_created t_expires : Z)
    (mastodon_user post_id : pystr) (context : post_context) : link_data :=
  let token := _generate_unique_token digest in
  let contact_url :=
    base_url self ++ py "/?token=" ++ token ++ py "&source=mastodon" in
  let context_data := {|
    mastodon_user := mastodon_user;
    post_id := post_id;
    original_content := pc_content context;
    cd_complaint_type := pc_complaint_type context;
    cd_urgency := pc_urgency context;
    created_at := t_created;
    expires_at := (t_expires + link_expiry_hours self * usec_per_hour)%Z;
    used := false;
    response_sent := false |} in
  {| token := Some token;
     url := Some contact_url;
     context := Some context_data;
     expires_in_hours := link_expiry_hours self |}.

(** [validate_token], in state-passing style: the answer and the generator
    after the call.  The body of the method reads [token] only and assigns
    nothing, so the generator comes back as it was. *)
Definition validate_token (self : generator) (token : pystr) : bool * generator :=
  let answer :=
    match token with
    | [] => false
    | _ :: _ =>
        if negb (len token =? 16)%Z then false
        else match int_base16 token with
             | Some _ => true
             | None => false
             end
    end in
  (answer, self).

(** *** Message templates

    The two methods below read no attribute of the generator. *)

Definition nl : pystr := [10%N].

(** [base_messages.get(complaint_type, base_messages["general"])] *)
Definition base_messages (complaint_type : complaint_type) : pystr :=
  match complaint_type with
  | Billing =>
      py "Nous comprenons votre préoccupation concernant la facturation."
  | Technical =>
      py "Nous sommes désolés pour les difficultés techniques que vous rencontrez."
  | CustomerService =>
      py "Nous nous excusons pour la qualité de notre service client."
  | Cancellation =>
      py "Nous comprenons votre souhait de résilier votre contrat."
  | General | Unknown =>
      py "Nous sommes désolés de constater votre mécontentement."
  end.

(** [urgency_messages.get(urgency, urgency_messages["medium"])] *)
Definition urgency_messages (urgency : urgency) : pystr :=
  match urgency with
  | Urgent => py "Votre demande est prioritaire et sera traitée en urgence."
  | High => py "Votre demande sera traitée rapidement par notre équipe."
  | Medium => py "Nous allons examiner votre demande attentivement."
  | Low => py "Nous allons nous pencher sur votre demande."
  end.

(** [generate_response_message] *)
Definition generate_response_message (mastodon_user : pystr)
    (complaint_type : complaint_type) (urgency : urgency)
    (contact_url : pystr) : pystr :=
  let base_message := base_messages complaint_type in
  let urgency_message := urgency_messages urgency in
  py "Bonjour @" ++ mastodon_user ++ py "," ++ nl
  ++ nl
  ++ base_message ++ py " " ++ urgency_message ++ nl
  ++ nl
  ++ py "Pour vous aider au mieux, nous vous invitons à nous contacter directement via notre support client : " ++ contact_url ++ nl
  ++ nl
  ++ py "Notre équipe se fera un plaisir de vous accompagner dans la résolution de votre problème." ++ nl
  ++ nl
  ++ py "Cordialement," ++ nl
  ++ py "L'équipe Free Mobile 🆓".

(** [generate_escalation_message]; the complaint type is not used. *)
Definition generate_escalation_message (mastodon_user : pystr)
    (complaint_type : complaint_type) (contact_url : pystr) : pystr :=
  py "Bonjour @" ++ mastodon_user ++ py "," ++ nl
  ++ nl
  ++ py "Nous avons pris connaissance de votre message et nous comprenons votre frustration." ++ nl
  ++ nl
  ++ py "Votre demande a été immédiatement transmise à notre équipe de supervision qui va vous contacter dans les plus brefs délais." ++ nl
  ++ nl
  ++ py "En attendant, vous pouvez également nous contacter directement : " ++ contact_url ++ nl
  ++ nl
  ++ py "Nous nous excusons sincèrement pour les désagréments causés." ++ nl
  ++ nl
  ++ py "Cordialement," ++ nl
  ++ py "L'équipe Free Mobile 🆓".

(** [get_contact_url_variants] *)
Record url_variants := {
  uv_main : pystr;
  uv_chat : pystr;
  uv_support : pystr;
  uv_contact : pystr;
  uv_mobile : pystr
}.

Definition get_contact_url_variants (base_url : pystr) : url_variants := {|
  uv_main := base_url;
  uv_chat := base_url ++ py "#chat";
  uv_support := base_url ++ py "#support";
  uv_contact := base_url ++ py "#contact";
  uv_mobile :=
    if startswith (py "http://") base_url
    then replace (py "http://") (py "https://") base_url
    else base_url
|}.

End LinkGenerator.

(* ===================================================================== *)
(** ** AutoResponder (auto_responder.py)                                  *)
(* ===================================================================== *)

(** A post as the Mastodon client delivers it; a missing key is [None]. *)
Record post := {
  p_id : option pystr;
  p_content : pystr;
  p_username : pystr;
  p_url : pystr;
  p_created_at : option Z
}.

(** The text of a reply is built from fixed templates; the model keeps
    which template is used and what is filled in. *)
Inductive reply :=
  | EscalationMessage (username : pystr) (type : ComplaintDetector.complaint_type)
      (contact_url : pystr)
  | ResponseMessage (username : pystr) (type : ComplaintDetector.complaint_type)
      (urgency : ComplaintDetector.urgency) (contact_url : pystr).

(** Calls that leave the process or start a triage, in the order made. *)
Inductive event :=
  | DetectComplaint (post_id : option pystr)
  | StatusPost (in_reply_to_id : option pystr) (status : reply).

Module AutoResponder.

Import ComplaintDetector LinkGenerator.

(** What [mastodon_client.status_post] returns. *)
Record response := { resp_id : pystr; resp_url : pystr }.

Record history_entry := {
  h_timestamp : Z;
  h_post_id : option pystr;
  h_content : pystr;
  h_username : pystr;
  h_url : pystr;
  h_response_id : pystr;
  h_response_url : pystr;
  h_link_token : pystr;
  h_complaint_type : complaint_type;
  h_urgency : urgency
}.

Record responder := {
  link_generator : generator;
  response_count : Z;
  last_response_time : option Z;
  response_history : list history_entry
}.

Definition init (cfg : settings) : responder := {|
  link_generator := LinkGenerator.init cfg;
  response_count := 0;
  last_response_time := None;
  response_history := []
|}.

(** What one call of [process_post] reads from outside: the clock at each
    [datetime.now()], the digest behind the token, and what
    [status_post] gives back ([None] when it raises or returns nothing). *)
Record respond_env := {
  t_check : Z;
  digest : list N;
  t_created : Z;
  t_expires : Z;
  delivery : option response;
  t_sent : Z;
  t_reset : Z;
  t_history : Z;
  t_result : Z
}.

Record sent := {
  s_post_id : option pystr;
  s_response_id : pystr;
  s_link_token : pystr;
  s_complaint_type : complaint_type;
  s_urgency : urgency;
  s_sent_at : Z
}.

Section WithSettings.

Variable cfg : settings.

(** [_can_respond]; [now] is read only when a reply has been sent before.
    [total_seconds() < RESPONSE_DELAY] is compared in microseconds. *)
Definition _can_respond (self : responder) (now : Z) : bool :=
  if (response_count self >=? MAX_RESPONSES_PER_HOUR cfg)%Z then false
  else match last_response_time self with
       | Some last =>
           if (now - last <? RESPONSE_DELAY cfg * usec_per_sec)%Z then false
           else true
       | None => true
       end.

(** [_generate_response_message] *)
Definition _generate_response_message (p : post) (complaint_result : verdict)
    (contact_url : pystr) : reply :=
  let username := p_username p in
  let complaint_type := v_type complaint_result in
  let urgency := v_urgency complaint_result in
  match urgency with
  | Urgent => EscalationMessage username complaint_type contact_url
  | _ => ResponseMessage username complaint_type urgency contact_url
  end.

(** [_update_response_stats]: [t_sent] is the reading stored in
    [last_response_time], [t_reset] the one its hour is compared with on the
    next line. *)
Definition _update_response_stats (self : responder) (t_sent t_reset : Z) : responder :=
  let count := (response_count self + 1)%Z in
  let count := if negb (hour t_sent =? hour t_reset)%Z then 0%Z else count in
  {| link_generator := link_generator self;
     response_count := count;
     last_response_time := Some t_sent;
     response_history := response_history self |}.

(** [l[-n:]] *)
Definition last_n {A} (n : nat) (l : list A) : list A :=
  skipn (length l - n) l.

(** [_save_response_history] *)
Definition _save_response_history (self : responder) (now : Z) (p : post)
    (r : response) (tok : pystr) (ctx : context_data) : responder :=
  let history_entry := {|
    h_timestamp := now;
    h_post_id := p_id p;
    h_content := firstn 100 (p_content p) ++ py "...";
    h_username := p_username p;
    h_url := p_url p;
    h_response_id := resp_id r;
    h_response_url := resp_url r;
    h_link_token := tok;
    h_complaint_type := cd_complaint_type ctx;
    h_urgency := cd_urgency ctx |} in
  let history := response_history self ++ [history_entry] in
  let history :=
    if (1000 <? length history)%nat then last_n 500 history else history in
  {| link_generator := link_generator self;
     response_count := response_count self;
     last_response_time := last_response_time self;
     response_history := history |}.

(** [process_post]: the result ([None] for every path that returns
    nothing), the responder after the call, and the calls made. *)
Definition process_post (self : responder) (p : post) (env : respond_env)
    : option sent * responder * list event :=
  if negb (_can_respond self (t_check env)) then (None, self, [])
  else
    let complaint_result := detect_complaint (p_content p) in
    let log := [DetectComplaint (p_id p)] in
    if negb (is_complaint complaint_result) then (None, self, log)
    else
      let context := {|
        pc_content := p_content p;
        pc_complaint_type := v_type complaint_result;
        pc_urgency := v_urgency complaint_result;
        pc_sentiment := v_sentiment complaint_result |} in
      let link_data :=
        generate_contact_link (link_generator self) (digest env)
          (t_created env) (t_expires env) (p_username p)
          (match p_id p with Some i => i | None => [] end) context in
      match token link_data, url link_data, LinkGenerator.context link_data with
      | Some ((_ :: _) as tok), Some contact_url, Some ctx =>
          let response_message :=
            _generate_response_message p complaint_result contact_url in
          let log := log ++ [StatusPost (p_id p) response_message] in
          match delivery env with
          | Some r =>
              let self := _update_response_stats self (t_sent env) (t_reset env) in
              let self := _save_response_history self (t_history env) p r tok ctx in
              (Some {| s_post_id := p_id p;
                       s_response_id := resp_id r;
                       s_link_token := tok;
                       s_complaint_type := v_type complaint_result;
                       s_urgency := v_urgency complaint_result;
                       s_sent_at := t_result env |}, self, log)
          | None => (None, self, log)
          end
      | _, _, _ => (None, self, log)
      end.

(** [clear_response_history] *)
Definition clear_response_history (self : responder) : responder :=
  {| link_generator := link_generator self;
     response_count := 0;
     last_response_time := None;
     response_history := [] |}.

(** The two methods that assign attributes of the responder. *)
Inductive call :=
  | ProcessPost (p : post) (env : respond_env)
  | ClearResponseHistory.

Definition step (self : responder) (c : call) : responder :=
  match c with
  | ProcessPost p env => snd (fst (process_post self p env))
  | ClearResponseHistory => clear_response_history self
  end.

(** The responder after a sequence of calls. *)
Definition run (self : responder) (calls : list call) : responder :=
  fold_left step calls self.

End WithSettings.

(** The text that [_generate_response_message] hands to [status_post]. *)
Definition reply_text (r : reply) : pystr :=
  match r with
  | EscalationMessage username type contact_url =>
      generate_escalation_message username type contact_url
  | ResponseMessage username type urgency contact_url =>
      generate_response_message username type urgency contact_url
  end.

(** [l[start:]] *)
Definition slice_from {A} (start : Z) (l : list A) : list A :=
  if (start <? 0)%Z then skipn (length l - Z.to_nat (- start)) l
  else skipn (Z.to_nat start) l.

(** [get_response_history] *)
Definition get_response_history (self : responder) (limit : Z)
    : list history_entry :=
  match response_history self with
  | [] => []
  | _ :: _ => slice_from (- limit) (response_history self)
  end.

End AutoResponder.

(* ===================================================================== *)
(** ** MastodonCollector (mastodon_collector.py)                          *)
(* ===================================================================== *)

Module MastodonCollector.

Import ComplaintDetector.

Record stats := {
  total_posts_processed : Z;
  complaints_detected : Z;
  responses_sent : Z
}.

Record collector := {
  auto_responder : AutoResponder.responder;
  processed_posts : gset (option pystr);
  c_stats : stats
}.

Definition init (cfg : settings) : collector := {|
  auto_responder := AutoResponder.init cfg;
  processed_posts := ∅;
  c_stats := {| total_posts_processed := 0; complaints_detected := 0;
                responses_sent := 0 |}
|}.

(** What the handling of one post reads from outside. *)
Record post_env := {
  t_recent : Z;
  respond : AutoResponder.respond_env
}.

Section WithSettings.

Variable cfg : settings.

(** [settings.get_hashtags_for_search()] *)
Definition get_hashtags_for_search : list pystr :=
  List.map (fun tag => py "#" ++ strip tag)
    (List.filter (fun tag => match strip tag with [] => false | _ => true end)
       (MONITOR_HASHTAGS cfg)).

(** [settings.get_keywords_for_search()] *)
Definition get_keywords_for_search : list pystr :=
  List.map lower (MONITOR_KEYWORDS cfg).

(** [_is_recent_post]: less than 24 hours old; a post without a date is
    not recent. *)
Definition _is_recent_post (p : post) (now : Z) : bool :=
  match p_created_at p with
  | None => false
  | Some created_at => (now - created_at <? 86400 * usec_per_sec)%Z
  end.

(** [_is_free_mobile_related] *)
Definition _is_free_mobile_related (p : post) : bool :=
  let content := lower (p_content p) in
  any_in get_keywords_for_search content
  || any_in (List.map lower get_hashtags_for_search) content.

Definition bump_complaints (s : stats) : stats :=
  {| total_posts_processed := total_posts_processed s;
     complaints_detected := complaints_detected s + 1;
     responses_sent := responses_sent s |}.

Definition bump_responses (s : stats) : stats :=
  {| total_posts_processed := total_posts_processed s;
     complaints_detected := complaints_detected s;
     responses_sent := responses_sent s + 1 |}.

Definition bump_processed (s : stats) : stats :=
  {| total_posts_processed := total_posts_processed s + 1;
     complaints_detected := complaints_detected s;
     responses_sent := responses_sent s |}.

(** [_process_single_post].  [_save_post_to_database] only writes a log
    line. *)
Definition _process_single_post (self : collector) (p : post) (env : post_env)
    : collector * list event :=
  let complaint_result := detect_complaint (p_content p) in
  let log := [DetectComplaint (p_id p)] in
  if is_complaint complaint_result then
    let st := bump_complaints (c_stats self) in
    if AUTO_RESPOND cfg then
      let '(response_result, responder, log') :=
        AutoResponder.process_post cfg (auto_responder self) p (respond env) in
      let st := match response_result with
                | Some _ => bump_responses st
                | None => st
                end in
      ({| auto_responder := responder;
          processed_posts := processed_posts self;
          c_stats := st |}, log ++ log')
    else
      ({| auto_responder := auto_responder self;
          processed_posts := processed_posts self;
          c_stats := st |}, log)
  else (self, log).

(** One turn of the loop of [_process_posts]. *)
Definition process_one (self : collector) (pe : post * post_env)
    : collector * list event :=
  let '(p, env) := pe in
  let post_id := p_id p in
  if decide (post_id ∈ processed_posts self) then (self, [])
  else if negb (_is_recent_post p (t_recent env)) then (self, [])
  else if negb (_is_free_mobile_related p) then (self, [])
  else
    let '(self, log) := _process_single_post self p env in
    ({| auto_responder := auto_responder self;
        processed_posts := processed_posts self ∪ {[ post_id ]};
        c_stats := bump_processed (c_stats self) |}, log).

(** [_process_posts] *)
Fixpoint _process_posts (self : collector) (posts : list (post * post_env))
    : collector * list event :=
  match posts with
  | [] => (self, [])
  | pe :: rest =>
      let '(self, log) := process_one self pe in
      let '(self, log') := _process_posts self rest in
      (self, log ++ log')
  end.

End WithSettings.

End MastodonCollector.

(* ===================================================================== *)
(** ** VectorStore (vector_store.py)                                      *)
(* ===================================================================== *)

Module VectorStore.

Local Open Scope Q_scope.

Definition vector := list Q.

(** The store.  [embedding_model] is the sentence encoder, an outside
    capability: a function from text to vectors, [None] when it is not
    loaded.  The three lists are kept side by side as in the source. *)
Record store := {
  embedding_model : option (pystr -> vector);
  documents : list pystr;
  embeddings : list vector;
  metadata : list (gmap pystr pystr)
}.

Record hit := {
  content : pystr;
  hit_metadata : gmap pystr pystr;
  distance : Q;
  similarity : Q
}.

Fixpoint dot (a b : vector) : Q :=
  match a, b with
  | x :: a', y :: b' => x * y + dot a' b'
  | _, _ => 0
  end.

(** [np.dot(query_embedding, np.array(self.embeddings).T)[0]]; the product
    is defined when the rows form a matrix with as many columns as the
    query has entries, and raises otherwise ([None]). *)
Definition similarities (query_embedding : vector) (rows : list vector)
    : option (list Q) :=
  match rows with
  | [] => None
  | _ :: _ =>
      if forallb (fun row => (length row =? length query_embedding)%nat) rows
      then Some (List.map (dot query_embedding) rows)
      else None
  end.

(** [np.argsort]: the indices in ascending order of their values, by
    insertion.  How NumPy orders equal values is not fixed by the source;
    nothing below depends on it. *)
Fixpoint insert_index (sims : list Q) (i : nat) (sorted : list nat) : list nat :=
  match sorted with
  | [] => [i]
  | j :: rest =>
      if Qltb (nth i sims 0) (nth j sims 0) then i :: sorted
      else j :: insert_index sims i rest
  end.

Definition argsort (sims : list Q) : list nat :=
  fold_left (fun sorted i => insert_index sims i sorted) (seq 0 (length sims)) [].

(** [l[:k]] *)
Definition slice_to {A} (k : Z) (l : list A) : list A :=
  if (0 <=? k)%Z then firstn (Z.to_nat k) l
  else firstn (length l - Z.to_nat (- k)) l.

Section Search.

Variable cfg : settings.
Variable self : store.
Variable filter_metadata : option (gmap pystr pystr).
Variable sims : list Q.

(** The metadata test of the loop: [Some true] to keep the document,
    [Some false] for [continue], [None] when the index raises. *)
Definition passes_filter (idx : nat) : option bool :=
  match filter_metadata with
  | None => Some true
  | Some f =>
      if decide (f = ∅) then Some true
      else match nth_error (metadata self) idx with
           | None => None
           | Some doc_metadata =>
               Some (forallb (fun kv => bool_decide (doc_metadata !! kv.1 = Some kv.2))
                       (map_to_list f))
           end
  end.

(** The loop over [indices[:top_k]]; [None] when an index raises. *)
Fixpoint collect (indices : list nat) (results : list hit) : option (list hit) :=
  match indices with
  | [] => Some results
  | idx :: rest =>
      match nth_error sims idx with
      | None => None
      | Some similarity =>
          if Qgeb similarity (RAG_SIMILARITY_THRESHOLD cfg) then
            match passes_filter idx with
            | None => None
            | Some false => collect rest results
            | Some true =>
                match nth_error (documents self) idx, nth_error (metadata self) idx with
                | Some doc, Some meta =>
                    collect rest (results ++ [{|
                      content := doc;
                      hit_metadata := meta;
                      distance := 1 - similarity;
                      similarity := similarity |}])
                | _, _ => None
                end
            end
          else collect rest results
      end
  end.

End Search.

(** [search]; every exception of the body ends in [return []]. *)
Definition search (cfg : settings) (self : store) (query : pystr)
    (top_k : option Z) (filter_metadata : option (gmap pystr pystr)) : list hit :=
  match embedding_model self, documents self with
  | None, _ => []
  | Some _, [] => []
  | Some encode, _ :: _ =>
      let top_k := match top_k with Some k => k | None => RAG_TOP_K cfg end in
      let query_embedding := encode query in
      match similarities query_embedding (embeddings self) with
      | None => []
      | Some sims =>
          let indices := rev (argsort sims) in
          match collect cfg self filter_metadata sims (slice_to top_k indices) [] with
          | Some results => results
          | None => []
          end
      end
  end.

(** [add_documents]: the encoder is applied to each content. *)
Definition add_documents (self : store)
    (docs : list (pystr * gmap pystr pystr)) : bool * store :=
  match docs, embedding_model self with
  | [], _ => (false, self)
  | _ :: _, None => (false, self)
  | _ :: _, Some encode =>
      (true, {| embedding_model := embedding_model self;
                documents := documents self ++ List.map fst docs;
                embeddings := embeddings self ++ List.map (fun d => encode (fst d)) docs;
                metadata := metadata self ++ List.map snd docs |})
  end.

(** [reset_collection] *)
Definition reset_collection (self : store) : store :=
  {| embedding_model := embedding_model self;
     documents := []; embeddings := []; metadata := [] |}.

(** [sep.join(parts)] *)
Fixpoint join (sep : pystr) (parts : list pystr) : pystr :=
  match parts with
  | [] => []
  | [x] => x
  | x :: rest => x ++ sep ++ join sep rest
  end.

(** The text [get_relevant_context] makes of one hit: the title in bold,
    ["Document"] when the metadata have none, a line feed and the
    content. *)
Definition context_part (doc : hit) : pystr :=
  let title :=
    match hit_metadata doc !! py "title" with
    | Some t => t
    | None => py "Document"
    end in
  py "**" ++ title ++ py "**" ++ [10%N] ++ content doc.

(** [get_relevant_context].  [max_length] is
    [settings.MAX_CONTEXT_LENGTH]; an empty [context_type] means no filter. *)
Definition get_relevant_context (cfg : settings) (max_length : Z) (self : store)
    (query : pystr) (context_type : option pystr) : pystr :=
  let filter_metadata :=
    match context_type with
    | None => None
    | Some [] => None
    | Some (c :: t) => Some ({[ py "type" := c :: t ]} : gmap pystr pystr)
    end in
  let relevant_docs := search cfg self query None filter_metadata in
  match relevant_docs with
  | [] => []
  | _ :: _ =>
      let context := join [10%N; 10%N] (List.map context_part relevant_docs) in
      if (len context >? max_length)%Z
      then slice_to max_length context ++ py "..."
      else context
  end.

End VectorStore.

(* ===================================================================== *)
(** ** Vocabulary of the statements                                       *)
(* ===================================================================== *)

(** [q ^ n] *)
Fixpoint Qpow (q : Q) (n : nat) : Q :=
  match n with
  | O => 1
  | S n' => q * Qpow q n'
  end.

(** How many words of the intensifier list of a polarity occur in the
    message. *)
Definition present_intensifiers (message : pystr)
    (sentiment_type : SentimentAnalyzer.label) : nat :=
  length (List.filter (fun w => contains w message)
            (SentimentAnalyzer.intensifiers sentiment_type)).

(** The factor of the repetition boost of [_apply_modifiers]. *)
Definition repetition_factor (message : pystr) : Q :=
  let repetitions := Re.repetitions message in
  if (repetitions >? 0)%Z then 1 + ofZ repetitions * (3#10) else 1.

(** A message with two different intensifiers and no repeated word. *)
Definition two_intensifiers : pystr := py "très, vraiment bien".

(** Three mathematical bold capitals, U+1D400 U+1D401 U+1D402. *)
Definition shouted : pystr := [119808; 119809; 119810]%N.

(** An entry of an emoji list: one code point, far above the letters. *)
Definition caseless_symbol (e : pystr) : bool :=
  match e with
  | [c] => (1000 <=? c)%N
  | _ => false
  end.

(** The characters [hexdigest] prints. *)
Definition lower_hex (c : N) : bool := in_range 48 57 c || in_range 97 102 c.

(** The SHA-256 digest of
    ["alice:1001:2024-05-01T10:00:00.000000:6f1c2a9e-3b7d-4c58-9a41-0d2e8f7b5c13"];
    its hex form starts with ["056613c89919f993"]. *)
Definition sample_digest : list N := [
  5; 102; 19; 200; 153; 25; 249; 147;
  230; 95; 142; 51; 5; 194; 245; 240;
  25; 243; 14; 44; 28; 14; 24; 97;
  152; 75; 244; 196; 83; 155; 22; 36 ]%N.

Definition sample_context : LinkGenerator.post_context := {|
  LinkGenerator.pc_content := ComplaintDetector.example_content;
  LinkGenerator.pc_complaint_type := ComplaintDetector.General;
  LinkGenerator.pc_urgency := ComplaintDetector.High;
  LinkGenerator.pc_sentiment := ComplaintDetector.VeryNegative |}.

(** A post that is a complaint, and the surroundings of one handling of it
    at time [t]: every clock reading is [t] and the reply is delivered. *)
Definition complaint_post : post := {|
  p_id := Some (py "1001");
  p_content := ComplaintDetector.example_content;
  p_username := py "alice";
  p_url := py "https://mastodon.social/@alice/1001";
  p_created_at := Some 0%Z |}.

Definition env_at (t : Z) : AutoResponder.respond_env := {|
  AutoResponder.t_check := t;
  AutoResponder.digest := sample_digest;
  AutoResponder.t_created := t;
  AutoResponder.t_expires := t;
  AutoResponder.delivery :=
    Some {| AutoResponder.resp_id := py "2002"; AutoResponder.resp_url := [] |};
  AutoResponder.t_sent := t;
  AutoResponder.t_reset := t;
  AutoResponder.t_history := t;
  AutoResponder.t_result := t |}.

Definition minute : Z := 60 * usec_per_sec.

(** Ten replies, one a minute, starting at 10:00. *)
Definition ten_sends : list AutoResponder.call :=
  List.map (fun k => AutoResponder.ProcessPost complaint_post
                       (env_at (10 * usec_per_hour + Z.of_nat k * minute)))
    (seq 0 10).

(** The post an event is about. *)
Definition event_id (e : event) : option pystr :=
  match e with
  | DetectComplaint post_id => post_id
  | StatusPost in_reply_to_id _ => in_reply_to_id
  end.

(** Code points of Basic Latin, Latin-1 Supplement and Latin Extended-A. *)
Definition latin (c : N) : Prop := (c <= 383)%N.

(** Sum of the values of a [type_counts] dict, and of the four urgency
    counters. *)
Definition type_total (d : ComplaintDetector.type_counts) : Z :=
  fold_right (fun kv acc => (snd kv + acc)%Z) 0%Z d.

Definition urgency_total (c : ComplaintDetector.urgency_counts) : Z :=
  (ComplaintDetector.uc_low c + ComplaintDetector.uc_medium c
   + ComplaintDetector.uc_high c + ComplaintDetector.uc_urgent c)%Z.

(** What the loop of [get_detection_stats] keeps true after [n] posts. *)
Definition stats_invariant (n : Z)
    (acc : Z * ComplaintDetector.urgency_counts * ComplaintDetector.type_counts)
    : Prop :=
  let '(count, uc, tc) := acc in
  (0 <= count <= n)%Z
  /\ ComplaintDetector.uc_low uc = 0%Z
  /\ (0 <= ComplaintDetector.uc_medium uc)%Z
  /\ (0 <= ComplaintDetector.uc_high uc)%Z
  /\ (0 <= ComplaintDetector.uc_urgent uc)%Z
  /\ urgency_total uc = count
  /\ type_total tc = count
  /\ NoDup (List.map fst tc)
  /\ Forall (fun kv => (1 <= snd kv)%Z /\ fst kv <> ComplaintDetector.Unknown) tc.


(** The normalisation step of [analyze_sentiment]: the three scores divided
    by their sum when it is positive. *)
Definition normalise (a b c : Q) : Q * Q * Q :=
  if Qgtb (a + b + c) 0
  then (a / (a + b + c), b / (a + b + c), c / (a + b + c))%Q
  else (a, b, c).

(** The label and score that [analyze_sentiment] picks from the three
    shares. *)
Definition pick (p n u : Q) : SentimentAnalyzer.label * Q :=
  if Qgtb p n && Qgtb p u then (SentimentAnalyzer.Positive, p)
  else if Qgtb n p && Qgtb n u then (SentimentAnalyzer.Negative, (- n)%Q)
  else (SentimentAnalyzer.Neutral, 0%Q).


(** The end of [analyze_sentiment]: normalisation, choice of the label and
    the result, from the two polar scores as the negation test leaves them
    and the neutral score. *)
Definition conclude (m : pystr) (a b u : Q) : SentimentAnalyzer.result :=
  let '(p, n, u') := normalise a b u in
  let '(lbl, score) := pick p n u' in
  {| SentimentAnalyzer.r_label := lbl;
     SentimentAnalyzer.r_score := score;
     SentimentAnalyzer.r_confidence := Qmax (Qmax p n) u';
     SentimentAnalyzer.r_urgency := SentimentAnalyzer._detect_urgency m lbl score;
     SentimentAnalyzer.r_emotions := SentimentAnalyzer._detect_emotions m;
     SentimentAnalyzer.r_keywords_found :=
       SentimentAnalyzer._extract_sentiment_keywords m |}.

(** The hit [h] is the document stored at position [idx]: its content and
    metadata, and the dot product of its embedding with the embedding of the
    query. *)
Definition hit_at (self : VectorStore.store) (query : pystr) (idx : nat)
    (h : VectorStore.hit) : Prop :=
  nth_error (VectorStore.documents self) idx = Some (VectorStore.content h)
  /\ nth_error (VectorStore.metadata self) idx = Some (VectorStore.hit_metadata h)
  /\ (exists encode row,
        VectorStore.embedding_model self = Some encode
        /\ nth_error (VectorStore.embeddings self) idx = Some row
        /\ VectorStore.similarity h = VectorStore.dot (encode query) row)
  /\ VectorStore.distance h = (1 - VectorStore.similarity h)%Q.

(** The [top_k] a call of [search] works with. *)
Definition effective_top_k (cfg : settings) (top_k : option Z) : Z :=
  match top_k with
  | Some k => k
  | None => RAG_TOP_K cfg
  end.

(** Every key of the filter has the same value in the metadata. *)
Definition matches_filter (f meta : gmap pystr pystr) : Prop :=
  forall k v, f !! k = Some v -> meta !! k = Some v.

(** A store with two documents, for an encoder that tells texts by their
    first letter. *)
Definition sample_encode (s : pystr) : VectorStore.vector :=
  match s with
  | [] => [1; 0]%Q
  | c :: _ => if N.even c then [1; 0]%Q else [(8#10); (6#10)]%Q
  end.

Definition sample_store : VectorStore.store := {|
  VectorStore.embedding_model := Some sample_encode;
  VectorStore.documents := [py "bonjour"; py "au revoir"];
  VectorStore.embeddings := [sample_encode (py "bonjour"); sample_encode (py "au revoir")];
  VectorStore.metadata := [{[ py "type" := py "faq" ]}; ∅]
|}.

(** The ids of the posts that the replies of a trace answer. *)
Definition replied_ids (log : list event) : list (option pystr) :=
  flat_map (fun e => match e with
                     | StatusPost in_reply_to_id _ => [in_reply_to_id]
                     | DetectComplaint _ => []
                     end) log.

(** The link that [generate_contact_link] builds around a token. *)
Definition contact_url_of (self : LinkGenerator.generator) (token : pystr) : pystr :=
  LinkGenerator.base_url self ++ py "/?token=" ++ token ++ py "&source=mastodon".

(** A post that is no complaint. *)
Definition calm_post : post := {|
  p_id := Some (py "1002");
  p_content := py "Bonjour Free Mobile";
  p_username := py "bob";
  p_url := py "https://mastodon.social/@bob/1002";
  p_created_at := Some 0%Z |}.

(** The default settings with the automatic replies switched off. *)
Definition quiet_settings : settings := {|
  FRONTEND_URL := FRONTEND_URL default_settings;
  MONITOR_HASHTAGS := MONITOR_HASHTAGS default_settings;
  MONITOR_KEYWORDS := MONITOR_KEYWORDS default_settings;
  AUTO_RESPOND := false;
  RESPONSE_DELAY := RESPONSE_DELAY default_settings;
  MAX_RESPONSES_PER_HOUR := MAX_RESPONSES_PER_HOUR default_settings;
  RAG_TOP_K := RAG_TOP_K default_settings;
  RAG_SIMILARITY_THRESHOLD := RAG_SIMILARITY_THRESHOLD default_settings |}.

(** What the counters of a collector keep true between two posts. *)
Definition counters_consistent (self : MastodonCollector.collector) : Prop :=
  let st := MastodonCollector.c_stats self in
  MastodonCollector.total_posts_processed st
    = Z.of_nat (size (MastodonCollector.processed_posts self))
  /\ (0 <= MastodonCollector.responses_sent st)%Z
  /\ (MastodonCollector.responses_sent st <= MastodonCollector.complaints_detected st)%Z
  /\ (MastodonCollector.complaints_detected st
      <= MastodonCollector.total_posts_processed st)%Z.

(* ===================================================================== *)
(** * Properties                                                          *)
(* ===================================================================== *)

(** ** Comparisons of rationals *)

Lemma Qgeb_true (x y : Q) : Qgeb x y = true <-> (y <= x)%Q.
Proof. unfold Qgeb, Qleb. apply Qle_bool_iff. Qed.

Lemma Qgeb_false (x y : Q) : Qgeb x y = false <-> (x < y)%Q.
Proof.
  unfold Qgeb, Qleb. split; intros H.
  - apply Qnot_le_lt. intros Hle. apply Qle_bool_iff in Hle. congruence.
  - destruct (Qle_bool y x) eqn:E; [|reflexivity].
    apply Qle_bool_iff in E. exfalso. exact (Qlt_not_le _ _ H E).
Qed.

Lemma Qgtb_true (x y : Q) : Qgtb x y = true <-> (y < x)%Q.
Proof.
  unfold Qgtb, Qltb. rewrite negb_true_iff. split; intros H.
  - apply Qnot_le_lt. intros Hle. apply Qle_bool_iff in Hle. congruence.
  - destruct (Qle_bool x y) eqn:E; [|reflexivity].
    apply Qle_bool_iff in E. exfalso. exact (Qlt_not_le _ _ H E).
Qed.

Lemma ofZ_nonneg (z : Z) : (0 <= z)%Z -> (0 <= ofZ z)%Q.
Proof. intros H. unfold ofZ, inject_Z, Qle. simpl. lia. Qed.

(** ** Counting *)

Lemma count_from_nonneg (sub s : pystr) (skip : nat) :
  (0 <= count_from sub s skip)%Z.
Proof.
  revert skip. induction s as [|c t IH]; intros skip; simpl.
  - destruct skip, sub; lia.
  - destruct skip as [|k]; [|apply IH].
    destruct (startswith sub (c :: t)).
    + specialize (IH (Nat.pred (length sub))). lia.
    + apply IH.
Qed.

Lemma count_nonneg (sub s : pystr) : (0 <= PyStr.count sub s)%Z.
Proof. apply count_from_nonneg. Qed.

Lemma fold_count_nonneg (content : pystr) (l : list pystr) (n : Z) :
  (0 <= n)%Z ->
  (0 <= fold_left (fun n e => (n + PyStr.count e content)%Z) l n)%Z.
Proof.
  revert n. induction l as [|e l IH]; intros n Hn; simpl; [exact Hn|].
  apply IH. pose proof (count_nonneg e content). lia.
Qed.

Lemma count_negative_emojis_nonneg (content : pystr) :
  (0 <= ComplaintDetector._count_negative_emojis content)%Z.
Proof. apply fold_count_nonneg. lia. Qed.

(** ** ComplaintDetector *)

Module ComplaintDetectorProps.

Import ComplaintDetector.

Lemma urgency_score_ge (score : Q) (e k p : Z) :
  (0 <= e)%Z -> (0 <= k)%Z -> (0 <= p)%Z ->
  (score <= urgency_score score e k p)%Q.
Proof.
  intros He Hk Hp. unfold urgency_score.
  apply ofZ_nonneg in He, Hk, Hp.
  assert (H1 : (0 <= ofZ e * (1#2))%Q) by (apply Qmult_le_0_compat; [exact He|discriminate]).
  assert (H2 : (0 <= ofZ k * (3#10))%Q) by (apply Qmult_le_0_compat; [exact Hk|discriminate]).
  assert (H3 : (0 <= ofZ p * (1#2))%Q) by (apply Qmult_le_0_compat; [exact Hp|discriminate]).
  rewrite <- (Qplus_0_r score) at 1.
  rewrite <- !Qplus_assoc.
  apply Qplus_le_compat; [apply Qle_refl|].
  rewrite <- (Qplus_0_r 0).
  apply Qplus_le_compat; [exact H1|].
  rewrite <- (Qplus_0_r 0).
  apply Qplus_le_compat; assumption.
Qed.

Lemma calculate_urgency_not_low (score : Q) (e k p : Z) :
  (3 <= score)%Q -> (0 <= e)%Z -> (0 <= k)%Z -> (0 <= p)%Z ->
  _calculate_urgency score e k p <> Low.
Proof.
  intros Hs He Hk Hp. unfold _calculate_urgency.
  destruct (Qgeb (urgency_score score e k p) 8); [discriminate|].
  destruct (Qgeb (urgency_score score e k p) 5); [discriminate|].
  destruct (Qgeb (urgency_score score e k p) 3) eqn:E; [discriminate|].
  apply Qgeb_false in E. exfalso.
  apply (Qlt_not_le _ _ E).
  apply Qle_trans with score; [exact Hs|].
  apply urgency_score_ge; assumption.
Qed.

(** C9.  Whenever [detect_complaint] reports a complaint, the urgency it
    reports is not ["low"]: the urgency score is the complaint score plus
    terms that are never negative, and the floor of ["medium"] is the
    complaint threshold 3. *)
Theorem complaint_urgency_not_low (content : pystr) :
  is_complaint (detect_complaint content) = true ->
  v_urgency (detect_complaint content) <> Low.
Proof.
  unfold detect_complaint. simpl. intros H.
  apply Qgeb_true in H.
  apply calculate_urgency_not_low.
  - exact H.
  - apply count_negative_emojis_nonneg.
  - apply Nat2Z.is_nonneg.
  - apply Nat2Z.is_nonneg.
Qed.

Lemma complaint_urgency_not_low_witness :
  v_urgency (detect_complaint example_content) <> Low.
Proof.
  apply (complaint_urgency_not_low example_content).
  vm_compute. reflexivity.
Defined.

(** C5.  On the text ["Free Mobile c'est nul, ça marche jamais !"] the
    detector reports a complaint (score 5.7, urgency high), but no keyword
    of the billing, technical, customer-service or cancellation lists
    occurs in it, so the type it returns is ["general"], while
    [get_complaint_examples] documents ["technical"] for this text. *)
Theorem detect_complaint_example :
  let v := detect_complaint example_content in
  In (example_content, Technical, High) get_complaint_examples
  /\ is_complaint v = true
  /\ (complaint_score v == 57#10)%Q
  /\ v_urgency v = High
  /\ any_in tech_keywords (lower example_content) = false
  /\ v_type v = General
  /\ v_type v <> Technical.
Proof.
  split; [vm_compute; left; reflexivity|].
  vm_compute. repeat split; discriminate.
Qed.

End ComplaintDetectorProps.

(** ** IntentDetector *)

Module IntentDetectorProps.

Import IntentDetector.

(** C6.  On ["Je veux résilier mon contrat"] the best intent is
    [resiliation] with score 0.128 (one keyword of fifteen, one pattern of
    five, short-message bonus), which is below the floor 0.3, so
    [detect_intent] answers [general] with confidence 0.5, while
    [get_intent_examples] lists the text under ["resiliation"] and the
    intent endpoint of api_simple.py answers [cancellation] for it. *)
Theorem detect_intent_example :
  let r := detect_intent example_message in
  In example_message (get_intent_examples Resiliation)
  /\ option_map fst (max_score (intent_scores (lower example_message)))
     = Some Resiliation
  /\ (_calculate_intent_score (lower example_message) resiliation == 128#1000)%Q
  /\ Qltb (_calculate_intent_score (lower example_message) resiliation)
          confidence_threshold = true
  /\ category r = General
  /\ (confidence r == 1#2)%Q
  /\ category r <> Resiliation
  /\ fst (ApiSimple.detect_intent example_message) = ApiSimple.Cancellation.
Proof.
  split; [vm_compute; left; reflexivity|].
  vm_compute. repeat split; discriminate.
Qed.

End IntentDetectorProps.

(** ** Lowering and the emoji count *)

Lemma Forall_of_forallb {A} (f : A -> bool) (l : list A) :
  forallb f l = true -> Forall (fun x => f x = true) l.
Proof. intros H. apply Forall_forall. apply forallb_forall. exact H. Qed.

Lemma count_single_cons (c0 c : N) (t : pystr) :
  PyStr.count [c0] (c :: t)
  = ((if (c0 =? c)%N then 1 else 0) + PyStr.count [c0] t)%Z.
Proof.
  unfold PyStr.count. simpl. rewrite andb_true_r.
  destruct (c0 =? c)%N; reflexivity.
Qed.

Lemma count_single_app (c0 : N) (a b : pystr) :
  PyStr.count [c0] (a ++ b) = (PyStr.count [c0] a + PyStr.count [c0] b)%Z.
Proof.
  induction a as [|c a IH].
  - reflexivity.
  - change ((c :: a) ++ b) with (c :: (a ++ b)).
    rewrite !count_single_cons, IH. lia.
Qed.

(** What [lower_cp] can produce: the code point itself, or one below
    U+03E8. *)
Lemma lower_cp_small (c x : N) : In x (lower_cp c) -> x = c \/ (x < 1000)%N.
Proof.
  unfold lower_cp.
  destruct (latin1_upper c) eqn:E1.
  - intros [<-|[]]. right.
    unfold latin1_upper, in_range in E1.
    rewrite !orb_true_iff, !andb_true_iff, !N.leb_le in E1. lia.
  - destruct (latin_ext_a_upper c) eqn:E2.
    + intros [<-|[]]. right.
      unfold latin_ext_a_upper, in_range in E2.
      rewrite !orb_true_iff, !andb_true_iff, !N.leb_le in E2. lia.
    + destruct (c =? 304)%N.
      * intros [<-|[<-|[]]]; right; lia.
      * destruct (c =? 376)%N.
        -- intros [<-|[]]. right. lia.
        -- intros [<-|[]]. left. reflexivity.
Qed.

Lemma count_single_absent (c0 : N) (s : pystr) :
  ~ In c0 s -> PyStr.count [c0] s = 0%Z.
Proof.
  induction s as [|c s IH]; intros H.
  - reflexivity.
  - rewrite count_single_cons, IH.
    + destruct (N.eqb_spec c0 c) as [->|]; [|reflexivity].
      exfalso. apply H. left. reflexivity.
    + intros Hin. apply H. right. exact Hin.
Qed.

Lemma lower_cp_self (c : N) : (1000 <= c)%N -> lower_cp c = [c].
Proof.
  intros H. unfold lower_cp.
  destruct (latin1_upper c) eqn:E1.
  { unfold latin1_upper, in_range in E1.
    rewrite !orb_true_iff, !andb_true_iff, !N.leb_le in E1. lia. }
  destruct (latin_ext_a_upper c) eqn:E2.
  { unfold latin_ext_a_upper, in_range in E2.
    rewrite !orb_true_iff, !andb_true_iff, !N.leb_le in E2. lia. }
  destruct (N.eqb_spec c 304); [lia|].
  destruct (N.eqb_spec c 376); [lia|].
  reflexivity.
Qed.

Lemma count_single_lower_cp (c0 c : N) :
  (1000 <= c0)%N -> PyStr.count [c0] (lower_cp c) = PyStr.count [c0] [c].
Proof.
  intros H.
  destruct (N.eqb_spec c0 c) as [->|Hne].
  - rewrite lower_cp_self by exact H. reflexivity.
  - rewrite !count_single_absent; [reflexivity| |].
    + intros [->|[]]. apply Hne. reflexivity.
    + intros Hin. apply lower_cp_small in Hin. destruct Hin; [congruence|lia].
Qed.

Lemma count_single_lower (c0 : N) (s : pystr) :
  (1000 <= c0)%N -> PyStr.count [c0] (lower s) = PyStr.count [c0] s.
Proof.
  intros H. induction s as [|c s IH].
  - reflexivity.
  - change (lower (c :: s)) with (lower_cp c ++ lower s).
    change (c :: s) with ([c] ++ s).
    rewrite !count_single_app, IH, count_single_lower_cp by exact H.
    reflexivity.
Qed.


Lemma negative_emojis_caseless :
  Forall (fun e => caseless_symbol e = true) ComplaintDetector.negative_emojis.
Proof. apply Forall_of_forallb. vm_compute. reflexivity. Qed.

Lemma fold_count_lower (s : pystr) (l : list pystr) (n : Z) :
  Forall (fun e => caseless_symbol e = true) l ->
  fold_left (fun n e => (n + PyStr.count e (lower s))%Z) l n
  = fold_left (fun n e => (n + PyStr.count e s)%Z) l n.
Proof.
  intros H. revert n. induction H as [|e l He _ IH]; intros n; simpl.
  - reflexivity.
  - destruct e as [|c [|? ?]]; try discriminate.
    simpl in He. apply N.leb_le in He.
    rewrite count_single_lower by exact He. apply IH.
Qed.

Lemma count_negative_emojis_lower (s : pystr) :
  ComplaintDetector._count_negative_emojis (lower s)
  = ComplaintDetector._count_negative_emojis s.
Proof. apply fold_count_lower. apply negative_emojis_caseless. Qed.

(** ** Upper-case code points after lowering *)

Lemma lower_cp_latin_not_upper (c : N) :
  latin c -> forallb (fun x => negb (isupper_cp x)) (lower_cp c) = true.
Proof.
  intros H. unfold latin in H.
  assert (Hall : forallb (fun n => forallb (fun x => negb (isupper_cp x))
                                     (lower_cp (N.of_nat n)))
                   (seq 0 384) = true) by (vm_compute; reflexivity).
  rewrite forallb_forall in Hall.
  specialize (Hall (N.to_nat c)).
  rewrite N2Nat.id in Hall. apply Hall.
  apply in_seq. lia.
Qed.

Lemma lower_latin_not_upper (s : pystr) :
  Forall latin s -> List.filter isupper_cp (lower s) = [].
Proof.
  induction 1 as [|c s Hc _ IH].
  - reflexivity.
  - change (lower (c :: s)) with (lower_cp c ++ lower s).
    rewrite List.filter_app, IH, app_nil_r.
    apply lower_cp_latin_not_upper in Hc.
    induction (lower_cp c) as [|x l IHl]; [reflexivity|].
    simpl in Hc. apply andb_true_iff in Hc. destruct Hc as [Hx Hl].
    simpl. apply negb_true_iff in Hx. rewrite Hx. apply IHl. exact Hl.
Qed.

Lemma caps_ratio_zero (s : pystr) :
  List.filter isupper_cp s = [] ->
  (ComplaintDetector.caps_ratio s == 0)%Q /\ (SentimentAnalyzer.caps_ratio s == 0)%Q.
Proof.
  intros H.
  unfold ComplaintDetector.caps_ratio, SentimentAnalyzer.caps_ratio, upper_count.
  rewrite H. destruct s; split; try reflexivity;
    unfold Qdiv; simpl; rewrite Qmult_0_l; reflexivity.
Qed.

(** ** SentimentAnalyzer *)

Module SentimentAnalyzerProps.

Import SentimentAnalyzer.

Lemma fold_intensifiers (message : pystr) (l : list pystr) (score : Q) :
  (fold_left (fun score intensifier =>
     if contains intensifier message then score * (3#2) else score) l score
   == score * Qpow (3#2) (length (List.filter (fun w => contains w message) l)))%Q.
Proof.
  revert score. induction l as [|w l IH]; intros score; simpl.
  - ring.
  - rewrite IH. destruct (contains w message); simpl; ring.
Qed.

(** C7, as the code has it.  The loop of [_apply_modifiers] multiplies the
    score by 1.5 once for every word of the polarity's intensifier list that
    occurs in the message: a word counts once however often it is repeated,
    and k different words give the factor 1.5^k.  The repetition boost is
    applied to the outcome. *)
Theorem intensifier_amplification (message : pystr) (score : Q) (sentiment_type : label) :
  (intensify message score sentiment_type
   == score * Qpow (3#2) (present_intensifiers message sentiment_type))%Q
  /\ (_apply_modifiers message score sentiment_type
      == score * Qpow (3#2) (present_intensifiers message sentiment_type)
         * repetition_factor message)%Q
  /\ (present_intensifiers message sentiment_type
      <= length (intensifiers sentiment_type))%nat
  /\ NoDup (intensifiers sentiment_type).
Proof.
  assert (H : (intensify message score sentiment_type
               == score * Qpow (3#2) (present_intensifiers message sentiment_type))%Q)
    by apply fold_intensifiers.
  split; [exact H|]. split; [|split].
  - unfold _apply_modifiers, repetition_factor.
    destruct (Re.repetitions message >? 0)%Z; rewrite H; ring.
  - apply List.filter_length_le.
  - destruct sentiment_type; vm_compute;
      repeat (constructor; [simpl; intuition discriminate|]); constructor.
Qed.

(** C7, as the claim has it: refuted.  ["très, vraiment bien"] holds two
    intensifiers and no repeated word; the positive score 4 (keyword
    ["bien"], pattern [très.*bien]) becomes 9, two multiplications by 1.5,
    not 6. *)
Lemma two_intensifiers_multiply_twice :
  Re.repetitions two_intensifiers = 0%Z
  /\ (_calculate_sentiment_score two_intensifiers positive_patterns == 4)%Q
  /\ (_apply_modifiers two_intensifiers 4 Positive == 9)%Q
  /\ ~ (_apply_modifiers two_intensifiers 4 Positive == 4 * (3#2))%Q.
Proof.
  vm_compute. repeat split; discriminate.
Qed.

End SentimentAnalyzerProps.

(** ** Letter case *)

(** C10, as the code has it.  Two messages with the same lower-case form get
    the same sentiment result and the same complaint verdict (the emoji
    count, taken on the raw text, is not affected by case).  The caps-ratio
    terms are computed on the lowered text; they are zero for every message
    of Basic Latin, Latin-1 and Latin Extended-A code points, whose capitals
    all have a lower-case form. *)
Theorem case_invariance (m m' : pystr) :
  lower m = lower m' ->
  SentimentAnalyzer.analyze_sentiment m = SentimentAnalyzer.analyze_sentiment m'
  /\ ComplaintDetector.detect_complaint m = ComplaintDetector.detect_complaint m'
  /\ (Forall latin m ->
      (forall score, ComplaintDetector.caps_score (lower m) score = score)
      /\ (SentimentAnalyzer.caps_ratio (lower m) * 10 == 0)%Q).
Proof.
  intros H. split; [|split].
  - unfold SentimentAnalyzer.analyze_sentiment. rewrite H. reflexivity.
  - unfold ComplaintDetector.detect_complaint.
    rewrite <- (count_negative_emojis_lower m), <- (count_negative_emojis_lower m'), H.
    reflexivity.
  - intros Hl. apply lower_latin_not_upper in Hl.
    destruct (caps_ratio_zero _ Hl) as [Hc Hs]. split.
    + intros score. unfold ComplaintDetector.caps_score.
      destruct (Qgtb (ComplaintDetector.caps_ratio (lower m)) (3#10)) eqn:E; [|reflexivity].
      apply Qgtb_true in E. rewrite Hc in E. discriminate.
    + rewrite Hs. reflexivity.
Qed.

Lemma case_invariance_witness :
  SentimentAnalyzer.analyze_sentiment (py "C'EST NUL !")
  = SentimentAnalyzer.analyze_sentiment (py "c'est nul !")
  /\ ComplaintDetector.detect_complaint (py "C'EST NUL !")
     = ComplaintDetector.detect_complaint (py "c'est nul !")
  /\ (forall score, ComplaintDetector.caps_score (lower (py "C'EST NUL !")) score = score)
  /\ (SentimentAnalyzer.caps_ratio (lower (py "C'EST NUL !")) * 10 == 0)%Q.
Proof.
  assert (H : lower (py "C'EST NUL !") = lower (py "c'est nul !"))
    by (vm_compute; reflexivity).
  destruct (case_invariance _ _ H) as (Hs & Hc & Hcaps).
  split; [exact Hs|]. split; [exact Hc|].
  apply Hcaps. apply Forall_forall. intros c Hc'.
  unfold latin. vm_compute in Hc'.
  repeat (destruct Hc' as [<-|Hc']; [lia|]). destruct Hc'.
Defined.

(** C10, as the claim has it: refuted.  The mathematical bold capitals are
    upper-case letters without a lower-case form: [lower] leaves them in
    place, the caps ratio of the lowered text is 1, the complaint score gets
    the shouting bonus and the sentiment urgency is ["high"]. *)
Lemma caps_terms_not_always_zero :
  lower shouted = shouted
  /\ ~ (ComplaintDetector.caps_ratio (lower shouted) == 0)%Q
  /\ ComplaintDetector.caps_score (lower shouted) 0 = (0 + 1)%Q
  /\ (ComplaintDetector.complaint_score (ComplaintDetector.detect_complaint shouted) == 1)%Q
  /\ SentimentAnalyzer.r_urgency (SentimentAnalyzer.analyze_sentiment shouted)
     = SentimentAnalyzer.High.
Proof.
  vm_compute. repeat split; discriminate.
Qed.

(** ** LinkGenerator *)

Module LinkGeneratorProps.

Import LinkGenerator.

Lemma lower_hex_facts (c : N) :
  lower_hex c = true ->
  isspace_cp c = false /\ (c =? 43)%N = false /\ (c =? 45)%N = false
  /\ (c =? 120)%N = false /\ (c =? 88)%N = false /\ (c =? 95)%N = false
  /\ exists d, hex_value c = Some d.
Proof.
  unfold lower_hex, in_range. rewrite orb_true_iff, !andb_true_iff, !N.leb_le.
  intros H.
  assert (Hs : isspace_cp c = false).
  { unfold isspace_cp, in_range.
    repeat (apply orb_false_intro);
      try (apply andb_false_iff; rewrite !N.leb_gt; lia);
      try (apply N.eqb_neq; lia). }
  repeat split; try exact Hs; try (apply N.eqb_neq; lia).
  unfold hex_value, in_range.
  destruct ((48 <=? c)%N && (c <=? 57)%N) eqn:E1; [eexists; reflexivity|].
  destruct ((97 <=? c)%N && (c <=? 102)%N) eqn:E2; [eexists; reflexivity|].
  exfalso. rewrite andb_false_iff, !N.leb_gt in E1, E2. lia.
Qed.

Lemma hex_char_lower_hex (d : N) : (d < 16)%N -> lower_hex (hex_char d) = true.
Proof.
  intros H. unfold hex_char, lower_hex, in_range.
  destruct (N.ltb_spec d 10); rewrite orb_true_iff, !andb_true_iff, !N.leb_le; lia.
Qed.

Lemma hexdigest_lower_hex (digest : list N) :
  Forall (fun c => lower_hex c = true) (hexdigest digest).
Proof.
  unfold hexdigest. induction digest as [|b digest IH]; simpl.
  - constructor.
  - constructor; [|constructor; [|exact IH]]; apply hex_char_lower_hex.
    + apply N.mod_lt. discriminate.
    + apply N.mod_lt. discriminate.
Qed.

Lemma hexdigest_length (digest : list N) :
  length (hexdigest digest) = (2 * length digest)%nat.
Proof.
  unfold hexdigest. induction digest as [|b digest IH]; simpl; [reflexivity|].
  rewrite IH. lia.
Qed.

Lemma lstrip_lower_hex (s : pystr) :
  Forall (fun c => lower_hex c = true) s -> lstrip s = s.
Proof.
  intros H. destruct H as [|c s Hc _]; [reflexivity|].
  simpl. destruct (lower_hex_facts c Hc) as (-> & _). reflexivity.
Qed.

Lemma strip_lower_hex (s : pystr) :
  Forall (fun c => lower_hex c = true) s -> strip s = s.
Proof.
  intros H. unfold strip.
  rewrite (lstrip_lower_hex s H).
  rewrite lstrip_lower_hex by (apply Forall_rev; exact H).
  apply rev_involutive.
Qed.

Lemma hex_digits_lower_hex (s : pystr) (acc : Z) (after_digit : bool) :
  Forall (fun c => lower_hex c = true) s ->
  s <> [] \/ after_digit = true ->
  exists v, hex_digits s acc after_digit = Some v.
Proof.
  intros H. revert acc after_digit.
  induction H as [|c s Hc _ IH]; intros acc after_digit Hne; simpl.
  - destruct Hne as [Hne| ->]; [congruence|]. eexists; reflexivity.
  - destruct (lower_hex_facts c Hc) as (_ & _ & _ & _ & _ & -> & d & ->).
    apply IH. right. reflexivity.
Qed.

Lemma int_base16_lower_hex (s : pystr) :
  Forall (fun c => lower_hex c = true) s -> s <> [] ->
  exists v, int_base16 s = Some v.
Proof.
  intros H Hne. unfold int_base16.
  rewrite (strip_lower_hex s H).
  destruct H as [|c s Hc Hs]; [congruence|].
  destruct (lower_hex_facts c Hc) as (_ & -> & -> & _).
  assert (Hd : exists v, hex_digits (c :: s) 0 false = Some v).
  { apply hex_digits_lower_hex; [constructor; assumption|left; discriminate]. }
  destruct s as [|x t].
  - destruct Hd as [v ->]. eexists; reflexivity.
  - inversion Hs as [|? ? Hx ?]; subst.
    destruct (lower_hex_facts x Hx) as (_ & _ & _ & -> & -> & _).
    rewrite andb_false_r.
    destruct Hd as [v ->]. eexists; reflexivity.
Qed.

Lemma validate_token_lower_hex (self : generator) (s : pystr) :
  Forall (fun c => lower_hex c = true) s -> length s = 16%nat ->
  validate_token self s = (true, self).
Proof.
  intros H Hlen. unfold validate_token.
  destruct s as [|c t] eqn:E; [discriminate|]. rewrite <- E in *.
  unfold len. rewrite Hlen. cbn [Z.of_nat Z.eqb negb Pos.of_succ_nat].
  destruct (int_base16_lower_hex s H) as [v Hv]; [subst; discriminate|].
  rewrite Hv. reflexivity.
Qed.

Lemma Forall_firstn {A} (P : A -> Prop) (n : nat) (l : list A) :
  Forall P l -> Forall P (firstn n l).
Proof.
  intros H. revert n. induction H as [|x l Hx _ IH]; intros [|n]; simpl;
    constructor; auto.
Qed.

(** C1, as the code has it.  For every issued link (the token is the first
    16 hex characters of a SHA-256 digest) [validate_token] answers true on
    the first call and on the call after it; it is a test of the format of
    the token, the generator is the same after each call, and the [used]
    flag of the link stays false. *)
Theorem issued_token_validates (self : generator) (digest : list N)
    (t_created t_expires : Z) (user post_id : pystr) (ctx : post_context) :
  length digest = 32%nat ->
  let link := generate_contact_link self digest t_created t_expires user post_id ctx in
  exists tok link_ctx,
    token link = Some tok
    /\ context link = Some link_ctx
    /\ validate_token self tok = (true, self)
    /\ validate_token (snd (validate_token self tok)) tok = (true, self)
    /\ used link_ctx = false.
Proof.
  intros Hlen link.
  exists (_generate_unique_token digest).
  eexists. split; [reflexivity|]. split; [reflexivity|].
  assert (Hok : validate_token self (_generate_unique_token digest) = (true, self)).
  { apply validate_token_lower_hex.
    - apply Forall_firstn. apply hexdigest_lower_hex.
    - unfold _generate_unique_token. rewrite length_firstn, hexdigest_length, Hlen.
      reflexivity. }
  rewrite Hok. cbn [snd]. rewrite Hok. repeat split.
Qed.

Lemma issued_token_validates_witness :
  exists tok link_ctx,
    token (generate_contact_link (init default_settings) sample_digest 0 0
             (py "alice") (py "1001") sample_context) = Some tok
    /\ context (generate_contact_link (init default_settings) sample_digest 0 0
                  (py "alice") (py "1001") sample_context) = Some link_ctx
    /\ validate_token (init default_settings) tok = (true, init default_settings)
    /\ validate_token (snd (validate_token (init default_settings) tok)) tok
       = (true, init default_settings)
    /\ used link_ctx = false.
Proof.
  apply (issued_token_validates (init default_settings) sample_digest 0 0
           (py "alice") (py "1001") sample_context).
  reflexivity.
Defined.

(** C1, as the claim has it: refuted.  The token of an issued link is
    accepted by the second call as it is by the first. *)
Lemma second_validation_succeeds :
  let g := init default_settings in
  let link := generate_contact_link g sample_digest 0 0 (py "alice") (py "1001")
                sample_context in
  token link = Some (py "056613c89919f993")
  /\ let '(first, g1) := validate_token g (py "056613c89919f993") in
     let '(second, g2) := validate_token g1 (py "056613c89919f993") in
     first = true /\ second = true /\ second <> false /\ g2 = g.
Proof.
  vm_compute. repeat split; discriminate.
Qed.

End LinkGeneratorProps.

(** ** AutoResponder *)

Module AutoResponderProps.

Import AutoResponder.

Lemma can_respond_below_cap (cfg : settings) (self : responder) (now : Z) :
  _can_respond cfg self now = true ->
  (response_count self < MAX_RESPONSES_PER_HOUR cfg)%Z.
Proof.
  unfold _can_respond.
  destruct (response_count self >=? MAX_RESPONSES_PER_HOUR cfg)%Z eqn:E;
    [discriminate|].
  intros _. rewrite Z.geb_leb in E. apply Z.leb_gt in E. exact E.
Qed.

Lemma can_respond_at_cap (cfg : settings) (self : responder) (now : Z) :
  (MAX_RESPONSES_PER_HOUR cfg <= response_count self)%Z ->
  _can_respond cfg self now = false.
Proof.
  intros H. unfold _can_respond.
  destruct (response_count self >=? MAX_RESPONSES_PER_HOUR cfg)%Z eqn:E;
    [reflexivity|].
  rewrite Z.geb_leb in E. apply Z.leb_gt in E. lia.
Qed.

Lemma process_post_at_cap (cfg : settings) (self : responder) (p : post)
    (env : respond_env) :
  (MAX_RESPONSES_PER_HOUR cfg <= response_count self)%Z ->
  process_post cfg self p env = (None, self, []).
Proof.
  intros H. unfold process_post.
  rewrite (can_respond_at_cap cfg self (t_check env) H). reflexivity.
Qed.

Lemma run_at_cap (cfg : settings) (self : responder)
    (later : list (post * respond_env)) :
  (MAX_RESPONSES_PER_HOUR cfg <= response_count self)%Z ->
  run cfg self (List.map (fun pe => ProcessPost (fst pe) (snd pe)) later) = self.
Proof.
  intros H. induction later as [|[p env] later IH]; [reflexivity|].
  cbn [List.map run fold_left step fst snd].
  rewrite (process_post_at_cap cfg self p env H). cbn [fst snd]. exact IH.
Qed.

(** C2: the code never reopens the window.  Ten replies delivered between
    10:00 and 10:09 fill the default cap of ten per hour.  From then on
    every attempt is turned down without any call being made, two hours
    after the last reply, a day after it, and for every post and every
    clock reading whatsoever; the responder stays as it is through any
    number of further attempts.  So the counter is not lowered when the
    hour has passed, against the comment "Reset du compteur toutes les
    heures" of [_update_response_stats] and the name of the setting
    [MAX_RESPONSES_PER_HOUR].  The reset in that method compares two clock
    readings taken one line apart and runs only after a delivered reply:
    replies at 10:59:00 and 11:00:30 leave the counter at 2, so there is no
    reset at the change of the hour either. *)
Theorem capped_responder_stays_closed (p : post) (env : respond_env)
    (later : list (post * respond_env)) :
  let st := run default_settings (init default_settings) ten_sends in
  let last := (10 * usec_per_hour + 9 * minute)%Z in
  response_count st = MAX_RESPONSES_PER_HOUR default_settings
  /\ last_response_time st = Some last
  /\ _can_respond default_settings st (last + 2 * usec_per_hour) = false
  /\ process_post default_settings st complaint_post (env_at (last + 2 * usec_per_hour))
     = (None, st, [])
  /\ process_post default_settings st complaint_post (env_at (last + 24 * usec_per_hour))
     = (None, st, [])
  /\ process_post default_settings st p env = (None, st, [])
  /\ run default_settings st
       (List.map (fun pe => ProcessPost (fst pe) (snd pe)) later) = st
  /\ response_count
       (run default_settings (init default_settings)
          [ProcessPost complaint_post (env_at (10 * usec_per_hour + 59 * minute));
           ProcessPost complaint_post
             (env_at (11 * usec_per_hour + 30 * usec_per_sec))]) = 2%Z.
Proof.
  intros st last.
  assert (Hcount : response_count st = MAX_RESPONSES_PER_HOUR default_settings)
    by (vm_compute; reflexivity).
  assert (Hcap : (MAX_RESPONSES_PER_HOUR default_settings <= response_count st)%Z)
    by (rewrite Hcount; lia).
  split; [exact Hcount|].
  split; [vm_compute; reflexivity|].
  split; [apply can_respond_at_cap; exact Hcap|].
  split; [apply process_post_at_cap; exact Hcap|].
  split; [apply process_post_at_cap; exact Hcap|].
  split; [apply process_post_at_cap; exact Hcap|].
  split; [apply run_at_cap; exact Hcap|].
  vm_compute. reflexivity.
Qed.

Lemma update_response_stats_count (self : responder) (t_sent t_reset : Z) :
  response_count (_update_response_stats self t_sent t_reset)
  = (response_count self + 1)%Z
  \/ response_count (_update_response_stats self t_sent t_reset) = 0%Z.
Proof.
  unfold _update_response_stats. simpl.
  destruct (negb (hour t_sent =? hour t_reset)%Z); auto.
Qed.

Lemma process_post_count (cfg : settings) (self : responder) (p : post)
    (env : respond_env) :
  let self' := snd (fst (process_post cfg self p env)) in
  response_count self' = response_count self
  \/ ((response_count self < MAX_RESPONSES_PER_HOUR cfg)%Z
      /\ (response_count self' = (response_count self + 1)%Z
          \/ response_count self' = 0%Z)).
Proof.
  unfold process_post.
  destruct (_can_respond cfg self (t_check env)) eqn:Hcan; cbn [negb fst snd];
    [|left; reflexivity].
  apply can_respond_below_cap in Hcan.
  cbv zeta.
  destruct (ComplaintDetector.is_complaint
              (ComplaintDetector.detect_complaint (p_content p)));
    cbn [negb fst snd]; [|left; reflexivity].
  unfold LinkGenerator.generate_contact_link.
  cbn [LinkGenerator.token LinkGenerator.url LinkGenerator.context].
  destruct (LinkGenerator._generate_unique_token (digest env));
    cbn [fst snd]; [left; reflexivity|].
  destruct (delivery env); cbn [fst snd]; [|left; reflexivity].
  right. split; [exact Hcan|].
  unfold _save_response_history. cbn [response_count].
  apply update_response_stats_count.
Qed.

Lemma step_keeps_cap (cfg : settings) (self : responder) (c : call) :
  (response_count self <= Z.max 0 (MAX_RESPONSES_PER_HOUR cfg))%Z ->
  (response_count (step cfg self c) <= Z.max 0 (MAX_RESPONSES_PER_HOUR cfg))%Z.
Proof.
  intros H. destruct c as [p env|]; simpl.
  - pose proof (process_post_count cfg self p env) as Hc. simpl in Hc. lia.
  - lia.
Qed.

Lemma run_keeps_cap (cfg : settings) (calls : list call) (self : responder) :
  (response_count self <= Z.max 0 (MAX_RESPONSES_PER_HOUR cfg))%Z ->
  (response_count (run cfg self calls) <= Z.max 0 (MAX_RESPONSES_PER_HOUR cfg))%Z.
Proof.
  revert self. induction calls as [|c calls IH]; intros self H; simpl.
  - exact H.
  - apply IH. apply step_keeps_cap. exact H.
Qed.

(** C3.  After any sequence of calls on a fresh responder the counter is at
    most the cap ([Z.max 0] only matters for a negative setting), and when
    it has reached the cap the next [process_post] is turned down whatever
    the post and its surroundings: it returns nothing, leaves the responder
    as it is and makes no call, not even complaint detection. *)
Theorem capped_send_is_rejected (cfg : settings) (calls : list call) :
  let self := run cfg (init cfg) calls in
  (response_count self <= Z.max 0 (MAX_RESPONSES_PER_HOUR cfg))%Z
  /\ ((0 <= MAX_RESPONSES_PER_HOUR cfg)%Z ->
      (response_count self <= MAX_RESPONSES_PER_HOUR cfg)%Z)
  /\ ((MAX_RESPONSES_PER_HOUR cfg <= response_count self)%Z ->
      forall (p : post) (env : respond_env),
        process_post cfg self p env = (None, self, [])).
Proof.
  intros self.
  assert (H : (response_count self <= Z.max 0 (MAX_RESPONSES_PER_HOUR cfg))%Z).
  { apply run_keeps_cap. simpl. lia. }
  split; [exact H|]. split; [lia|].
  intros Hcap p env. unfold process_post.
  rewrite (can_respond_at_cap cfg self (t_check env) Hcap). reflexivity.
Qed.

Lemma capped_send_is_rejected_witness :
  let self := run default_settings (init default_settings) ten_sends in
  (response_count self <= MAX_RESPONSES_PER_HOUR default_settings)%Z
  /\ process_post default_settings self complaint_post (env_at 0) = (None, self, []).
Proof.
  intros self.
  destruct (capped_send_is_rejected default_settings ten_sends) as (_ & Hle & Hrej).
  split.
  - apply Hle. vm_compute. discriminate.
  - apply Hrej. vm_compute. discriminate.
Defined.

End AutoResponderProps.

(** ** MastodonCollector *)

Module MastodonCollectorProps.

Import MastodonCollector.

Lemma process_post_events (cfg : settings) (self : AutoResponder.responder)
    (p : post) (env : AutoResponder.respond_env) :
  Forall (fun e => event_id e = p_id p)
    (snd (AutoResponder.process_post cfg self p env)).
Proof.
  unfold AutoResponder.process_post.
  destruct (AutoResponder._can_respond cfg self (AutoResponder.t_check env));
    cbn [negb snd]; [|constructor].
  cbv zeta.
  destruct (ComplaintDetector.is_complaint
              (ComplaintDetector.detect_complaint (p_content p)));
    cbn [negb snd]; [|repeat constructor].
  unfold LinkGenerator.generate_contact_link.
  cbn [LinkGenerator.token LinkGenerator.url LinkGenerator.context].
  destruct (LinkGenerator._generate_unique_token (AutoResponder.digest env));
    cbn [snd]; [repeat constructor|].
  destruct (AutoResponder.delivery env); cbn [snd app]; repeat constructor.
Qed.

Lemma process_single_post_spec (cfg : settings) (self : collector) (p : post)
    (env : post_env) :
  processed_posts (fst (_process_single_post cfg self p env)) = processed_posts self
  /\ Forall (fun e => event_id e = p_id p)
       (snd (_process_single_post cfg self p env)).
Proof.
  unfold _process_single_post. cbv zeta.
  destruct (ComplaintDetector.is_complaint
              (ComplaintDetector.detect_complaint (p_content p)));
    [|split; [reflexivity|repeat constructor]].
  destruct (AUTO_RESPOND cfg); [|split; [reflexivity|repeat constructor]].
  pose proof (process_post_events cfg (auto_responder self) p (respond env)) as He.
  destruct (AutoResponder.process_post cfg (auto_responder self) p (respond env))
    as [[result responder] log'].
  cbn [fst snd] in *. split; [reflexivity|].
  constructor; [reflexivity|exact He].
Qed.

(** One turn of the loop: the set of handled ids only grows; a turn that
    makes any call records the id of its post; and calls are made only for
    a post whose id was not in the set. *)
Lemma process_one_spec (cfg : settings) (self : collector) (p : post)
    (env : post_env) :
  processed_posts self ⊆ processed_posts (fst (process_one cfg self (p, env)))
  /\ (snd (process_one cfg self (p, env)) <> [] ->
      (p_id p ∉ processed_posts self)
      /\ (p_id p ∈ processed_posts (fst (process_one cfg self (p, env)))))
  /\ Forall (fun e => event_id e = p_id p) (snd (process_one cfg self (p, env))).
Proof.
  assert (Hskip : processed_posts self ⊆ processed_posts self
                  /\ ((@nil event) <> [] ->
                      (p_id p ∉ processed_posts self)
                      /\ (p_id p ∈ processed_posts self))
                  /\ Forall (fun e => event_id e = p_id p) []).
  { split; [reflexivity|]. split; [congruence|constructor]. }
  unfold process_one.
  destruct (decide (p_id p ∈ processed_posts self)) as [Hin|Hnin];
    cbn [fst snd]; [exact Hskip|].
  destruct (_is_recent_post p (t_recent env));
    cbn [negb fst snd]; [|exact Hskip].
  destruct (_is_free_mobile_related cfg p);
    cbn [negb fst snd]; [|exact Hskip].
  destruct (process_single_post_spec cfg self p env) as [Hp He].
  destruct (_process_single_post cfg self p env) as [self' log].
  cbn [fst snd processed_posts] in *. rewrite Hp.
  split; [apply union_subseteq_l|]. split; [|exact He].
  intros _. split; [exact Hnin|].
  apply elem_of_union_r, elem_of_singleton. reflexivity.
Qed.

Lemma process_one_skips (cfg : settings) (self : collector) (p : post)
    (env : post_env) :
  p_id p ∈ processed_posts self -> process_one cfg self (p, env) = (self, []).
Proof.
  intros H. unfold process_one.
  destruct (decide (p_id p ∈ processed_posts self)); [reflexivity|contradiction].
Qed.

Lemma process_posts_spec (cfg : settings) (posts : list (post * post_env))
    (self : collector) (id : option pystr) :
  id ∈ processed_posts self ->
  id ∈ processed_posts (fst (_process_posts cfg self posts))
  /\ Forall (fun e => event_id e <> id) (snd (_process_posts cfg self posts)).
Proof.
  revert self. induction posts as [|[p env] posts IH]; intros self Hin.
  - split; [exact Hin|constructor].
  - cbn [_process_posts].
    destruct (process_one_spec cfg self p env) as (Hsub & Hrec & Hev).
    destruct (process_one cfg self (p, env)) as [self1 log1].
    cbn [fst snd] in *.
    specialize (IH self1 (Hsub _ Hin)).
    destruct (_process_posts cfg self1 posts) as [self2 log2].
    cbn [fst snd] in *. destruct IH as [IH1 IH2].
    split; [exact IH1|].
    apply Forall_app. split; [|exact IH2].
    destruct log1 as [|e log1]; [constructor|].
    destruct Hrec as [Hnin _]; [discriminate|].
    eapply Forall_impl; [|exact Hev].
    intros e' He' Heq. cbn beta in He'. rewrite He' in Heq.
    rewrite Heq in Hnin. contradiction.
Qed.

(** C4.  A post whose id is in [processed_posts] is skipped by the loop of
    [_process_posts] before anything else happens: the collector is left as
    it is and no call is made, complaint detection included.  The id stays
    in the set while further posts are handled, so in any later batch no
    detection and no reply concerns that post, and it is skipped again
    afterwards.  Every turn of the loop that makes a call records the id of
    its post, which puts handled posts under this rule. *)
Theorem processed_post_is_skipped (cfg : settings) (self : collector)
    (posts : list (post * post_env)) (p : post) (env : post_env) :
  p_id p ∈ processed_posts self ->
  process_one cfg self (p, env) = (self, [])
  /\ _process_posts cfg self [(p, env)] = (self, [])
  /\ Forall (fun e => event_id e <> p_id p) (snd (_process_posts cfg self posts))
  /\ (let self' := fst (_process_posts cfg self posts) in
      p_id p ∈ processed_posts self'
      /\ process_one cfg self' (p, env) = (self', []))
  /\ (forall (self0 : collector) (q : post) (env0 : post_env),
        snd (process_one cfg self0 (q, env0)) <> [] ->
        p_id q ∈ processed_posts (fst (process_one cfg self0 (q, env0)))).
Proof.
  intros Hin.
  destruct (process_posts_spec cfg posts self (p_id p) Hin) as [Hin' Hev].
  split; [apply process_one_skips; exact Hin|].
  split.
  { cbn [_process_posts]. rewrite (process_one_skips cfg self p env Hin).
    reflexivity. }
  split; [exact Hev|]. split.
  - split; [exact Hin'|]. apply process_one_skips. exact Hin'.
  - intros self0 q env0 Hne.
    destruct (process_one_spec cfg self0 q env0) as (_ & Hrec & _).
    apply Hrec. exact Hne.
Qed.

Lemma processed_post_is_skipped_witness :
  let self := {| auto_responder := AutoResponder.init default_settings;
                 processed_posts := {[ Some (py "1001") ]};
                 c_stats := c_stats (init default_settings) |} in
  let env := {| t_recent := 0%Z; respond := env_at 0 |} in
  process_one default_settings self (complaint_post, env) = (self, [])
  /\ Forall (fun e => event_id e <> p_id complaint_post)
       (snd (_process_posts default_settings self [(complaint_post, env)])).
Proof.
  intros self env.
  destruct (processed_post_is_skipped default_settings self
              [(complaint_post, env)] complaint_post env) as (H1 & _ & H2 & _).
  - unfold self. cbn [processed_posts]. apply elem_of_singleton_2. reflexivity.
  - split; [exact H1|exact H2].
Defined.

End MastodonCollectorProps.

(** ** VectorStore *)

Module VectorStoreProps.

Import VectorStore.

Lemma collect_above_threshold (cfg : settings) (self : store)
    (filter_metadata : option (gmap pystr pystr)) (sims : list Q)
    (indices : list nat) (results out : list hit) :
  Forall (fun h => (RAG_SIMILARITY_THRESHOLD cfg <= similarity h)%Q) results ->
  collect cfg self filter_metadata sims indices results = Some out ->
  Forall (fun h => (RAG_SIMILARITY_THRESHOLD cfg <= similarity h)%Q) out.
Proof.
  revert results. induction indices as [|idx rest IH]; intros results Hres; simpl.
  - intros [= <-]. exact Hres.
  - destruct (nth_error sims idx) as [sim|]; [|discriminate].
    destruct (Qgeb sim (RAG_SIMILARITY_THRESHOLD cfg)) eqn:E; [|apply IH; exact Hres].
    apply Qgeb_true in E.
    destruct (passes_filter self filter_metadata idx) as [[|]|];
      [|apply IH; exact Hres|discriminate].
    destruct (nth_error (documents self) idx) as [doc|]; [|discriminate].
    destruct (nth_error (metadata self) idx) as [meta|]; [|discriminate].
    apply IH. apply Forall_app. split; [exact Hres|].
    constructor; [exact E|constructor].
Qed.

(** C8.  Every hit that [search] returns has a similarity at or above
    [RAG_SIMILARITY_THRESHOLD], for every store, query, [top_k] and metadata
    filter, and on a store without documents [search] returns the empty
    list. *)
Theorem search_hits_above_threshold (cfg : settings) (self : store)
    (query : pystr) (top_k : option Z)
    (filter_metadata : option (gmap pystr pystr)) :
  Forall (fun h => (RAG_SIMILARITY_THRESHOLD cfg <= similarity h)%Q)
    (search cfg self query top_k filter_metadata)
  /\ (documents self = [] -> search cfg self query top_k filter_metadata = []).
Proof.
  split.
  - unfold search.
    destruct (embedding_model self) as [encode|]; [|constructor].
    destruct (documents self); [constructor|].
    cbv zeta.
    destruct (similarities (encode query) (embeddings self)) as [sims|];
      [|constructor].
    destruct (collect cfg self filter_metadata sims _ []) as [out|] eqn:E;
      [|constructor].
    eapply collect_above_threshold; [|exact E]. constructor.
  - intros H. unfold search. rewrite H.
    destruct (embedding_model self); reflexivity.
Qed.

Lemma search_hits_above_threshold_witness :
  search default_settings
    (reset_collection {| embedding_model := Some (fun _ => [1; 0]%Q);
                         documents := [py "forfait"];
                         embeddings := [[1; 0]%Q];
                         metadata := [∅] |})
    (py "forfait") None None = [].
Proof.
  apply (search_hits_above_threshold default_settings
           (reset_collection {| embedding_model := Some (fun _ => [1; 0]%Q);
                                documents := [py "forfait"];
                                embeddings := [[1; 0]%Q];
                                metadata := [∅] |})
           (py "forfait") None None).
  reflexivity.
Defined.

End VectorStoreProps.

(* ===================================================================== *)
(** * Further properties of the modelled code                             *)
(* ===================================================================== *)

(** ** Arithmetic helpers *)

Lemma ofZ_succ (n : nat) : (ofZ (Z.of_nat (S n)) == ofZ (Z.of_nat n) + 1)%Q.
Proof.
  unfold ofZ. rewrite Nat2Z.inj_succ, <- Z.add_1_r, inject_Z_plus. reflexivity.
Qed.

Lemma ofZ_le (a b : Z) : (a <= b)%Z -> (ofZ a <= ofZ b)%Q.
Proof. intros H. unfold ofZ. rewrite <- Zle_Qle. exact H. Qed.

Lemma ofZ_lt (a b : Z) : (a < b)%Z -> (ofZ a < ofZ b)%Q.
Proof. intros H. unfold ofZ. rewrite <- Zlt_Qlt. exact H. Qed.

Lemma Qgtb_false (x y : Q) : Qgtb x y = false <-> (x <= y)%Q.
Proof.
  unfold Qgtb, Qltb. rewrite negb_false_iff. apply Qle_bool_iff.
Qed.

(** ** ComplaintDetector: score, confidence and the fields of a verdict *)

Module ComplaintScoreProps.

Import ComplaintDetector.

Lemma keyword_fold_ge (content : pystr) (l : list pystr) (score : Q) :
  (score + ofZ (Z.of_nat (length (List.filter (fun k => contains k content) l)))
   <= fold_left (fun score keyword =>
        if contains keyword content then
          let score := score + 1 in
          if str_mem keyword strong_keywords then score + (1#2) else score
        else score) l score)%Q.
Proof.
  revert score. induction l as [|w l IH]; intros score;
    cbn [fold_left List.filter length].
  - change (ofZ (Z.of_nat 0)) with 0%Q. lra.
  - destruct (contains w content); cbn [length]; [|apply IH].
    pose proof (ofZ_succ (length (List.filter (fun k => contains k content) l))) as Hs.
    cbv zeta.
    destruct (str_mem w strong_keywords).
    + specialize (IH (score + 1 + (1#2))%Q). cbv zeta in IH. lra.
    + specialize (IH (score + 1)%Q). cbv zeta in IH. lra.
Qed.

Lemma pattern_fold_eq (content : pystr) (l : list pystr) (score : Q) :
  (fold_left (fun score pattern =>
     if Re.search pattern content then score + 2 else score) l score
   == score + 2 * ofZ (Z.of_nat (length (List.filter
                                           (fun p => Re.search p content) l))))%Q.
Proof.
  revert score. induction l as [|w l IH]; intros score;
    cbn [fold_left List.filter length].
  - change (ofZ (Z.of_nat 0)) with 0%Q. lra.
  - destruct (Re.search w content); cbn [length]; [|apply IH].
    pose proof (ofZ_succ (length (List.filter (fun p => Re.search p content) l))) as Hs.
    rewrite IH. lra.
Qed.

Lemma repetition_fold_ge (content : pystr) (l : list pystr) (score : Q) :
  (score <= fold_left (fun score keyword =>
     let n := PyStr.count keyword content in
     if (n >? 1)%Z then score + ofZ (n - 1) * (3#10) else score) l score)%Q.
Proof.
  revert score. induction l as [|w l IH]; intros score; cbn [fold_left].
  - lra.
  - cbv zeta. destruct (PyStr.count w content >? 1)%Z eqn:E; [|apply IH].
    apply Z.gtb_lt in E.
    assert (H : (0 <= ofZ (PyStr.count w content - 1))%Q)
      by (apply ofZ_nonneg; lia).
    specialize (IH (score + ofZ (PyStr.count w content - 1) * (3#10))%Q).
    cbv zeta in IH. lra.
Qed.

Lemma caps_score_ge (content : pystr) (score : Q) :
  (score <= caps_score content score)%Q.
Proof. unfold caps_score. destruct (Qgtb _ _); lra. Qed.

Lemma keyword_score_ge (content : pystr) (score : Q) :
  (score + ofZ (Z.of_nat (length (_find_complaint_keywords content)))
   <= keyword_score content score)%Q.
Proof. unfold keyword_score, _find_complaint_keywords. apply keyword_fold_ge. Qed.

Lemma pattern_score_eq (content : pystr) (score : Q) :
  (pattern_score content score
   == score + 2 * ofZ (Z.of_nat (length (_find_complaint_patterns content))))%Q.
Proof. unfold pattern_score, _find_complaint_patterns. apply pattern_fold_eq. Qed.

Lemma repetition_score_ge (content : pystr) (score : Q) :
  (score <= repetition_score content score)%Q.
Proof. unfold repetition_score. apply repetition_fold_ge. Qed.

(** The score is at least one point for each keyword found and two for
    each pattern found. *)
Lemma complaint_score_lower_bound (content : pystr) :
  (ofZ (Z.of_nat (length (_find_complaint_keywords content)))
   + 2 * ofZ (Z.of_nat (length (_find_complaint_patterns content)))
   <= _calculate_complaint_score content)%Q.
Proof.
  unfold _calculate_complaint_score. cbv zeta.
  pose proof (keyword_score_ge content 0) as Hk.
  set (s1 := keyword_score content 0) in *.
  pose proof (pattern_score_eq content s1) as Hp.
  set (s2 := pattern_score content s1) in *.
  set (s3 := (s2 + ofZ (_count_negative_emojis content) * (1#2))%Q).
  pose proof (repetition_score_ge content s3) as Hr.
  set (s4 := repetition_score content s3) in *.
  pose proof (caps_score_ge content s4) as Hc.
  pose proof (ofZ_nonneg _ (count_negative_emojis_nonneg content)) as He.
  pose proof (ofZ_nonneg _ (count_nonneg (py "!") content)) as Hx.
  subst s3. lra.
Qed.

Lemma complaint_score_nonneg (content : pystr) :
  (0 <= _calculate_complaint_score content)%Q.
Proof.
  pose proof (complaint_score_lower_bound content) as H.
  pose proof (ofZ_nonneg (Z.of_nat (length (_find_complaint_keywords content)))
                (Nat2Z.is_nonneg _)) as Hk.
  pose proof (ofZ_nonneg (Z.of_nat (length (_find_complaint_patterns content)))
                (Nat2Z.is_nonneg _)) as Hp.
  lra.
Qed.

(** X1.  For every text the complaint score is never negative and the
    confidence [min(score / 10, 1)] lies between 0 and 1; it is 1 exactly
    from score 10 on. *)
Theorem complaint_confidence_range (content : pystr) :
  let v := detect_complaint content in
  (0 <= complaint_score v)%Q
  /\ (0 <= confidence v)%Q /\ (confidence v <= 1)%Q
  /\ ((confidence v == 1)%Q <-> (10 <= complaint_score v)%Q).
Proof.
  unfold detect_complaint. cbn [complaint_score confidence].
  pose proof (complaint_score_nonneg (lower content)) as H.
  set (s := _calculate_complaint_score (lower content)) in *.
  split; [exact H|].
  assert (Hd : (s / 10 == s * (1#10))%Q) by reflexivity.
  destruct (Q.min_spec (s / 10) 1) as [[Hlt Hm]|[Hle Hm]];
    rewrite Hm; rewrite Hd in *.
  - split; [lra|]. split; [lra|]. split; intros; lra.
  - split; [lra|]. split; [lra|]. split; intros; lra.
Qed.

(** X2.  A text in which the detector finds k keywords and p patterns has a
    score of at least k + 2p; so two patterns, or one pattern and one
    keyword, or three keywords are enough for a complaint whatever else the
    text holds. *)
Theorem keywords_and_patterns_suffice (content : pystr) :
  let v := detect_complaint content in
  (ofZ (Z.of_nat (length (keywords_found v)))
   + 2 * ofZ (Z.of_nat (length (patterns_found v))) <= complaint_score v)%Q
  /\ ((3 <= length (keywords_found v) + 2 * length (patterns_found v))%nat ->
      is_complaint v = true).
Proof.
  unfold detect_complaint. cbn [complaint_score keywords_found patterns_found is_complaint].
  pose proof (complaint_score_lower_bound (lower content)) as H.
  split; [exact H|].
  intros Hn. apply Qgeb_true.
  set (k := length (_find_complaint_keywords (lower content))) in *.
  set (p := length (_find_complaint_patterns (lower content))) in *.
  assert (Hz : (3 <= Z.of_nat k + 2 * Z.of_nat p)%Z) by lia.
  apply ofZ_le in Hz. unfold ofZ in *.
  rewrite inject_Z_plus, inject_Z_mult in Hz.
  change (inject_Z 3) with 3%Q in Hz. change (inject_Z 2) with 2%Q in Hz.
  lra.
Qed.

Lemma keywords_and_patterns_suffice_witness :
  is_complaint (detect_complaint (py "Service client nul")) = true.
Proof.
  apply (keywords_and_patterns_suffice (py "Service client nul")).
  vm_compute. lia.
Defined.

Lemma classify_not_unknown (content : pystr) (keywords : list pystr) :
  _classify_complaint_type content keywords <> Unknown.
Proof.
  unfold _classify_complaint_type.
  repeat match goal with |- context [if ?b then _ else _] => destruct b end;
    discriminate.
Qed.

Lemma complaint_urgency_cases (content : pystr) :
  is_complaint (detect_complaint content) = true ->
  v_urgency (detect_complaint content) <> Low.
Proof.
  unfold detect_complaint. cbn [is_complaint v_urgency]. intros H.
  apply Qgeb_true in H.
  apply ComplaintDetectorProps.calculate_urgency_not_low;
    [exact H|apply count_negative_emojis_nonneg|apply Nat2Z.is_nonneg
    |apply Nat2Z.is_nonneg].
Qed.

(** X3.  The fields of a verdict agree with one another: the text is a
    complaint exactly when the sentiment is ["negative"] or
    ["very_negative"]; a ["very_negative"] sentiment comes with urgency
    ["high"] or ["urgent"]; a text that is no complaint has a confidence
    below 0.3; and the type is never ["unknown"]. *)
Theorem verdict_fields_agree (content : pystr) :
  let v := detect_complaint content in
  (is_complaint v = true <->
   (v_sentiment v = Negative \/ v_sentiment v = VeryNegative))
  /\ (v_sentiment v = VeryNegative ->
      v_urgency v = High \/ v_urgency v = Urgent)
  /\ (is_complaint v = false -> (confidence v < 3#10)%Q)
  /\ v_type v <> Unknown.
Proof.
  unfold detect_complaint.
  cbn [is_complaint v_sentiment v_urgency confidence v_type].
  set (s := _calculate_complaint_score (lower content)).
  split; [|split; [|split]].
  - unfold _analyze_sentiment.
    destruct (Qgeb s 5) eqn:E5; destruct (Qgeb s 3) eqn:E3;
      destruct (Qgeb s 1) eqn:E1;
      repeat match goal with
             | H : Qgeb _ _ = true |- _ => apply Qgeb_true in H
             | H : Qgeb _ _ = false |- _ => apply Qgeb_false in H
             end;
      split; intros H; try discriminate; auto;
      try (destruct H; discriminate); try (exfalso; lra).
  - unfold _analyze_sentiment, _calculate_urgency.
    destruct (Qgeb s 5) eqn:E5.
    + intros _. apply Qgeb_true in E5.
      pose proof (ComplaintDetectorProps.urgency_score_ge s
                    (_count_negative_emojis content)
                    (Z.of_nat (length (_find_complaint_keywords (lower content))))
                    (Z.of_nat (length (_find_complaint_patterns (lower content))))
                    (count_negative_emojis_nonneg content)
                    (Nat2Z.is_nonneg _) (Nat2Z.is_nonneg _)) as Hu.
      destruct (Qgeb (urgency_score _ _ _ _) 8); [right; reflexivity|].
      destruct (Qgeb (urgency_score _ _ _ _) 5) eqn:E; [left; reflexivity|].
      apply Qgeb_false in E. exfalso. lra.
    + destruct (Qgeb s 3); [discriminate|]. destruct (Qgeb s 1); discriminate.
  - intros H. apply Qgeb_false in H.
    assert (Hd : (s / 10 == s * (1#10))%Q) by reflexivity.
    destruct (Q.min_spec (s / 10) 1) as [[Hlt Hm]|[Hle Hm]];
      rewrite Hm; rewrite Hd in *; lra.
  - apply classify_not_unknown.
Qed.

Lemma verdict_fields_agree_witness :
  v_sentiment (detect_complaint example_content) = Negative
  \/ v_sentiment (detect_complaint example_content) = VeryNegative.
Proof.
  apply (verdict_fields_agree example_content).
  vm_compute. reflexivity.
Defined.

End ComplaintScoreProps.

(** ** ComplaintDetector: [get_detection_stats] *)

Module DetectionStatsProps.

Import ComplaintDetector.

Lemma complaint_type_eqb_eq (a b : complaint_type) :
  complaint_type_eqb a b = true <-> a = b.
Proof. destruct a, b; simpl; split; congruence. Qed.

Lemma type_set_total (d : type_counts) (k : complaint_type) :
  type_total (type_set d k (type_get d k + 1)) = (type_total d + 1)%Z.
Proof.
  induction d as [|[k' v] d IH]; simpl.
  - lia.
  - destruct (complaint_type_eqb k' k); simpl; [lia|]. rewrite IH. lia.
Qed.

Lemma type_set_keys (d : type_counts) (k : complaint_type) (v : Z) (x : complaint_type) :
  In x (List.map fst (type_set d k v)) <-> In x (List.map fst d) \/ x = k.
Proof.
  induction d as [|[k' v'] d IH]; simpl.
  - intuition congruence.
  - destruct (complaint_type_eqb k' k) eqn:E; simpl.
    + apply complaint_type_eqb_eq in E. subst. intuition congruence.
    + rewrite IH. intuition.
Qed.

Lemma type_set_nodup (d : type_counts) (k : complaint_type) (v : Z) :
  NoDup (List.map fst d) -> NoDup (List.map fst (type_set d k v)).
Proof.
  induction d as [|[k' v'] d IH]; simpl; intros H.
  - constructor; [intros []|constructor].
  - inversion H as [|? ? Hnin Hnd]; subst.
    destruct (complaint_type_eqb k' k) eqn:E; simpl.
    + constructor; assumption.
    + constructor; [|apply IH; exact Hnd].
      rewrite type_set_keys. intros [Hin|Heq]; [contradiction|].
      subst. assert (complaint_type_eqb k k = true) by (apply complaint_type_eqb_eq; reflexivity).
      congruence.
Qed.

Lemma type_get_nonneg (d : type_counts) (k : complaint_type) :
  Forall (fun kv => (1 <= snd kv)%Z) d -> (0 <= type_get d k)%Z.
Proof.
  induction 1 as [|[k' v] d Hv _ IH]; simpl; [lia|].
  destruct (complaint_type_eqb k' k); simpl in *; lia.
Qed.

Lemma type_set_positive (d : type_counts) (k : complaint_type) (v : Z) :
  (1 <= v)%Z -> Forall (fun kv => (1 <= snd kv)%Z) d ->
  Forall (fun kv => (1 <= snd kv)%Z) (type_set d k v).
Proof.
  intros Hv. induction 1 as [|[k' v'] d Hv' Hd IH]; simpl.
  - repeat constructor. exact Hv.
  - destruct (complaint_type_eqb k' k); constructor; auto.
Qed.

Lemma Forall_and_l {A} (P Q : A -> Prop) (l : list A) :
  Forall (fun x => P x /\ Q x) l -> Forall P l.
Proof. intros H. eapply Forall_impl; [|exact H]. intros ? []; assumption. Qed.

Lemma type_set_invariant (d : type_counts) (k : complaint_type) :
  k <> Unknown ->
  Forall (fun kv => (1 <= snd kv)%Z /\ fst kv <> Unknown) d ->
  Forall (fun kv => (1 <= snd kv)%Z /\ fst kv <> Unknown)
    (type_set d k (type_get d k + 1)).
Proof.
  intros Hk H.
  pose proof (type_get_nonneg d k (Forall_and_l _ _ _ H)) as Hg.
  revert Hg. generalize (type_get d k). intros g Hg.
  induction H as [|[k' v'] d [Hv' Hk'] Hd IH]; simpl.
  - repeat constructor; simpl; [lia|exact Hk].
  - destruct (complaint_type_eqb k' k); constructor; simpl in *; auto.
    split; [lia|exact Hk'].
Qed.

Lemma detection_step_invariant (n : Z) (acc : Z * urgency_counts * type_counts)
    (post_content : option pystr) :
  stats_invariant n acc -> stats_invariant (n + 1) (detection_step acc post_content).
Proof.
  destruct acc as [[count uc] tc]. unfold stats_invariant, detection_step.
  intros (Hc & Hlow & Hm & Hh & Hu & Hut & Htt & Hnd & Hpos).
  set (content := match post_content with Some c => c | None => [] end).
  destruct (is_complaint (detect_complaint content)) eqn:E.
  - pose proof (ComplaintScoreProps.complaint_urgency_cases content E) as Hnl.
    assert (Hty : v_type (detect_complaint content) <> Unknown)
      by apply ComplaintScoreProps.classify_not_unknown.
    split; [lia|].
    unfold urgency_total in *.
    destruct (v_urgency (detect_complaint content)); [congruence| | |];
      cbn [incr_urgency uc_low uc_medium uc_high uc_urgent];
      (split; [exact Hlow|]); (split; [lia|]); (split; [lia|]); (split; [lia|]);
      (split; [lia|]); (split; [rewrite type_set_total; lia|]);
      (split; [apply type_set_nodup; exact Hnd|]);
      apply type_set_invariant; assumption.
  - repeat split; try assumption; lia.
Qed.

Lemma detection_fold_invariant (posts : list (option pystr)) (n : Z)
    (acc : Z * urgency_counts * type_counts) :
  stats_invariant n acc ->
  stats_invariant (n + len_list posts) (fold_left detection_step posts acc).
Proof.
  revert n acc. induction posts as [|p posts IH]; intros n acc H.
  - unfold len_list. simpl. rewrite Z.add_0_r. exact H.
  - cbn [fold_left].
    replace (n + len_list (p :: posts))%Z with ((n + 1) + len_list posts)%Z
      by (unfold len_list; cbn [length]; lia).
    apply IH. apply detection_step_invariant. exact H.
Qed.

(** X4.  The statistics of [get_detection_stats] are consistent for every
    list of posts: the number of complaints is between 0 and the number of
    posts, the rate is a percentage between 0 and 100, the urgency counters
    add up to the number of complaints with ["low"] always at 0, and the
    type counters add up to it as well, over distinct types with counts of
    at least 1 and never ["unknown"].  On an empty list, and only there,
    the result has no distribution; it is then all zeros, the rate
    included. *)
Theorem detection_stats_consistent (posts : list (option pystr)) :
  let s := get_detection_stats posts in
  ds_total s = len_list posts
  /\ (0 <= ds_complaints s <= ds_total s)%Z
  /\ (0 <= ds_complaint_rate s)%Q /\ (ds_complaint_rate s <= 100)%Q
  /\ match ds_urgency_distribution s with
     | Some uc => uc_low uc = 0%Z /\ urgency_total uc = ds_complaints s
     | None => posts = []
     end
  /\ match ds_type_distribution s with
     | Some tc => type_total tc = ds_complaints s
                  /\ NoDup (List.map fst tc)
                  /\ Forall (fun kv => (1 <= snd kv)%Z /\ fst kv <> Unknown) tc
     | None => posts = []
     end
  /\ (posts = [] ->
      s = {| ds_total := 0; ds_complaints := 0; ds_complaint_rate := 0;
             ds_urgency_distribution := None; ds_type_distribution := None |}).
Proof.
  destruct posts as [|p posts].
  - cbn. repeat split; try lia; try lra.
  - unfold get_detection_stats.
    set (l := p :: posts).
    pose proof (detection_fold_invariant l 0
                  (0%Z, {| uc_low := 0; uc_medium := 0; uc_high := 0; uc_urgent := 0 |}, []))
      as H.
    destruct (fold_left detection_step l _) as [[count uc] tc].
    cbn [ds_total ds_complaints ds_complaint_rate ds_urgency_distribution
         ds_type_distribution].
    destruct H as (Hc & Hlow & _ & _ & _ & Hut & Htt & Hnd & Hpos).
    { cbn. repeat split; try lia; constructor. }
    rewrite Z.add_0_l in Hc.
    assert (Hpos' : (0 < len_list l)%Z) by (unfold len_list, l; cbn [length]; lia).
    split; [reflexivity|]. split; [exact Hc|].
    assert (Hrate : (0 <= ofZ count / ofZ (len_list l))%Q
                    /\ (ofZ count / ofZ (len_list l) <= 1)%Q).
    { pose proof (ofZ_lt _ _ Hpos') as Hl. change (ofZ 0) with 0%Q in Hl.
      split.
      - apply Qle_shift_div_l; [exact Hl|]. rewrite Qmult_0_l.
        apply ofZ_nonneg. lia.
      - apply Qle_shift_div_r; [exact Hl|]. rewrite Qmult_1_l.
        apply ofZ_le. lia. }
    destruct (len_list l >? 0)%Z eqn:E; [|rewrite Z.gtb_ltb in E; apply Z.ltb_ge in E; lia].
    destruct Hrate as [Hr0 Hr1].
    split; [lra|]. split; [lra|].
    split; [split; assumption|].
    split; [repeat split; assumption|].
    unfold l. discriminate.
Qed.

Lemma detection_stats_consistent_witness :
  get_detection_stats []
  = {| ds_total := 0; ds_complaints := 0; ds_complaint_rate := 0;
       ds_urgency_distribution := None; ds_type_distribution := None |}.
Proof.
  destruct (detection_stats_consistent [])
    as (_ & _ & _ & _ & _ & _ & H).
  apply H. reflexivity.
Defined.

End DetectionStatsProps.

(** ** SentimentAnalyzer: ranges of a result *)

Module SentimentRangeProps.

Import SentimentAnalyzer.

Lemma split_len_from_nonneg (s : pystr) (in_word : bool) :
  (0 <= split_len_from s in_word)%Z.
Proof.
  revert in_word. induction s as [|c s IH]; intros in_word; simpl; [lia|].
  destruct (isspace_cp c); [apply IH|].
  specialize (IH true). destruct in_word; lia.
Qed.

Lemma keyword_weight_nonneg (keyword : pystr) :
  (0 <= 1 / ofZ (split_len keyword))%Q.
Proof.
  unfold Qdiv. rewrite Qmult_1_l. apply Qinv_le_0_compat.
  apply ofZ_nonneg. apply split_len_from_nonneg.
Qed.

Lemma keywords_fold_ge (message : pystr) (l : list pystr) (score : Q) :
  (score <= fold_left (fun score keyword =>
     if contains keyword message then score + 1 / ofZ (split_len keyword)
     else score) l score)%Q.
Proof.
  revert score. induction l as [|w l IH]; intros score; cbn [fold_left]; [lra|].
  destruct (contains w message); [|apply IH].
  pose proof (keyword_weight_nonneg w) as Hw.
  specialize (IH (score + 1 / ofZ (split_len w))%Q). lra.
Qed.

Lemma emojis_fold_ge (message : pystr) (l : list pystr) (score : Q) :
  (score <= fold_left (fun score emoji =>
     if contains emoji message then score + 2 else score) l score)%Q.
Proof.
  revert score. induction l as [|w l IH]; intros score; cbn [fold_left]; [lra|].
  destruct (contains w message); [|apply IH].
  specialize (IH (score + 2)%Q). lra.
Qed.

Lemma patterns_fold_ge (message : pystr) (l : list pystr) (score : Q) :
  (score <= fold_left (fun score pattern =>
     if Re.search_ignorecase pattern message then score + 3 else score)
     l score)%Q.
Proof.
  revert score. induction l as [|w l IH]; intros score; cbn [fold_left]; [lra|].
  destruct (Re.search_ignorecase w message); [|apply IH].
  specialize (IH (score + 3)%Q). lra.
Qed.

(** A raw lexicon score is never negative. *)
Lemma calculate_sentiment_score_nonneg (message : pystr) (lex : lexicon) :
  (0 <= _calculate_sentiment_score message lex)%Q.
Proof.
  unfold _calculate_sentiment_score. cbv zeta.
  eapply Qle_trans; [|apply patterns_fold_ge].
  eapply Qle_trans; [|apply emojis_fold_ge].
  apply keywords_fold_ge.
Qed.

Lemma Qpow_pos (n : nat) : (0 < Qpow (3#2) n)%Q.
Proof.
  induction n as [|n IH]; simpl; [reflexivity|].
  apply Qmult_lt_0_compat; [reflexivity|exact IH].
Qed.

Lemma repetitions_from_nonneg (s : pystr) (skip : nat) :
  (0 <= Re.repetitions_from s skip)%Z.
Proof.
  revert skip. induction s as [|c s IH]; intros skip; simpl; [lia|].
  destruct skip; [|apply IH].
  destruct (Re.repetition_at (c :: s)).
  - specialize (IH (Nat.pred n)). lia.
  - apply IH.
Qed.

Lemma repetition_factor_ge_1 (message : pystr) : (1 <= repetition_factor message)%Q.
Proof.
  unfold repetition_factor. cbv zeta.
  destruct (Re.repetitions message >? 0)%Z; [|lra].
  pose proof (ofZ_nonneg _ (repetitions_from_nonneg message 0)) as H.
  fold (Re.repetitions message) in H. lra.
Qed.

(** [_apply_modifiers] scales the score by a factor of at least 1. *)
Lemma apply_modifiers_factor (message : pystr) (score : Q) (sentiment_type : label) :
  (_apply_modifiers message score sentiment_type
   == score * (Qpow (3#2) (present_intensifiers message sentiment_type)
               * repetition_factor message))%Q.
Proof.
  unfold _apply_modifiers, repetition_factor. cbv zeta.
  assert (H : (intensify message score sentiment_type
               == score * Qpow (3#2) (present_intensifiers message sentiment_type))%Q)
    by apply SentimentAnalyzerProps.fold_intensifiers.
  destruct (Re.repetitions message >? 0)%Z; rewrite H; ring.
Qed.

Lemma modifier_factor_pos (message : pystr) (sentiment_type : label) :
  (0 < Qpow (3#2) (present_intensifiers message sentiment_type)
       * repetition_factor message)%Q.
Proof.
  apply Qmult_lt_0_compat; [apply Qpow_pos|].
  pose proof (repetition_factor_ge_1 message). lra.
Qed.

Lemma apply_modifiers_nonneg (message : pystr) (score : Q) (sentiment_type : label) :
  (0 <= score)%Q -> (0 <= _apply_modifiers message score sentiment_type)%Q.
Proof.
  intros H. rewrite apply_modifiers_factor.
  apply Qmult_le_0_compat; [exact H|].
  apply Qlt_le_weak. apply modifier_factor_pos.
Qed.

Lemma apply_modifiers_zero (message : pystr) (score : Q) (sentiment_type : label) :
  (score == 0)%Q -> (_apply_modifiers message score sentiment_type == 0)%Q.
Proof. intros H. rewrite apply_modifiers_factor, H. ring. Qed.

(** The three shares after normalisation. *)
Lemma normalised_shares (a b c : Q) :
  (0 <= a)%Q -> (0 <= b)%Q -> (0 <= c)%Q -> (0 < a + b + c)%Q ->
  (0 <= a / (a + b + c))%Q /\ (0 <= b / (a + b + c))%Q
  /\ (0 <= c / (a + b + c))%Q
  /\ (a / (a + b + c) + b / (a + b + c) + c / (a + b + c) == 1)%Q.
Proof.
  intros Ha Hb Hc Ht.
  assert (Hi : (0 <= / (a + b + c))%Q) by (apply Qinv_le_0_compat; lra).
  repeat split; try (apply Qmult_le_0_compat; assumption).
  field. intros H0. lra.
Qed.

Lemma pick_spec (p n u : Q) :
  (0 <= p)%Q -> (0 <= n)%Q -> (0 <= u)%Q ->
  (p <= 1)%Q -> (n <= 1)%Q -> (u <= 1)%Q ->
  let '(lbl, score) := pick p n u in
  (-1 <= score)%Q /\ (score <= 1)%Q
  /\ (0 <= Qmax (Qmax p n) u)%Q /\ (Qmax (Qmax p n) u <= 1)%Q
  /\ match lbl with
     | Positive => (0 < score)%Q /\ (Qmax (Qmax p n) u == score)%Q
     | Negative => (score < 0)%Q /\ (Qmax (Qmax p n) u == - score)%Q
     | Neutral => (score == 0)%Q
     end.
Proof.
  intros Hp Hn Hu Hp1 Hn1 Hu1. unfold pick.
  assert (Hm0 : (0 <= Qmax (Qmax p n) u)%Q).
  { eapply Qle_trans; [|apply Q.le_max_l]. eapply Qle_trans; [|apply Q.le_max_l].
    exact Hp. }
  assert (Hm1 : (Qmax (Qmax p n) u <= 1)%Q).
  { apply Q.max_lub; [apply Q.max_lub|]; assumption. }
  destruct (Qgtb p n) eqn:E1; [destruct (Qgtb p u) eqn:E2|]; cbn [andb].
  - apply Qgtb_true in E1, E2.
    repeat split; try lra.
    rewrite (Q.max_l p n) by lra. rewrite (Q.max_l p u) by lra. reflexivity.
  - destruct (Qgtb n p) eqn:E3; [apply Qgtb_true in E1, E3; lra|].
    cbn [andb]. repeat split; try lra.
  - destruct (Qgtb n p) eqn:E3; [destruct (Qgtb n u) eqn:E4|]; cbn [andb].
    + apply Qgtb_true in E3, E4.
      repeat split; try lra.
      rewrite (Q.max_r p n) by lra. rewrite (Q.max_l n u) by lra. ring.
    + repeat split; try lra.
    + repeat split; try lra.
Qed.

Lemma normalise_spec (a b c : Q) :
  (0 <= a)%Q -> (0 <= b)%Q -> (0 <= c)%Q ->
  let '(p, n, u) := normalise a b c in
  (0 <= p)%Q /\ (0 <= n)%Q /\ (0 <= u)%Q
  /\ (p <= 1)%Q /\ (n <= 1)%Q /\ (u <= 1)%Q
  /\ ((a == 0)%Q -> (p == 0)%Q) /\ ((b == 0)%Q -> (n == 0)%Q).
Proof.
  intros Ha Hb Hc. unfold normalise.
  destruct (Qgtb (a + b + c) 0) eqn:E.
  - apply Qgtb_true in E.
    destruct (normalised_shares a b c Ha Hb Hc E) as (H1 & H2 & H3 & H4).
    repeat split; try assumption; try lra.
    + intros H0. rewrite H0. unfold Qdiv. ring.
    + intros H0. rewrite H0. unfold Qdiv. ring.
  - apply Qgtb_false in E. repeat split; try assumption; try lra; intros; assumption.
Qed.

Lemma conclude_spec (m : pystr) (a b u : Q) :
  (0 <= a)%Q -> (0 <= b)%Q -> (0 <= u)%Q ->
  let r := conclude m a b u in
  (0 <= r_confidence r)%Q /\ (r_confidence r <= 1)%Q
  /\ (-1 <= r_score r)%Q /\ (r_score r <= 1)%Q
  /\ match r_label r with
     | Positive => (0 < r_score r)%Q /\ (r_confidence r == r_score r)%Q
     | Negative => (r_score r < 0)%Q /\ (r_confidence r == - r_score r)%Q
     | Neutral => (r_score r == 0)%Q
     end.
Proof.
  intros Ha Hb Hu. unfold conclude.
  pose proof (normalise_spec a b u Ha Hb Hu) as Hs.
  destruct (normalise a b u) as [[p n] u'].
  destruct Hs as (H1 & H2 & H3 & H4 & H5 & H6 & _).
  pose proof (pick_spec p n u' H1 H2 H3 H4 H5 H6) as Hk.
  destruct (pick p n u') as [lbl score].
  cbn [r_label r_score r_confidence].
  destruct Hk as (K1 & K2 & K3 & K4 & K5).
  repeat split; try assumption;
    destruct lbl; try (destruct K5; assumption); assumption.
Qed.

(** [analyze_sentiment] ends in [conclude], on the modified scores in the
    order the negation test leaves them. *)
Lemma analyze_sentiment_concludes (message : pystr) :
  exists a b u : Q,
    (0 <= a)%Q /\ (0 <= b)%Q /\ (0 <= u)%Q
    /\ analyze_sentiment message = conclude (lower message) a b u.
Proof.
  unfold analyze_sentiment, analyze_lowered. cbv zeta.
  set (m := lower message).
  pose proof (calculate_sentiment_score_nonneg m positive_patterns) as Hp0.
  pose proof (calculate_sentiment_score_nonneg m negative_patterns) as Hn0.
  pose proof (calculate_sentiment_score_nonneg m neutral_patterns) as Hu.
  apply (apply_modifiers_nonneg m _ Positive) in Hp0.
  apply (apply_modifiers_nonneg m _ Negative) in Hn0.
  set (p1 := _apply_modifiers m _ Positive) in *.
  set (n1 := _apply_modifiers m _ Negative) in *.
  set (u := _calculate_sentiment_score m neutral_patterns) in *.
  clearbody p1 n1 u.
  destruct (_has_negation m).
  - exists n1, p1, u. repeat split; try assumption.
  - exists p1, n1, u. repeat split; try assumption.
Qed.

(** X5.  For every message the confidence of [analyze_sentiment] lies
    between 0 and 1 and the score between -1 and 1; the score is positive
    for the label ["positive"], negative for ["negative"] and 0 for
    ["neutral"], and for the two polar labels the confidence is the absolute
    value of the score. *)
Theorem sentiment_result_ranges (message : pystr) :
  let r := analyze_sentiment message in
  (0 <= r_confidence r)%Q /\ (r_confidence r <= 1)%Q
  /\ (-1 <= r_score r)%Q /\ (r_score r <= 1)%Q
  /\ match r_label r with
     | Positive => (0 < r_score r)%Q /\ (r_confidence r == r_score r)%Q
     | Negative => (r_score r < 0)%Q /\ (r_confidence r == - r_score r)%Q
     | Neutral => (r_score r == 0)%Q
     end.
Proof.
  destruct (analyze_sentiment_concludes message) as (a & b & u & Ha & Hb & Hu & E).
  cbv zeta. rewrite E.
  apply conclude_spec; assumption.
Qed.

(** X6.  A message that holds a negation marker and no positive cue (no
    positive keyword, emoji or pattern) is never labelled ["negative"],
    whatever negative cues it holds: the negation swaps the two polar
    scores, and the swapped negative score is 0. *)
Theorem negation_without_positive_cue (message : pystr) :
  _has_negation (lower message) = true ->
  (_calculate_sentiment_score (lower message) positive_patterns == 0)%Q ->
  r_label (analyze_sentiment message) <> Negative.
Proof.
  unfold analyze_sentiment, analyze_lowered. cbv zeta.
  set (m := lower message). intros Hneg Hzero. rewrite Hneg.
  pose proof (calculate_sentiment_score_nonneg m negative_patterns) as Hn0.
  pose proof (calculate_sentiment_score_nonneg m neutral_patterns) as Hu.
  apply (apply_modifiers_nonneg m _ Negative) in Hn0.
  apply (apply_modifiers_zero m _ Positive) in Hzero.
  set (p1 := _apply_modifiers m _ Positive) in *.
  set (n1 := _apply_modifiers m _ Negative) in *.
  set (u := _calculate_sentiment_score m neutral_patterns) in *.
  clearbody p1 n1 u.
  assert (Hp1 : (0 <= p1)%Q) by lra.
  change (r_label (conclude m n1 p1 u) <> Negative). unfold conclude.
  pose proof (normalise_spec n1 p1 u Hn0 Hp1 Hu) as Hs.
  destruct (normalise n1 p1 u) as [[p n] u'].
  destruct Hs as (H1 & _ & H3 & _ & _ & _ & _ & Hz).
  specialize (Hz Hzero).
  unfold pick.
  destruct (Qgtb p n && Qgtb p u'); [discriminate|].
  destruct (Qgtb n p) eqn:E; [|cbn [andb]; discriminate].
  apply Qgtb_true in E. lra.
Qed.

Lemma negation_without_positive_cue_witness :
  r_label (analyze_sentiment (py "C'est nul")) <> Negative.
Proof.
  apply (negation_without_positive_cue (py "C'est nul")).
  - vm_compute. reflexivity.
  - vm_compute. reflexivity.
Defined.

(** ** SentimentAnalyzer: [get_sentiment_stats] *)

Lemma count_label_partition (sentiments : list result) :
  (count_label Positive sentiments + count_label Negative sentiments
   + count_label Neutral sentiments = len_list sentiments)%Z.
Proof.
  unfold count_label, len_list.
  induction sentiments as [|s l IH]; [reflexivity|].
  cbn [List.filter]. destruct (r_label s); cbn [label_eqb length]; lia.
Qed.

Lemma filter_len_le {A} (f : A -> bool) (l : list A) :
  (0 <= len_list (List.filter f l) <= len_list l)%Z.
Proof.
  unfold len_list. pose proof (List.filter_length_le f l). lia.
Qed.

Lemma sum_scores_fold (l : list result) (acc : Q) :
  Forall (fun s => (-1 <= r_score s)%Q /\ (r_score s <= 1)%Q) l ->
  (acc - ofZ (len_list l) <= fold_left (fun acc s => acc + r_score s) l acc)%Q
  /\ (fold_left (fun acc s => acc + r_score s) l acc <= acc + ofZ (len_list l))%Q.
Proof.
  intros H. revert acc. induction H as [|s l [H1 H2] _ IH]; intros acc.
  - unfold len_list. cbn [fold_left length].
    change (ofZ (Z.of_nat 0)) with 0%Q. lra.
  - cbn [fold_left]. destruct (IH (acc + r_score s)%Q) as [I1 I2].
    pose proof (ofZ_succ (length l)) as Hs.
    unfold len_list in *. cbn [length]. lra.
Qed.

Lemma all_scores_in_range (messages : list pystr) :
  Forall (fun s => (-1 <= r_score s)%Q /\ (r_score s <= 1)%Q)
    (List.map analyze_sentiment messages).
Proof.
  apply Forall_forall. intros s Hs. apply in_map_iff in Hs.
  destruct Hs as (msg & <- & _).
  destruct (analyze_sentiment_concludes msg) as (a & b & u & Ha & Hb & Hu & E).
  rewrite E.
  destruct (conclude_spec (lower msg) a b u Ha Hb Hu) as (_ & _ & H1 & H2 & _).
  split; assumption.
Qed.

Lemma share_in_unit (c t : Z) :
  (0 <= c <= t)%Z -> (0 < t)%Z ->
  (0 <= ofZ c / ofZ t)%Q /\ (ofZ c / ofZ t <= 1)%Q.
Proof.
  intros Hc Ht. pose proof (ofZ_lt _ _ Ht) as Hl. change (ofZ 0) with 0%Q in Hl.
  split.
  - apply Qle_shift_div_l; [exact Hl|]. rewrite Qmult_0_l. apply ofZ_nonneg. lia.
  - apply Qle_shift_div_r; [exact Hl|]. rewrite Qmult_1_l. apply ofZ_le. lia.
Qed.

(** X7.  The statistics of [get_sentiment_stats] are consistent for every
    list of messages: the three label counts add up to the number of
    messages, the three rates add up to 1 (as exact fractions), the average
    score lies between -1 and 1 and the share of high urgency between 0 and
    1.  On an empty list, and only there, the result has no rates; it is
    then the four zeros. *)
Theorem sentiment_stats_consistent (messages : list pystr) :
  let s := get_sentiment_stats messages in
  st_total s = len_list messages
  /\ (st_positive s + st_negative s + st_neutral s = st_total s)%Z
  /\ (0 <= st_positive s)%Z /\ (0 <= st_negative s)%Z /\ (0 <= st_neutral s)%Z
  /\ match st_rates s with
     | None => messages = []
     | Some r =>
         (positive_rate r + negative_rate r + neutral_rate r == 1)%Q
         /\ (-1 <= average_score r)%Q /\ (average_score r <= 1)%Q
         /\ (0 <= high_urgency_rate r)%Q /\ (high_urgency_rate r <= 1)%Q
     end
  /\ (messages = [] ->
      s = {| st_total := 0; st_positive := 0; st_negative := 0;
             st_neutral := 0; st_rates := None |}).
Proof.
  unfold get_sentiment_stats. cbv zeta.
  set (sentiments := List.map analyze_sentiment messages).
  assert (Hlen : len_list sentiments = len_list messages)
    by (unfold len_list, sentiments; rewrite length_map; reflexivity).
  destruct (len_list sentiments =? 0)%Z eqn:E.
  - apply Z.eqb_eq in E. cbn [st_total st_positive st_negative st_neutral st_rates].
    rewrite Hlen in E. repeat split; try lia.
    destruct messages; [reflexivity|]. unfold len_list in E. cbn [length] in E. lia.
  - apply Z.eqb_neq in E.
    cbn [st_total st_positive st_negative st_neutral st_rates positive_rate
         negative_rate neutral_rate average_score high_urgency_rate].
    pose proof (count_label_partition sentiments) as Hpart.
    pose proof (filter_len_le (fun s => label_eqb (r_label s) Positive) sentiments) as H1.
    pose proof (filter_len_le (fun s => label_eqb (r_label s) Negative) sentiments) as H2.
    pose proof (filter_len_le (fun s => label_eqb (r_label s) Neutral) sentiments) as H3.
    fold (count_label Positive sentiments) in H1.
    fold (count_label Negative sentiments) in H2.
    fold (count_label Neutral sentiments) in H3.
    assert (Ht : (0 < len_list sentiments)%Z) by (unfold len_list in *; lia).
    split; [exact Hlen|]. split; [exact Hpart|].
    split; [lia|]. split; [lia|]. split; [lia|].
    pose proof (ofZ_lt _ _ Ht) as Hl. change (ofZ 0) with 0%Q in Hl.
    split; [split; [|split; [|split; [|split]]]|].
    + rewrite <- Hpart at 1 2 3. unfold ofZ.
      rewrite <- Hpart in Hl. unfold ofZ in Hl.
      rewrite !inject_Z_plus in *. field. lra.
    + destruct (sum_scores_fold sentiments 0 (all_scores_in_range messages)) as [S1 _].
      fold (sum_scores sentiments) in S1.
      apply Qle_shift_div_l; [exact Hl|]. lra.
    + destruct (sum_scores_fold sentiments 0 (all_scores_in_range messages)) as [_ S2].
      fold (sum_scores sentiments) in S2.
      apply Qle_shift_div_r; [exact Hl|]. lra.
    + apply share_in_unit; [apply filter_len_le|exact Ht].
    + apply share_in_unit; [apply filter_len_le|exact Ht].
    + intros ->. unfold len_list in E. cbn in E. lia.
Qed.

Lemma sentiment_stats_consistent_witness :
  get_sentiment_stats []
  = {| st_total := 0; st_positive := 0; st_negative := 0; st_neutral := 0;
       st_rates := None |}.
Proof.
  destruct (sentiment_stats_consistent []) as (_ & _ & _ & _ & _ & _ & H).
  apply H. reflexivity.
Defined.

End SentimentRangeProps.

(** ** IntentDetector *)

Module IntentResultProps.

Import IntentDetector.

Lemma max_by_score_first (rest pre mid : list (intent * Q)) (best : intent * Q) :
  Forall (fun x => (snd x < snd best)%Q) pre ->
  Forall (fun x => (snd x <= snd best)%Q) mid ->
  exists pre' post,
    pre ++ best :: mid ++ rest = pre' ++ max_by_score best rest :: post
    /\ Forall (fun x => (snd x < snd (max_by_score best rest))%Q) pre'
    /\ Forall (fun x => (snd x <= snd (max_by_score best rest))%Q) post.
Proof.
  revert pre mid best. induction rest as [|x rest IH]; intros pre mid best Hpre Hmid.
  - exists pre, mid. rewrite app_nil_r. auto.
  - cbn [max_by_score].
    destruct (Qgtb (snd x) (snd best)) eqn:E.
    + apply Qgtb_true in E.
      destruct (IH (pre ++ best :: mid) [] x) as (pre' & post & Heq & H1 & H2).
      * apply Forall_app. split.
        -- eapply Forall_impl; [|exact Hpre]. cbn beta. intros; lra.
        -- constructor; [exact E|].
           eapply Forall_impl; [|exact Hmid]. cbn beta. intros; lra.
      * constructor.
      * exists pre', post. split; [|auto].
        rewrite <- Heq. cbn [app]. rewrite <- !app_assoc. reflexivity.
    + apply Qgtb_false in E.
      destruct (IH pre (mid ++ [x]) best Hpre) as (pre' & post & Heq & H1 & H2).
      * apply Forall_app. split; [exact Hmid|]. constructor; [exact E|constructor].
      * exists pre', post. split; [|auto].
        rewrite <- Heq. rewrite <- !app_assoc. reflexivity.
Qed.

(** X8.  [max] over the intent scores picks the first intent, in the
    order of the table, whose score is the highest: every entry before the
    winner has a strictly smaller score and no entry after it has a greater
    one. *)
Theorem first_maximum_wins (scores : list (intent * Q)) (i : intent) (s : Q) :
  max_score scores = Some (i, s) ->
  exists pre post,
    scores = pre ++ (i, s) :: post
    /\ Forall (fun x => (snd x < s)%Q) pre
    /\ Forall (fun x => (snd x <= s)%Q) post.
Proof.
  destruct scores as [|first rest]; [discriminate|].
  cbn [max_score]. intros [= H].
  destruct (max_by_score_first rest [] [] first) as (pre & post & Heq & H1 & H2);
    [constructor|constructor|].
  rewrite H in *. cbn [app snd] in *.
  exists pre, post. auto.
Qed.

Lemma first_maximum_wins_witness :
  exists pre post,
    [(Facturation, 1#5); (Technique, 1#2); (Forfait, 1#2)]
    = pre ++ (Technique, 1#2) :: post
    /\ Forall (fun x => (snd x < 1#2)%Q) pre
    /\ Forall (fun x => (snd x <= 1#2)%Q) post.
Proof.
  apply (first_maximum_wins [(Facturation, 1#5); (Technique, 1#2); (Forfait, 1#2)]
           Technique (1#2)).
  reflexivity.
Defined.

Lemma intent_score_range (message : pystr) (cfg : config) :
  (_calculate_intent_score message cfg <= 1)%Q.
Proof. unfold _calculate_intent_score. cbv zeta. apply Q.le_min_r. Qed.

Lemma max_by_score_in (rest : list (intent * Q)) (best : intent * Q) :
  In (max_by_score best rest) (best :: rest).
Proof.
  revert best. induction rest as [|x rest IH]; intros best; cbn [max_by_score].
  - left. reflexivity.
  - destruct (IH (if Qgtb (snd x) (snd best) then x else best)) as [H|H].
    + destruct (Qgtb (snd x) (snd best)); rewrite <- H; [right; left|left]; reflexivity.
    + right. right. exact H.
Qed.

Lemma intent_scores_keys (m : pystr) (i : intent) (s : Q) :
  In (i, s) (intent_scores m) ->
  exists cfg, In (i, cfg) intent_patterns /\ s = _calculate_intent_score m cfg.
Proof.
  unfold intent_scores. intros H. apply in_map_iff in H.
  destruct H as ([i' cfg] & [= <- <-] & Hin). exists cfg. auto.
Qed.

Lemma intent_patterns_not_general (cfg : config) :
  ~ In (General, cfg) intent_patterns.
Proof.
  unfold intent_patterns. cbn [In]. intros H.
  repeat (destruct H as [H|H]; [discriminate|]). exact H.
Qed.

Lemma detect_subcategory_named (m : pystr) (i : intent) (sc : pystr) :
  _detect_subcategory m i = Some sc ->
  exists subs, subcategories i = Some subs /\ In sc (List.map fst subs).
Proof.
  unfold _detect_subcategory.
  destruct (subcategories i) as [subs|]; [|discriminate].
  intros H. exists subs. split; [reflexivity|].
  assert (G : forall (l : list (pystr * list pystr)) (acc : option pystr * Z),
             fst (fold_left (fun (acc : option pystr * Z) sub =>
                    let score := count_if (fun k => contains k m) (snd sub) in
                    if (score >? snd acc)%Z then (Some (fst sub), score) else acc)
                  l acc) = Some sc ->
             fst acc = Some sc \/ In sc (List.map fst l)).
  { induction l as [|sub l IH]; intros acc Hf; cbn [fold_left] in Hf.
    - left. exact Hf.
    - apply IH in Hf. cbn [List.map In]. destruct Hf as [Hf|Hf]; [|auto].
      cbv zeta in Hf.
      destruct (count_if (fun k => contains k m) (snd sub) >? snd acc)%Z;
        [cbn [fst] in Hf; injection Hf as ->; auto|auto]. }
  destruct (G subs (None, 0%Z) H) as [Hn|Hin]; [discriminate|exact Hin].
Qed.

(** X9.  The result of [detect_intent] has one of two shapes.  The
    fall-back [general] comes with confidence 0.5, no sub-category and no
    keyword.  Any other category is one of the six of the table, and its
    confidence is the score of that category, between 0.3 and 1.  A
    sub-category, when there is one, is one of the names the table of
    sub-categories gives for the category. *)
Theorem intent_result_shape (message : pystr) :
  let r := detect_intent message in
  (category r = General ->
   (confidence r == 1#2)%Q /\ subcategory r = None /\ keywords_found r = [])
  /\ (category r <> General ->
      (3#10 <= confidence r)%Q /\ (confidence r <= 1)%Q
      /\ exists cfg, In (category r, cfg) intent_patterns
                     /\ (confidence r == _calculate_intent_score (lower message) cfg)%Q)
  /\ (forall sc, subcategory r = Some sc ->
      exists subs, subcategories (category r) = Some subs
                   /\ In sc (List.map fst subs)).
Proof.
  unfold detect_intent. cbv zeta. set (m := lower message).
  destruct (max_score (intent_scores m)) as [[bi bs]|] eqn:E.
  2: { unfold intent_scores, intent_patterns in E. discriminate. }
  assert (Hin : In (bi, bs) (intent_scores m)).
  { destruct (intent_scores m) as [|first rest]; [discriminate|].
    cbn [max_score] in E. injection E as E. rewrite <- E. apply max_by_score_in. }
  destruct (intent_scores_keys m bi bs Hin) as (cfg & Hcfg & ->).
  destruct (Qltb (_calculate_intent_score m cfg) confidence_threshold) eqn:Ef;
    cbn [category subcategory confidence keywords_found].
  - split; [|split].
    + intros _. split; [reflexivity|]. split; reflexivity.
    + intros H. exfalso. apply H. reflexivity.
    + intros sc H. discriminate.
  - unfold Qltb in Ef. apply negb_false_iff in Ef. apply Qle_bool_iff in Ef.
    unfold confidence_threshold in Ef.
    pose proof (intent_score_range m cfg) as H1.
    split; [|split].
    + intros ->. exfalso. exact (intent_patterns_not_general cfg Hcfg).
    + intros _. rewrite Q.min_l by exact H1.
      split; [exact Ef|]. split; [exact H1|]. exists cfg.
      split; [exact Hcfg|apply Q.min_l; exact H1].
    + intros sc. apply detect_subcategory_named.
Qed.

Lemma intent_result_shape_witness :
  (3#10 <= confidence (detect_intent
     (py "facture paiement prix tarif montant euros forfait data sms appel")))%Q.
Proof.
  apply (intent_result_shape
           (py "facture paiement prix tarif montant euros forfait data sms appel")).
  vm_compute. discriminate.
Defined.

End IntentResultProps.

(** ** VectorStore *)

Module VectorSearchProps.

Import VectorStore.

(** What the loop of [search] adds: hits for a sub-sequence of the indices
    it goes through, each above the threshold, taken from the store and
    passing the filter. *)
Lemma collect_spec (cfg : settings) (self : store)
    (filter_metadata : option (gmap pystr pystr)) (sims : list Q)
    (indices : list nat) (results out : list hit) :
  collect cfg self filter_metadata sims indices results = Some out ->
  exists idxs hits,
    out = results ++ hits
    /\ idxs `sublist_of` indices
    /\ Forall2 (fun idx h =>
         nth_error sims idx = Some (similarity h)
         /\ nth_error (documents self) idx = Some (content h)
         /\ nth_error (metadata self) idx = Some (hit_metadata h)
         /\ distance h = (1 - similarity h)%Q
         /\ passes_filter self filter_metadata idx = Some true) idxs hits.
Proof.
  revert results. induction indices as [|idx rest IH]; intros results; cbn [collect].
  - intros [= <-]. exists [], []. rewrite app_nil_r. repeat split; constructor.
  - destruct (nth_error sims idx) as [sim|] eqn:Es; [|discriminate].
    destruct (Qgeb sim (RAG_SIMILARITY_THRESHOLD cfg)).
    2: { intros H. destruct (IH _ H) as (idxs & hits & -> & Hs & Hf).
         exists idxs, hits. repeat split; [apply sublist_cons; exact Hs|exact Hf]. }
    destruct (passes_filter self filter_metadata idx) as [[|]|] eqn:Ep; [| |discriminate].
    2: { intros H. destruct (IH _ H) as (idxs & hits & -> & Hs & Hf).
         exists idxs, hits. repeat split; [apply sublist_cons; exact Hs|exact Hf]. }
    destruct (nth_error (documents self) idx) as [doc|] eqn:Ed; [|discriminate].
    destruct (nth_error (metadata self) idx) as [meta|] eqn:Em; [|discriminate].
    intros H. destruct (IH _ H) as (idxs & hits & -> & Hs & Hf).
    eexists (idx :: idxs), (_ :: hits). split; [rewrite <- app_assoc; reflexivity|].
    split; [apply sublist_skip; exact Hs|].
    constructor; [|exact Hf]. cbn [similarity content hit_metadata distance].
    repeat split; assumption.
Qed.

(** *** [argsort] *)

Lemma insert_index_perm (sims : list Q) (i : nat) (sorted : list nat) :
  Permutation (insert_index sims i sorted) (i :: sorted).
Proof.
  induction sorted as [|j rest IH]; cbn [insert_index]; [reflexivity|].
  destruct (Qltb (nth i sims 0%Q) (nth j sims 0%Q)); [reflexivity|].
  rewrite IH. apply perm_swap.
Qed.

Lemma argsort_fold_perm (sims : list Q) (l acc : list nat) :
  Permutation (fold_left (fun sorted i => insert_index sims i sorted) l acc)
    (l ++ acc).
Proof.
  revert acc. induction l as [|i l IH]; intros acc; cbn [fold_left app]; [reflexivity|].
  rewrite IH, insert_index_perm. symmetry. apply Permutation_middle.
Qed.

Lemma argsort_perm (sims : list Q) :
  Permutation (argsort sims) (seq 0 (length sims)).
Proof. unfold argsort. rewrite argsort_fold_perm, app_nil_r. reflexivity. Qed.

Lemma argsort_nodup (sims : list Q) : NoDup (rev (argsort sims)).
Proof.
  eapply Permutation_NoDup; [|apply seq_NoDup with (len := length sims) (start := 0%nat)].
  rewrite <- (Permutation_rev (argsort sims)). symmetry. apply argsort_perm.
Qed.

Lemma sublist_ListNoDup {A} (l1 l2 : list A) :
  l1 `sublist_of` l2 -> NoDup l2 -> NoDup l1.
Proof.
  intros Hs H. apply NoDup_ListNoDup. apply NoDup_ListNoDup in H.
  eapply sublist_NoDup; eassumption.
Qed.

Lemma argsort_in_range (sims : list Q) (i : nat) :
  In i (rev (argsort sims)) -> (i < length sims)%nat.
Proof.
  intros H. apply in_rev in H.
  eapply Permutation_in in H; [|apply argsort_perm].
  apply in_seq in H. lia.
Qed.

Lemma insert_index_sorted (sims : list Q) (i : nat) (sorted : list nat) :
  StronglySorted (fun a b => (nth a sims 0 <= nth b sims 0)%Q) sorted ->
  StronglySorted (fun a b => (nth a sims 0 <= nth b sims 0)%Q)
    (insert_index sims i sorted).
Proof.
  induction 1 as [|j rest Hs IH Hj]; cbn [insert_index].
  - repeat constructor.
  - destruct (Qltb (nth i sims 0%Q) (nth j sims 0%Q)) eqn:E.
    + unfold Qltb in E. apply negb_true_iff in E.
      assert (Hlt : (nth i sims 0 < nth j sims 0)%Q).
      { apply Qnot_le_lt. intros Hle. apply Qle_bool_iff in Hle. congruence. }
      constructor; [constructor; assumption|].
      constructor; [lra|].
      eapply Forall_impl; [|exact Hj]. cbn beta. intros; lra.
    + unfold Qltb in E. apply negb_false_iff in E. apply Qle_bool_iff in E.
      constructor; [exact IH|].
      eapply Permutation_Forall; [symmetry; apply insert_index_perm|].
      constructor; assumption.
Qed.

Lemma argsort_sorted (sims : list Q) :
  StronglySorted (fun a b => (nth a sims 0 <= nth b sims 0)%Q) (argsort sims).
Proof.
  unfold argsort. generalize (seq 0 (length sims)).
  assert (G : forall l acc,
             StronglySorted (fun a b => (nth a sims 0 <= nth b sims 0)%Q) acc ->
             StronglySorted (fun a b => (nth a sims 0 <= nth b sims 0)%Q)
               (fold_left (fun sorted i => insert_index sims i sorted) l acc)).
  { induction l as [|i l IH]; intros acc H; cbn [fold_left]; [exact H|].
    apply IH. apply insert_index_sorted. exact H. }
  intros l. apply G. constructor.
Qed.

Lemma StronglySorted_snoc {A} (R : A -> A -> Prop) (l : list A) (x : A) :
  StronglySorted R l -> Forall (fun y => R y x) l -> StronglySorted R (l ++ [x]).
Proof.
  induction 1 as [|y l Hs IH Hy]; intros Hx; cbn [app].
  - repeat constructor.
  - inversion Hx as [|? ? Hyx Hl]; subst.
    constructor; [apply IH; exact Hl|].
    apply Forall_app. split; [exact Hy|]. constructor; [exact Hyx|constructor].
Qed.

Lemma StronglySorted_rev {A} (R : A -> A -> Prop) (l : list A) :
  StronglySorted R l -> StronglySorted (fun a b => R b a) (rev l).
Proof.
  induction 1 as [|x l Hs IH Hx]; cbn [rev]; [constructor|].
  apply StronglySorted_snoc; [exact IH|]. apply Forall_rev. exact Hx.
Qed.

Lemma StronglySorted_sublist {A} (R : A -> A -> Prop) (l1 l2 : list A) :
  l1 `sublist_of` l2 -> StronglySorted R l2 -> StronglySorted R l1.
Proof.
  induction 1 as [|x l1 l2 Hsub IH|x l1 l2 Hsub IH]; intros Hs.
  - constructor.
  - inversion Hs as [|? ? Hs' Hx]; subst. constructor; [apply IH; exact Hs'|].
    apply Forall_forall. intros y Hy. rewrite Forall_forall in Hx. apply Hx.
    apply list_elem_of_In. eapply sublist_subseteq; [exact Hsub|].
    apply list_elem_of_In. exact Hy.
  - inversion Hs; subst. apply IH. assumption.
Qed.

Lemma slice_to_sublist {A} (k : Z) (l : list A) : slice_to k l `sublist_of` l.
Proof. unfold slice_to. destruct (0 <=? k)%Z; apply sublist_take. Qed.

Lemma slice_to_length {A} (k : Z) (l : list A) :
  (0 <= k)%Z -> (length (slice_to k l) <= Z.to_nat k)%nat.
Proof.
  intros H. unfold slice_to. destruct (Z.leb_spec 0 k); [|lia].
  rewrite length_firstn. lia.
Qed.

Lemma nth_error_map_inv {A B} (f : A -> B) (l : list A) (idx : nat) (y : B) :
  nth_error (List.map f l) idx = Some y ->
  exists x, nth_error l idx = Some x /\ y = f x.
Proof.
  revert idx. induction l as [|a l IH]; intros [|idx]; cbn; try discriminate.
  - intros [= <-]. exists a. auto.
  - apply IH.
Qed.

Lemma similarities_nth (q : vector) (rows : list vector) (sims : list Q)
    (idx : nat) (sim : Q) :
  similarities q rows = Some sims -> nth_error sims idx = Some sim ->
  exists row, nth_error rows idx = Some row /\ sim = dot q row.
Proof.
  unfold similarities. destruct rows as [|r rows]; [discriminate|].
  destruct (forallb _ _); [|discriminate].
  intros [= <-]. apply (nth_error_map_inv (dot q) (r :: rows)).
Qed.

(** The structure of a non-trivial answer of [search]. *)
Lemma search_spec (cfg : settings) (self : store) (query : pystr)
    (top_k : option Z) (filter_metadata : option (gmap pystr pystr)) :
  search cfg self query top_k filter_metadata = []
  \/ exists encode sims idxs,
       embedding_model self = Some encode
       /\ similarities (encode query) (embeddings self) = Some sims
       /\ idxs `sublist_of` slice_to (effective_top_k cfg top_k) (rev (argsort sims))
       /\ Forall2 (fun idx h =>
            nth_error sims idx = Some (similarity h)
            /\ nth_error (documents self) idx = Some (content h)
            /\ nth_error (metadata self) idx = Some (hit_metadata h)
            /\ distance h = (1 - similarity h)%Q
            /\ passes_filter self filter_metadata idx = Some true)
            idxs (search cfg self query top_k filter_metadata).
Proof.
  unfold search.
  destruct (embedding_model self) as [encode|]; [|left; reflexivity].
  destruct (documents self) eqn:Ed; [left; reflexivity|]. rewrite <- Ed.
  cbv zeta.
  destruct (similarities (encode query) (embeddings self)) as [sims|] eqn:Es;
    [|left; reflexivity].
  destruct (collect cfg self filter_metadata sims _ []) as [out|] eqn:Ec;
    [|left; reflexivity].
  right. destruct (collect_spec _ _ _ _ _ _ _ Ec) as (idxs & hits & -> & Hs & Hf).
  exists encode, sims, idxs. repeat split; try reflexivity; assumption.
Qed.

(** X10.  Every hit of [search] is a document of the store: its content and
    metadata are those stored at one position, its similarity is the dot
    product of the embedding stored there with the embedding of the query,
    and its distance is 1 minus that.  No position is returned twice, and
    with a [top_k] that is not negative there are at most [top_k] hits. *)
Theorem search_returns_stored_documents (cfg : settings) (self : store)
    (query : pystr) (top_k : option Z)
    (filter_metadata : option (gmap pystr pystr)) :
  (exists idxs,
     NoDup idxs
     /\ Forall2 (hit_at self query) idxs
          (search cfg self query top_k filter_metadata))
  /\ ((0 <= effective_top_k cfg top_k)%Z ->
      (len_list (search cfg self query top_k filter_metadata)
       <= effective_top_k cfg top_k)%Z).
Proof.
  destruct (search_spec cfg self query top_k filter_metadata)
    as [->|(encode & sims & idxs & Hm & Hs & Hsub & Hf)].
  { split; [exists []; split; constructor|]. unfold len_list. cbn [length]. lia. }
  split.
  - exists idxs. split.
    + eapply sublist_ListNoDup; [exact Hsub|].
      eapply sublist_ListNoDup; [apply slice_to_sublist|apply argsort_nodup].
    + revert Hf. apply Forall2_impl.
      intros idx h (H1 & H2 & H3 & H4 & _). unfold hit_at.
      destruct (similarities_nth _ _ _ _ _ Hs H1) as (row & Hr & Heq).
      repeat split; try assumption. exists encode, row. auto.
  - intros Hk. unfold len_list.
    pose proof (Forall2_length Hf) as Hl. rewrite <- Hl.
    pose proof (sublist_length _ _ Hsub) as H1.
    pose proof (slice_to_length (effective_top_k cfg top_k) (rev (argsort sims)) Hk) as H2.
    lia.
Qed.

Lemma search_returns_stored_documents_witness :
  (len_list (search default_settings sample_store (py "bonjour") (Some 1%Z) None)
   <= 1)%Z.
Proof.
  apply (search_returns_stored_documents default_settings sample_store
           (py "bonjour") (Some 1%Z) None).
  cbn. lia.
Defined.

(** X11.  The hits of [search] come in the order of their similarity, the
    most similar first. *)
Theorem search_hits_descending (cfg : settings) (self : store) (query : pystr)
    (top_k : option Z) (filter_metadata : option (gmap pystr pystr)) :
  StronglySorted (fun h1 h2 => (similarity h2 <= similarity h1)%Q)
    (search cfg self query top_k filter_metadata).
Proof.
  destruct (search_spec cfg self query top_k filter_metadata)
    as [->|(encode & sims & idxs & Hm & Hs & Hsub & Hf)]; [constructor|].
  assert (Hidx : StronglySorted (fun a b => (nth b sims 0 <= nth a sims 0)%Q) idxs).
  { eapply StronglySorted_sublist; [exact Hsub|].
    eapply StronglySorted_sublist; [apply slice_to_sublist|].
    apply (StronglySorted_rev (fun a b => (nth a sims 0 <= nth b sims 0)%Q)).
    apply argsort_sorted. }
  revert Hidx. generalize (search cfg self query top_k filter_metadata) Hf.
  clear. intros hits Hf.
  induction Hf as [|idx h idxs hits (H1 & _) Hf IH]; intros Hidx; [constructor|].
  inversion Hidx as [|? ? Hs Hx]; subst.
  constructor; [apply IH; exact Hs|].
  clear IH Hs Hidx. induction Hf as [|idx' h' idxs hits (H1' & _) Hf IH];
    [constructor|].
  inversion Hx as [|? ? Hle Hx']; subst.
  constructor; [|apply IH; exact Hx'].
  rewrite (nth_error_nth _ _ 0%Q H1), (nth_error_nth _ _ 0%Q H1') in Hle.
  exact Hle.
Qed.

Lemma passes_filter_matches (self : store) (f : gmap pystr pystr) (idx : nat)
    (meta : gmap pystr pystr) :
  passes_filter self (Some f) idx = Some true ->
  nth_error (metadata self) idx = Some meta ->
  matches_filter f meta.
Proof.
  unfold passes_filter, matches_filter.
  destruct (decide (f = ∅)) as [->|Hne].
  - intros _ _ k v H. rewrite lookup_empty in H. discriminate.
  - intros H Hm. rewrite Hm in H. injection H as H.
    rewrite forallb_forall in H.
    intros k v Hkv. specialize (H (k, v)).
    apply bool_decide_eq_true in H; [exact H|].
    apply list_elem_of_In. apply elem_of_map_to_list. exact Hkv.
Qed.

(** X12.  With a metadata filter, every hit of [search] has, for each key
    of the filter, the value the filter asks for. *)
Theorem search_respects_filter (cfg : settings) (self : store) (query : pystr)
    (top_k : option Z) (f : gmap pystr pystr) :
  Forall (fun h => matches_filter f (hit_metadata h))
    (search cfg self query top_k (Some f)).
Proof.
  destruct (search_spec cfg self query top_k (Some f))
    as [->|(encode & sims & idxs & Hm & Hs & Hsub & Hf)]; [constructor|].
  clear Hsub Hs Hm.
  induction Hf as [|idx h idxs' hits (_ & _ & H3 & _ & H5) Hf IH]; constructor.
  - eapply passes_filter_matches; eassumption.
  - exact IH.
Qed.

(** X13.  Round trip through an emptied store: after [add_documents] of one
    document, a search for its own content returns exactly that document,
    with its metadata and the similarity of its embedding with itself,
    provided that similarity reaches the threshold and [top_k] is at least
    1. *)
Theorem add_then_search_finds (cfg : settings) (self : store)
    (encode : pystr -> vector) (c : pystr) (meta : gmap pystr pystr)
    (top_k : option Z) :
  embedding_model self = Some encode ->
  (RAG_SIMILARITY_THRESHOLD cfg <= dot (encode c) (encode c))%Q ->
  (1 <= effective_top_k cfg top_k)%Z ->
  search cfg (snd (add_documents (reset_collection self) [(c, meta)])) c top_k None
  = [ {| content := c; hit_metadata := meta;
         distance := 1 - dot (encode c) (encode c);
         similarity := dot (encode c) (encode c) |} ].
Proof.
  intros Hm Hthr Hk.
  destruct self as [m d e md]. cbn [embedding_model] in Hm. subst m.
  unfold add_documents, reset_collection, search.
  cbn [embedding_model snd documents embeddings metadata List.map app fst].
  cbv zeta. unfold similarities. cbn [forallb List.map].
  rewrite Nat.eqb_refl. cbn [andb].
  fold (effective_top_k cfg top_k).
  change (argsort [dot (encode c) (encode c)]) with [0%nat]. cbn [rev app].
  assert (Hs : slice_to (effective_top_k cfg top_k) [0%nat] = [0%nat]).
  { unfold slice_to. destruct (Z.leb_spec 0 (effective_top_k cfg top_k)); [|lia].
    destruct (Z.to_nat (effective_top_k cfg top_k)) eqn:E; [lia|].
    cbn [firstn]. destruct n; reflexivity. }
  rewrite Hs. cbn [collect nth_error].
  apply Qgeb_true in Hthr. rewrite Hthr.
  cbn [passes_filter documents metadata nth_error app]. reflexivity.
Qed.

Lemma add_then_search_finds_witness :
  search default_settings
    (snd (add_documents (reset_collection sample_store) [(py "bonjour", ∅)]))
    (py "bonjour") None None
  = [ {| content := py "bonjour"; hit_metadata := ∅;
         distance := 1 - dot (sample_encode (py "bonjour")) (sample_encode (py "bonjour"));
         similarity := dot (sample_encode (py "bonjour")) (sample_encode (py "bonjour")) |} ].
Proof.
  apply (add_then_search_finds default_settings sample_store sample_encode
           (py "bonjour") ∅ None).
  - reflexivity.
  - vm_compute. discriminate.
  - cbn. lia.
Defined.

(** A filter on one key finds nothing when no stored metadata have the
    value asked for. *)
Lemma search_filter_without_match (cfg : settings) (self : store) (query : pystr)
    (top_k : option Z) (k v : pystr) :
  Forall (fun meta => meta !! k <> Some v) (metadata self) ->
  search cfg self query top_k (Some {[ k := v ]}) = [].
Proof.
  intros Hall.
  destruct (search_spec cfg self query top_k (Some {[ k := v ]}))
    as [H|(encode & sims & idxs & _ & _ & _ & Hf)]; [exact H|].
  destruct Hf as [|idx h idxs' hits (_ & _ & H3 & _ & H5) _]; [reflexivity|].
  exfalso.
  pose proof (passes_filter_matches self {[ k := v ]} idx (hit_metadata h) H5 H3)
    as Hm.
  rewrite Forall_forall in Hall.
  apply (Hall (hit_metadata h)).
  - eapply nth_error_In. exact H3.
  - apply Hm. apply lookup_singleton_eq.
Qed.

(** X14.  The context text of [get_relevant_context] is bounded: with a
    [MAX_CONTEXT_LENGTH] that is not negative its length is at most that
    limit plus the three characters of the ellipsis, and a text longer
    than the limit is made of exactly [MAX_CONTEXT_LENGTH] characters
    followed by the ellipsis.  A store without documents gives the empty
    text, and so does a context type that no stored document has as its
    ["type"]. *)
Theorem relevant_context_bounded (cfg : settings) (max_length : Z) (self : store)
    (query : pystr) (context_type : option pystr) :
  (0 <= max_length)%Z ->
  (len (get_relevant_context cfg max_length self query context_type)
   <= max_length + 3)%Z
  /\ ((max_length < len (get_relevant_context cfg max_length self query context_type))%Z ->
      exists prefix, get_relevant_context cfg max_length self query context_type
                     = prefix ++ py "..." /\ len prefix = max_length)
  /\ (documents self = [] ->
      get_relevant_context cfg max_length self query context_type = [])
  /\ (forall t, context_type = Some t -> t <> [] ->
      Forall (fun meta => meta !! py "type" <> Some t) (metadata self) ->
      get_relevant_context cfg max_length self query context_type = []).
Proof.
  intros Hmax.
  split; [|split; [|split]].
  - unfold get_relevant_context. cbv zeta.
    match goal with
    | |- context [search cfg self query None ?x] => set (f := x)
    end.
    destruct (search cfg self query None f) as [|h hits]; [unfold len; cbn; lia|].
    set (context := join _ _).
    destruct (len context >? max_length)%Z eqn:E.
    + unfold len, slice_to. destruct (Z.leb_spec 0 max_length); [|lia].
      rewrite length_app, length_firstn.
      change (length (py "...")) with 3%nat. lia.
    + rewrite Z.gtb_ltb in E. apply Z.ltb_ge in E. lia.
  - unfold get_relevant_context. cbv zeta.
    match goal with
    | |- context [search cfg self query None ?x] => set (f := x)
    end.
    destruct (search cfg self query None f) as [|h hits]; [unfold len; cbn; lia|].
    set (context := join _ _).
    destruct (len context >? max_length)%Z eqn:E.
    + intros _. exists (slice_to max_length context). split; [reflexivity|].
      rewrite Z.gtb_ltb in E. apply Z.ltb_lt in E.
      unfold len, slice_to in *. destruct (Z.leb_spec 0 max_length); [|lia].
      rewrite length_firstn. lia.
    + rewrite Z.gtb_ltb in E. apply Z.ltb_ge in E. lia.
  - intros Hd. unfold get_relevant_context. cbv zeta.
    match goal with
    | |- context [search cfg self query None ?x] => set (f := x)
    end.
    assert (Hn : search cfg self query None f = []).
    { unfold search. rewrite Hd. destruct (embedding_model self); reflexivity. }
    rewrite Hn. reflexivity.
  - intros t -> Hne Hall. destruct t as [|c t]; [congruence|].
    unfold get_relevant_context. cbv beta iota zeta.
    match goal with
    | |- context [search cfg self query None ?x] => set (f := x)
    end.
    assert (Hn : search cfg self query None f = [])
      by (apply search_filter_without_match; exact Hall).
    rewrite Hn. reflexivity.
Qed.

Lemma relevant_context_bounded_witness :
  let context :=
    get_relevant_context default_settings 10 sample_store (py "bonjour")
      (Some (py "faq")) in
  (len context <= 10 + 3)%Z
  /\ (exists prefix, context = prefix ++ py "..." /\ len prefix = 10%Z)
  /\ get_relevant_context default_settings 10 sample_store (py "bonjour")
       (Some (py "xfaq")) = [].
Proof.
  intros context.
  destruct (relevant_context_bounded default_settings 10 sample_store
              (py "bonjour") (Some (py "faq"))) as (H1 & H2 & _); [lia|].
  destruct (relevant_context_bounded default_settings 10 sample_store
              (py "bonjour") (Some (py "xfaq"))) as (_ & _ & _ & H4); [lia|].
  split; [exact H1|]. split; [apply H2; vm_compute; reflexivity|].
  apply (H4 (py "xfaq")); [reflexivity|vm_compute; discriminate|].
  repeat constructor; intros H; vm_compute in H; discriminate.
Defined.

End VectorSearchProps.

(** ** AutoResponder: what a call of [process_post] leaves behind *)

Module ProcessPostProps.

Import ComplaintDetector LinkGenerator AutoResponder.

Lemma startswith_app (a b : pystr) : startswith a (a ++ b) = true.
Proof.
  induction a as [|c a IH]; [reflexivity|].
  cbn [app startswith]. rewrite N.eqb_refl. exact IH.
Qed.

Lemma startswith_app3 (a b c rest : pystr) :
  startswith (a ++ b ++ c) (a ++ b ++ c ++ rest) = true.
Proof.
  rewrite (app_assoc b c rest), (app_assoc a (b ++ c) rest).
  apply startswith_app.
Qed.

Lemma contains_startswith (sub s : pystr) :
  startswith sub s = true -> contains sub s = true.
Proof. intros H. destruct s; cbn [contains]; rewrite H; reflexivity. Qed.

Lemma contains_here (sub b : pystr) : contains sub (sub ++ b) = true.
Proof. apply contains_startswith, startswith_app. Qed.

Lemma contains_app_r (sub a b : pystr) :
  contains sub b = true -> contains sub (a ++ b) = true.
Proof.
  intros H. induction a as [|c a IH]; [exact H|].
  cbn [app contains]. rewrite IH. apply orb_true_r.
Qed.

Lemma response_message_parts (user : pystr) (t : complaint_type) (g : urgency)
    (contact_url : pystr) :
  startswith (py "Bonjour @" ++ user ++ py ",")
    (generate_response_message user t g contact_url) = true
  /\ contains contact_url (generate_response_message user t g contact_url) = true.
Proof.
  unfold generate_response_message. cbv zeta. split.
  - apply startswith_app3.
  - repeat first [apply contains_here | apply contains_app_r].
Qed.

Lemma escalation_message_parts (user : pystr) (t : complaint_type)
    (contact_url : pystr) :
  startswith (py "Bonjour @" ++ user ++ py ",")
    (generate_escalation_message user t contact_url) = true
  /\ contains contact_url (generate_escalation_message user t contact_url) = true.
Proof.
  unfold generate_escalation_message. split.
  - apply startswith_app3.
  - repeat first [apply contains_here | apply contains_app_r].
Qed.

Lemma reply_text_parts (p : post) (v : verdict) (contact_url : pystr) :
  startswith (py "Bonjour @" ++ p_username p ++ py ",")
    (reply_text (_generate_response_message p v contact_url)) = true
  /\ contains contact_url
       (reply_text (_generate_response_message p v contact_url)) = true.
Proof.
  unfold _generate_response_message. cbv zeta.
  destruct (v_urgency v); cbn [reply_text].
  1-3: apply response_message_parts.
  apply escalation_message_parts.
Qed.

Lemma skipn_snoc {A} (n : nat) (l : list A) (x : A) :
  (n <= length l)%nat -> skipn n (l ++ [x]) = skipn n l ++ [x].
Proof.
  intros H. rewrite skipn_app.
  replace (n - length l)%nat with 0%nat by lia. reflexivity.
Qed.

(** [_save_response_history] puts the new entry at the end and keeps at
    most 1000 entries. *)
Lemma save_response_history_spec (self : responder) (now : Z) (p : post)
    (r : response) (tok : pystr) (ctx : context_data) :
  let self' := _save_response_history self now p r tok ctx in
  (exists older e, response_history self' = older ++ [e]
     /\ h_link_token e = tok /\ h_post_id e = p_id p
     /\ h_response_id e = resp_id r)
  /\ ((length (response_history self) <= 1000)%nat ->
      (length (response_history self') <= 1000)%nat)
  /\ link_generator self' = link_generator self
  /\ response_count self' = response_count self
  /\ last_response_time self' = last_response_time self.
Proof.
  unfold _save_response_history. cbv zeta.
  cbn [response_history link_generator response_count last_response_time].
  split; [|split; [|auto]].
  - match goal with
    | |- context [(1000 <? ?n)%nat] => destruct (Nat.ltb_spec 1000 n) as [Hl|Hl]
    end.
    + unfold last_n. rewrite length_app in *. cbn [length] in *.
      rewrite skipn_snoc by lia.
      eexists _, _. split; [reflexivity|]. cbn. auto.
    + eexists _, _. split; [reflexivity|]. cbn. auto.
  - intros Hle.
    match goal with
    | |- context [(1000 <? ?n)%nat] => destruct (Nat.ltb_spec 1000 n) as [Hl|Hl]
    end.
    + unfold last_n. rewrite length_skipn. rewrite length_app in *.
      cbn [length] in *. lia.
    + exact Hl.
Qed.

(** X15.  A call of [process_post] that returns nothing leaves the
    responder as it was (counter, time of the last reply, history), whether
    it stopped at the rate limit, at a post that is no complaint, at an
    empty token or at a reply that could not be delivered; and when it
    stopped at the rate limit no call was made at all. *)
Theorem unanswered_post_leaves_responder (cfg : settings) (self : responder)
    (p : post) (env : respond_env) :
  fst (fst (process_post cfg self p env)) = None ->
  snd (fst (process_post cfg self p env)) = self
  /\ (_can_respond cfg self (t_check env) = false ->
      snd (process_post cfg self p env) = []).
Proof.
  unfold process_post.
  destruct (_can_respond cfg self (t_check env)) eqn:Hcan; cbn [negb fst snd];
    [|intros _; split; reflexivity].
  cbv zeta.
  destruct (is_complaint (detect_complaint (p_content p)));
    cbn [negb fst snd]; [|intros _; split; [reflexivity|discriminate]].
  unfold generate_contact_link. cbn [token url context].
  destruct (_generate_unique_token (digest env));
    cbn [fst snd]; [intros _; split; [reflexivity|discriminate]|].
  destruct (delivery env); cbn [fst snd];
    [discriminate|intros _; split; [reflexivity|discriminate]].
Qed.

Lemma unanswered_post_leaves_responder_witness :
  snd (fst (process_post default_settings (init default_settings)
              calm_post (env_at 0)))
  = init default_settings.
Proof.
  apply (unanswered_post_leaves_responder default_settings
           (init default_settings) calm_post (env_at 0)).
  vm_compute. reflexivity.
Defined.

(** X16.  When [process_post] returns a result, the rate limit let the
    call through and the post is a complaint; exactly two calls were made,
    the detection and one reply to the post; the text of that reply greets
    the author of the post and holds the contact link built around the
    token of the result; the reply was delivered; and the responder now has
    the time of this reply as [last_response_time] and, as last entry of
    its history, one for this post, this reply and this token. *)
Theorem sent_reply_carries_link (cfg : settings) (self : responder)
    (p : post) (env : respond_env) (s : sent) :
  fst (fst (process_post cfg self p env)) = Some s ->
  _can_respond cfg self (t_check env) = true
  /\ is_complaint (detect_complaint (p_content p)) = true
  /\ s_post_id s = p_id p
  /\ s_link_token s = _generate_unique_token (digest env)
  /\ s_link_token s <> []
  /\ (exists msg,
        snd (process_post cfg self p env)
        = [DetectComplaint (p_id p); StatusPost (p_id p) msg]
        /\ startswith (py "Bonjour @" ++ p_username p ++ py ",")
             (reply_text msg) = true
        /\ contains (contact_url_of (link_generator self) (s_link_token s))
             (reply_text msg) = true)
  /\ (exists r, delivery env = Some r /\ s_response_id s = resp_id r)
  /\ (let self' := snd (fst (process_post cfg self p env)) in
      last_response_time self' = Some (t_sent env)
      /\ exists older e, response_history self' = older ++ [e]
           /\ h_link_token e = s_link_token s /\ h_post_id e = p_id p
           /\ h_response_id e = s_response_id s).
Proof.
  unfold process_post.
  destruct (_can_respond cfg self (t_check env)) eqn:Hcan; cbn [negb fst snd];
    [|discriminate].
  cbv zeta.
  destruct (is_complaint (detect_complaint (p_content p))) eqn:Hc;
    cbn [negb fst snd]; [|discriminate].
  unfold generate_contact_link. cbn [token url context].
  destruct (_generate_unique_token (digest env)) as [|c tok] eqn:Htok;
    cbn [fst snd]; [discriminate|].
  destruct (delivery env) as [r|] eqn:Hd; cbn [fst snd]; [|discriminate].
  intros [= <-]. cbn [s_post_id s_link_token s_response_id].
  repeat (split; [first [reflexivity | discriminate]|]).
  split; [|split].
  - eexists. split; [reflexivity|].
    apply reply_text_parts.
  - exists r. split; reflexivity.
  - match goal with
    | |- context [_save_response_history ?a ?b ?c ?d ?e ?f] =>
        destruct (save_response_history_spec a b c d e f)
          as (Hh & _ & _ & _ & Hl)
    end.
    cbv zeta in Hh, Hl. split.
    + rewrite Hl. reflexivity.
    + exact Hh.
Qed.

Lemma sent_reply_carries_link_witness :
  exists s,
    fst (fst (process_post default_settings (init default_settings)
                complaint_post (env_at 0))) = Some s
    /\ s_link_token s = _generate_unique_token (digest (env_at 0))
    /\ is_complaint (detect_complaint (p_content complaint_post)) = true.
Proof.
  eexists. split; [vm_compute; reflexivity|].
  match goal with
  | |- s_link_token ?s = _ /\ _ =>
      destruct (sent_reply_carries_link default_settings (init default_settings)
                  complaint_post (env_at 0) s) as (_ & Hc & _ & Ht & _)
  end.
  - vm_compute. reflexivity.
  - split; [exact Ht|exact Hc].
Defined.

Lemma process_post_history_bound (cfg : settings) (self : responder) (p : post)
    (env : respond_env) :
  (length (response_history self) <= 1000)%nat ->
  (length (response_history (snd (fst (process_post cfg self p env)))) <= 1000)%nat.
Proof.
  intros H. unfold process_post.
  destruct (_can_respond cfg self (t_check env)); cbn [negb fst snd]; [|exact H].
  cbv zeta.
  destruct (is_complaint (detect_complaint (p_content p)));
    cbn [negb fst snd]; [|exact H].
  unfold generate_contact_link. cbn [token url context].
  destruct (_generate_unique_token (digest env)); cbn [fst snd]; [exact H|].
  destruct (delivery env); cbn [fst snd]; [|exact H].
  match goal with
  | |- context [_save_response_history ?a ?b ?c ?d ?e ?f] =>
      destruct (save_response_history_spec a b c d e f) as (_ & Hb & _)
  end.
  cbv zeta in Hb. apply Hb. exact H.
Qed.

(** X17.  The history of a responder never holds more than 1000 entries,
    whatever calls of [process_post] and [clear_response_history] were made
    since it was created, and so [get_response_history] never returns more
    than 1000 entries either. *)
Theorem response_history_bounded (cfg : settings) (calls : list call) (limit : Z) :
  (length (response_history (run cfg (init cfg) calls)) <= 1000)%nat
  /\ (length (get_response_history (run cfg (init cfg) calls) limit) <= 1000)%nat.
Proof.
  assert (H : forall self,
             (length (response_history self) <= 1000)%nat ->
             (length (response_history (run cfg self calls)) <= 1000)%nat).
  { induction calls as [|c calls IH]; intros self Hs; [exact Hs|].
    cbn [run fold_left]. apply IH.
    destruct c as [p env|]; cbn [step].
    - apply process_post_history_bound. exact Hs.
    - cbn. lia. }
  specialize (H (init cfg)). cbn [init response_history length] in H.
  specialize (H ltac:(lia)).
  split; [exact H|].
  unfold get_response_history, slice_from.
  destruct (response_history (run cfg (init cfg) calls)) as [|e l] eqn:E;
    [cbn; lia|].
  destruct (- limit <? 0)%Z; rewrite length_skipn; lia.
Qed.

(** X18.  [get_response_history(limit)] with a positive [limit] returns
    the last [limit] entries of the history, in their order, or the whole
    history when it is shorter; with [limit = 0] it returns the whole
    history and not an empty list. *)
Theorem response_history_limit (self : responder) (limit : Z) :
  (0 <= limit)%Z ->
  (exists older, response_history self = older ++ get_response_history self limit)
  /\ ((0 < limit)%Z ->
      Z.of_nat (length (get_response_history self limit))
      = Z.min limit (Z.of_nat (length (response_history self))))
  /\ (limit = 0%Z -> get_response_history self limit = response_history self).
Proof.
  intros Hl. unfold get_response_history, slice_from.
  destruct (response_history self) as [|e l] eqn:E.
  - split; [exists []; reflexivity|]. split; [cbn; lia|reflexivity].
  - split; [|split].
    + destruct (- limit <? 0)%Z.
      * exists (firstn (length (e :: l) - Z.to_nat (- - limit)) (e :: l)).
        symmetry. apply firstn_skipn.
      * exists (firstn (Z.to_nat (- limit)) (e :: l)).
        symmetry. apply firstn_skipn.
    + intros Hp. destruct (Z.ltb_spec (- limit) 0); [|lia].
      rewrite length_skipn. lia.
    + intros ->. reflexivity.
Qed.

Lemma response_history_limit_witness :
  get_response_history (run default_settings (init default_settings)
                          [ProcessPost complaint_post (env_at 0)]) 0
  = response_history (run default_settings (init default_settings)
                        [ProcessPost complaint_post (env_at 0)]).
Proof.
  apply (response_history_limit
           (run default_settings (init default_settings)
              [ProcessPost complaint_post (env_at 0)]) 0).
  - lia.
  - reflexivity.
Defined.

End ProcessPostProps.

(** ** MastodonCollector: counters and the calls of a batch *)

Module CollectorBatchProps.

Import MastodonCollector.

Lemma replied_ids_app (l1 l2 : list event) :
  replied_ids (l1 ++ l2) = replied_ids l1 ++ replied_ids l2.
Proof. unfold replied_ids. apply flat_map_app. Qed.

Lemma replied_ids_event_id (log : list event) (i : option pystr) :
  In i (replied_ids log) -> exists e, In e log /\ event_id e = i.
Proof.
  unfold replied_ids. intros H. apply in_flat_map in H.
  destruct H as (e & He & Hi). exists e. split; [exact He|].
  destruct e; cbn in Hi; [contradiction|].
  destruct Hi as [<-|[]]. reflexivity.
Qed.

(** One call of [process_post] posts at most one reply, to its post, and it
    returns a result exactly when it updates the responder. *)
Lemma process_post_replies (cfg : settings) (self : AutoResponder.responder)
    (p : post) (env : AutoResponder.respond_env) :
  replied_ids (snd (AutoResponder.process_post cfg self p env)) = []
  \/ replied_ids (snd (AutoResponder.process_post cfg self p env)) = [p_id p].
Proof.
  unfold AutoResponder.process_post.
  destruct (AutoResponder._can_respond cfg self (AutoResponder.t_check env));
    cbn [negb snd]; [|left; reflexivity].
  cbv zeta.
  destruct (ComplaintDetector.is_complaint
              (ComplaintDetector.detect_complaint (p_content p)));
    cbn [negb snd]; [|left; reflexivity].
  unfold LinkGenerator.generate_contact_link.
  cbn [LinkGenerator.token LinkGenerator.url LinkGenerator.context].
  destruct (LinkGenerator._generate_unique_token (AutoResponder.digest env));
    cbn [snd]; [left; reflexivity|].
  destruct (AutoResponder.delivery env); cbn [snd app]; right; reflexivity.
Qed.

(** What [_process_single_post] does to the counters and to the responder. *)
Lemma process_single_post_counters (cfg : settings) (self : collector) (p : post)
    (env : post_env) :
  let self' := fst (_process_single_post cfg self p env) in
  let log := snd (_process_single_post cfg self p env) in
  processed_posts self' = processed_posts self
  /\ total_posts_processed (c_stats self') = total_posts_processed (c_stats self)
  /\ (complaints_detected (c_stats self) <= complaints_detected (c_stats self')
      <= complaints_detected (c_stats self) + 1)%Z
  /\ (responses_sent (c_stats self) <= responses_sent (c_stats self')
      <= responses_sent (c_stats self)
         + (complaints_detected (c_stats self') - complaints_detected (c_stats self)))%Z
  /\ (replied_ids log = [] \/ replied_ids log = [p_id p])
  /\ (AUTO_RESPOND cfg = false ->
      replied_ids log = [] /\ auto_responder self' = auto_responder self
      /\ responses_sent (c_stats self') = responses_sent (c_stats self)).
Proof.
  unfold _process_single_post. cbv zeta.
  destruct (ComplaintDetector.is_complaint
              (ComplaintDetector.detect_complaint (p_content p)));
    [|cbn [fst snd]; repeat split; try lia; auto].
  destruct (AUTO_RESPOND cfg).
  - pose proof (process_post_replies cfg (auto_responder self) p (respond env)) as Hr.
    destruct (AutoResponder.process_post cfg (auto_responder self) p (respond env))
      as [[result responder] log'].
    cbn [fst snd] in *.
    assert (Hl : replied_ids ([DetectComplaint (p_id p)] ++ log') = replied_ids log')
      by reflexivity.
    rewrite Hl.
    destruct result; cbn [c_stats processed_posts bump_responses bump_complaints
                          total_posts_processed complaints_detected responses_sent];
      repeat split; try lia; auto; discriminate.
  - cbn [fst snd c_stats processed_posts auto_responder bump_complaints
         total_posts_processed complaints_detected responses_sent].
    repeat split; try lia; auto.
Qed.

Lemma process_one_counters (cfg : settings) (self : collector) (p : post)
    (env : post_env) :
  counters_consistent self ->
  counters_consistent (fst (process_one cfg self (p, env))).
Proof.
  intros H. unfold process_one.
  destruct (decide (p_id p ∈ processed_posts self)) as [Hin|Hnin];
    cbn [fst]; [exact H|].
  destruct (_is_recent_post p (t_recent env)); cbn [negb fst]; [|exact H].
  destruct (_is_free_mobile_related cfg p); cbn [negb fst]; [|exact H].
  destruct (process_single_post_counters cfg self p env)
    as (Hp & Ht & Hc & Hr & _).
  destruct (_process_single_post cfg self p env) as [self' log].
  cbn [fst snd] in *.
  unfold counters_consistent in *.
  cbn [c_stats processed_posts bump_processed total_posts_processed
       complaints_detected responses_sent].
  rewrite Hp, Ht.
  rewrite size_union by (apply disjoint_singleton_r; exact Hnin).
  rewrite size_singleton.
  destruct H as (H1 & H2 & H3 & H4). lia.
Qed.

(** X19.  After any batch handled by a fresh collector, the counter
    [total_posts_processed] is the number of ids in [processed_posts], and
    [responses_sent <= complaints_detected <= total_posts_processed]. *)
Theorem collector_counters_consistent (cfg : settings)
    (posts : list (post * post_env)) :
  let self := fst (_process_posts cfg (init cfg) posts) in
  total_posts_processed (c_stats self) = Z.of_nat (size (processed_posts self))
  /\ (0 <= responses_sent (c_stats self))%Z
  /\ (responses_sent (c_stats self) <= complaints_detected (c_stats self))%Z
  /\ (complaints_detected (c_stats self) <= total_posts_processed (c_stats self))%Z.
Proof.
  assert (H : forall self, counters_consistent self ->
                           counters_consistent (fst (_process_posts cfg self posts))).
  { induction posts as [|[p env] posts IH]; intros self Hs; [exact Hs|].
    cbn [_process_posts].
    pose proof (process_one_counters cfg self p env Hs) as H1.
    destruct (process_one cfg self (p, env)) as [self1 log1].
    cbn [fst] in H1. specialize (IH self1 H1).
    destruct (_process_posts cfg self1 posts) as [self2 log2].
    exact IH. }
  apply (H (init cfg)).
  unfold counters_consistent, init.
  cbn [c_stats processed_posts total_posts_processed complaints_detected
       responses_sent].
  rewrite size_empty. lia.
Qed.

Lemma process_one_gate (cfg : settings) (self : collector) (p : post)
    (env : post_env) :
  snd (process_one cfg self (p, env)) <> [] ->
  _is_recent_post p (t_recent env) = true
  /\ _is_free_mobile_related cfg p = true.
Proof.
  unfold process_one.
  destruct (decide (p_id p ∈ processed_posts self)); cbn [snd]; [congruence|].
  destruct (_is_recent_post p (t_recent env)); cbn [negb snd]; [|congruence].
  destruct (_is_free_mobile_related cfg p); cbn [negb snd]; [|congruence].
  auto.
Qed.

(** X20.  Every call that [_process_posts] makes, detection or reply, is
    about a post of the batch that is less than 24 hours old at the time it
    is looked at, mentions one of the monitored keywords or hashtags, and
    whose id was not in [processed_posts] before the batch. *)
Theorem calls_only_for_monitored_posts (cfg : settings) (self : collector)
    (posts : list (post * post_env)) :
  Forall (fun e => exists p env,
            In (p, env) posts
            /\ event_id e = p_id p
            /\ _is_recent_post p (t_recent env) = true
            /\ _is_free_mobile_related cfg p = true
            /\ p_id p ∉ processed_posts self)
    (snd (_process_posts cfg self posts)).
Proof.
  revert self. induction posts as [|[p env] posts IH]; intros self.
  - constructor.
  - cbn [_process_posts].
    destruct (MastodonCollectorProps.process_one_spec cfg self p env)
      as (Hsub & Hrec & Hev).
    pose proof (process_one_gate cfg self p env) as Hg.
    destruct (process_one cfg self (p, env)) as [self1 log1].
    cbn [fst snd] in *. specialize (IH self1).
    destruct (_process_posts cfg self1 posts) as [self2 log2].
    cbn [snd] in *. apply Forall_app. split.
    + destruct log1 as [|e1 log1]; [constructor|].
      destruct Hrec as [Hnin _]; [discriminate|].
      destruct Hg as [Hr Hm]; [discriminate|].
      eapply Forall_impl; [|exact Hev].
      intros e He. cbn beta in He. exists p, env.
      split; [left; reflexivity|]. auto.
    + eapply Forall_impl; [|exact IH].
      intros e (q & envq & Hin & Hid & Hr & Hm & Hnin). exists q, envq.
      split; [right; exact Hin|]. repeat split; auto.
Qed.

(** X21.  With [AUTO_RESPOND] off a batch posts no reply, leaves the
    responder as it was and does not move [responses_sent]. *)
Theorem no_reply_when_auto_respond_off (cfg : settings) (self : collector)
    (posts : list (post * post_env)) :
  AUTO_RESPOND cfg = false ->
  replied_ids (snd (_process_posts cfg self posts)) = []
  /\ auto_responder (fst (_process_posts cfg self posts)) = auto_responder self
  /\ responses_sent (c_stats (fst (_process_posts cfg self posts)))
     = responses_sent (c_stats self).
Proof.
  intros Hoff. revert self.
  induction posts as [|[p env] posts IH]; intros self.
  - cbn. auto.
  - cbn [_process_posts].
    assert (H1 : replied_ids (snd (process_one cfg self (p, env))) = []
                 /\ auto_responder (fst (process_one cfg self (p, env)))
                    = auto_responder self
                 /\ responses_sent (c_stats (fst (process_one cfg self (p, env))))
                    = responses_sent (c_stats self)).
    { unfold process_one.
      destruct (decide (p_id p ∈ processed_posts self)); cbn [fst snd]; [auto|].
      destruct (_is_recent_post p (t_recent env)); cbn [negb fst snd]; [|auto].
      destruct (_is_free_mobile_related cfg p); cbn [negb fst snd]; [|auto].
      destruct (process_single_post_counters cfg self p env)
        as (_ & _ & _ & _ & _ & Hq).
      destruct (_process_single_post cfg self p env) as [self' log].
      cbn [fst snd] in *. destruct (Hq Hoff) as (Ha & Hb & Hc).
      cbn [auto_responder c_stats bump_processed responses_sent]. auto. }
    destruct (process_one cfg self (p, env)) as [self1 log1].
    cbn [fst snd] in H1. specialize (IH self1).
    destruct (_process_posts cfg self1 posts) as [self2 log2].
    cbn [fst snd] in *. rewrite replied_ids_app.
    destruct H1 as (Ha & Hb & Hc). destruct IH as (Ia & Ib & Ic).
    rewrite Ha, Ia, Ib, Ic. auto.
Qed.

Lemma no_reply_when_auto_respond_off_witness :
  replied_ids
    (snd (_process_posts quiet_settings (init quiet_settings)
            [(complaint_post, {| t_recent := 0%Z; respond := env_at 0 |})]))
  = [].
Proof.
  apply (no_reply_when_auto_respond_off quiet_settings (init quiet_settings)
           [(complaint_post, {| t_recent := 0%Z; respond := env_at 0 |})]).
  reflexivity.
Defined.

Lemma process_one_replies (cfg : settings) (self : collector) (p : post)
    (env : post_env) :
  replied_ids (snd (process_one cfg self (p, env))) = []
  \/ (replied_ids (snd (process_one cfg self (p, env))) = [p_id p]
      /\ snd (process_one cfg self (p, env)) <> []).
Proof.
  unfold process_one.
  destruct (decide (p_id p ∈ processed_posts self)); cbn [snd]; [left; reflexivity|].
  destruct (_is_recent_post p (t_recent env)); cbn [negb snd]; [|left; reflexivity].
  destruct (_is_free_mobile_related cfg p); cbn [negb snd]; [|left; reflexivity].
  destruct (process_single_post_counters cfg self p env)
    as (_ & _ & _ & _ & Hq & _).
  destruct (_process_single_post cfg self p env) as [self' log].
  cbn [fst snd] in *. destruct Hq as [Hq|Hq]; [left; exact Hq|].
  right. split; [exact Hq|]. intros ->. discriminate.
Qed.

(** X22.  In one batch no post is answered twice: the ids that the replies
    of [_process_posts] answer are all different, also when the batch holds
    the same post several times, and none of them was in [processed_posts]
    before. *)
Theorem no_post_answered_twice (cfg : settings) (self : collector)
    (posts : list (post * post_env)) :
  List.NoDup (replied_ids (snd (_process_posts cfg self posts)))
  /\ Forall (fun i => i ∉ processed_posts self)
       (replied_ids (snd (_process_posts cfg self posts))).
Proof.
  revert self. induction posts as [|[p env] posts IH]; intros self.
  - cbn. split; constructor.
  - cbn [_process_posts].
    destruct (MastodonCollectorProps.process_one_spec cfg self p env)
      as (Hsub & Hrec & _).
    pose proof (process_one_replies cfg self p env) as Hr.
    pose proof (fun i => MastodonCollectorProps.process_posts_spec cfg posts
                           (fst (process_one cfg self (p, env))) i) as Hlater.
    destruct (process_one cfg self (p, env)) as [self1 log1].
    cbn [fst snd] in *. specialize (IH self1).
    destruct (_process_posts cfg self1 posts) as [self2 log2].
    cbn [fst snd] in *. destruct IH as [IHn IHf].
    rewrite replied_ids_app.
    assert (IHf' : Forall (fun i => i ∉ processed_posts self) (replied_ids log2)).
    { eapply Forall_impl; [|exact IHf]. intros i Hi Hin. apply Hi, Hsub, Hin. }
    destruct Hr as [Hr|[Hr Hne]]; rewrite Hr; cbn [app].
    + split; [exact IHn|exact IHf'].
    + destruct (Hrec Hne) as [Hnin Hin]. split.
      * constructor; [|exact IHn].
        intros Hi. apply replied_ids_event_id in Hi.
        destruct Hi as (e & He & Hid).
        destruct (Hlater (p_id p) Hin) as [_ Hf].
        rewrite Forall_forall in Hf. exact (Hf e He Hid).
      * constructor; [exact Hnin|exact IHf'].
Qed.

End CollectorBatchProps.

(** ** LinkGenerator: the variants of a contact URL *)

Module UrlVariantProps.

Import LinkGenerator.

Lemma py_http : py "http://" = [104; 116; 116; 112; 58; 47; 47]%N.
Proof. vm_compute. reflexivity. Qed.

Lemma py_https : py "https://" = [104; 116; 116; 112; 115; 58; 47; 47]%N.
Proof. vm_compute. reflexivity. Qed.

(** X23.  The [mobile] variant that [get_contact_url_variants] returns
    never starts with ["http://"]: a URL that does comes back starting with
    ["https://"], any other URL comes back as it is. *)
Theorem mobile_variant_not_plain_http (base_url : pystr) :
  startswith (py "http://") (uv_mobile (get_contact_url_variants base_url)) = false
  /\ (if startswith (py "http://") base_url
      then startswith (py "https://")
             (uv_mobile (get_contact_url_variants base_url)) = true
      else uv_mobile (get_contact_url_variants base_url) = base_url).
Proof.
  unfold get_contact_url_variants. cbn [uv_mobile].
  rewrite py_http, py_https.
  destruct (startswith [104; 116; 116; 112; 58; 47; 47]%N base_url) eqn:E;
    [|split; [exact E|reflexivity]].
  destruct base_url as [|c t]; [discriminate|].
  unfold replace. cbn [replace_from]. rewrite E.
  split; [reflexivity|].
  apply ProcessPostProps.startswith_app.
Qed.

End UrlVariantProps.
